(** * VNDB distribution analysis: a shallow embedding of
      [vndb_distribution_analysis.py] and the properties of its pipeline.

    The script is a sequence of HTTP queries, list accumulations and
    arithmetic reductions.  Python values that come from the service are
    modelled as JSON trees, the script's effects (requests, sleeps, console
    lines, file dumps, uncaught exceptions) by a small state-and-error monad
    over an event trace. *)

From Stdlib Require Import ZArith List String Ascii Bool Lia QArith Qabs.
From Stdlib Require Import Sorting.Mergesort Sorting.Sorted Sorting.Permutation.
From Stdlib Require Import Orders.
From Stdlib Require DecimalString DecimalZ DecimalPos.
Import ListNotations.

Set Warnings "-register-all".

Local Open Scope string_scope.
Local Open Scope list_scope.
Local Open Scope Z_scope.

(** ** Python values *)

(** Values decoded from JSON.  Numbers are the integers the script works
    with (counts, vote counts, lengths); [JNull] is Python's [None]. *)
Inductive json : Type :=
| JNull
| JBool (b : bool)
| JInt (n : Z)
| JStr (s : string)
| JArr (items : list json)
| JObj (fields : list (string * json)).

(** A Python [dict] with string keys, in insertion order. *)
Definition dict : Type := list (string * json).

Fixpoint dict_get (k : string) (d : dict) : option json :=
  match d with
  | [] => None
  | (k', v) :: d' => if String.eqb k k' then Some v else dict_get k d'
  end.

(** [k in d] *)
Definition dict_mem (k : string) (d : dict) : bool :=
  match dict_get k d with Some _ => true | None => false end.

(** Python truth value testing. *)
Definition truthy (v : json) : bool :=
  match v with
  | JNull => false
  | JBool b => b
  | JInt n => negb (n =? 0)
  | JStr s => negb (String.eqb s "")
  | JArr items => match items with [] => false | _ => true end
  | JObj fields => match fields with [] => false | _ => true end
  end.

(** Truth value of [d.get(k)]: a missing key yields [None]. *)
Definition truthy_get (k : string) (d : dict) : bool :=
  match dict_get k d with Some v => truthy v | None => false end.

(** Truth value of an optional integer bound ([None] or an [int]). *)
Definition truthy_bound (b : option Z) : bool :=
  match b with Some u => negb (u =? 0) | None => false end.

(** Truth value of the result of [query_vndb] ([None] or a [dict]). *)
Definition truthy_result (r : option dict) : bool :=
  match r with Some (_ :: _) => true | _ => false end.

(** ** Bucket definitions and filter construction *)

(** A bucket triple [(lower, upper-or-None, label)]. *)
Definition triple : Type := (Z * option Z * string)%type.

Definition votecount_ranges : list triple :=
  [ (10000, None, "10,000+");
    (5000, Some 10000, "5,000-10,000");
    (2000, Some 5000, "2,000-5,000");
    (1000, Some 2000, "1,000-2,000");
    (500, Some 1000, "500-1,000");
    (250, Some 500, "250-500");
    (100, Some 250, "100-250");
    (50, Some 100, "50-100");
    (25, Some 50, "25-50");
    (10, Some 25, "10-25");
    (5, Some 10, "5-10");
    (1, Some 5, "1-5");
    (0, Some 1, "0-1") ].

Definition sales_estimate_ranges : list triple :=
  [ (100000, None, "100k+");
    (50000, Some 100000, "50k-100k");
    (25000, Some 50000, "25k-50k");
    (10000, Some 25000, "10k-25k");
    (5000, Some 10000, "5k-10k");
    (1000, Some 5000, "1k-5k") ].

(** [[field, op, n]] *)
Definition cmp (field op : string) (n : Z) : json :=
  JArr [JStr field; JStr op; JInt n].

(** [["and", f1, f2]] *)
Definition and2 (f1 f2 : json) : json := JArr [JStr "and"; f1; f2].

(** Step 1, the body of the loop up to the query: [if max_votes: ... else: ...]. *)
Definition votecount_filter (min_votes : Z) (max_votes : option Z) : json :=
  match max_votes with
  | Some u =>
      if truthy_bound max_votes
      then and2 (cmp "votecount" ">" min_votes) (cmp "votecount" "<=" u)
      else cmp "votecount" ">" min_votes
  | None => cmp "votecount" ">" min_votes
  end.

(** Step 5: the sales bounds are converted with [// 75] first. *)
Definition sales_min_votes (min_sales : Z) : Z := min_sales / 75.

Definition sales_max_votes (max_sales : option Z) : option Z :=
  match max_sales with
  | Some s => if truthy_bound max_sales then Some (s / 75) else None
  | None => None
  end.

Definition sales_filter (min_sales : Z) (max_sales : option Z) : json :=
  let min_votes := sales_min_votes min_sales in
  let max_votes := sales_max_votes max_sales in
  match max_votes with
  | Some u =>
      if truthy_bound max_votes
      then and2 (cmp "votecount" ">" min_votes) (cmp "votecount" "<=" u)
      else cmp "votecount" ">" min_votes
  | None => cmp "votecount" ">" min_votes
  end.

(** ** Meaning of a filter expression

    The filters are evaluated by the remote service.  Its grammar is the
    one the script writes: a comparison [[field, op, value]] on a field of
    the record, or [["and", f1, ..., fn]].  [eval_filter r f] tells whether
    the record [r] is selected by [f]. *)

Definition compare_int (op : string) (v n : Z) : bool :=
  if String.eqb op ">" then n <? v
  else if String.eqb op ">=" then n <=? v
  else if String.eqb op "<" then v <? n
  else if String.eqb op "<=" then v <=? n
  else if String.eqb op "=" then v =? n
  else if String.eqb op "!=" then negb (v =? n)
  else false.

Definition compare_str (op : string) (v s : string) : bool :=
  if String.eqb op "=" then String.eqb v s
  else if String.eqb op "!=" then negb (String.eqb v s)
  else false.

Fixpoint eval_filter (r : dict) (f : json) {struct f} : bool :=
  match f with
  | JArr (JStr tag :: rest) =>
      if String.eqb tag "and"
      then (fix all (l : list json) : bool :=
              match l with
              | [] => true
              | g :: l' => eval_filter r g && all l'
              end) rest
      else match rest with
           | [JStr op; JInt n] =>
               match dict_get tag r with
               | Some (JInt v) => compare_int op v n
               | _ => false
               end
           | [JStr op; JStr s] =>
               match dict_get tag r with
               | Some (JStr v) => compare_str op v s
               | _ => false
               end
           | _ => false
           end
  | _ => false
  end.

(** The vote count of a record, when it carries an integer one. *)
Definition votecount_of (r : dict) : option Z :=
  match dict_get "votecount" r with
  | Some (JInt v) => Some v
  | _ => None
  end.

(** ** Effects

    A run of the script is observed through its trace: the requests it
    posts, the delays it sleeps, the lines it prints and the documents it
    writes.  An uncaught exception stops the run; the trace up to that
    point is kept. *)

Inductive exn : Type :=
| ConnectionError
| JSONDecodeError
| AttributeError
| TypeError
| ValueError
| NameError
| OverflowError.

Inductive outcome (A : Type) : Type :=
| Ok (a : A)
| Raise (e : exn).
Arguments Ok {A} a.
Arguments Raise {A} e.

(** What [requests.post] hands back.  [status_code] and [text] are the
    attributes the script reads; [json_body] is the value of
    [response.json()]: [None] when the body is not JSON (the call raises),
    [Some None] for the JSON [null], [Some (Some d)] for an object.  The
    service answers with objects; other JSON kinds at top level are not part
    of the model. *)
Record response : Type := {
  status_code : Z;
  text : string;
  json_body : option (option dict)
}.

Inductive http_result : Type :=
| Response (r : response)
| NoResponse.

(** The remote service: the answer to the [n]-th request of the run. *)
Definition service : Type := nat -> string -> json -> http_result.

(** ** Floating-point values

    A Python [float] (an IEEE binary64 number): a finite value, given by
    the rational it denotes, an infinity or a NaN.  The sign of zero is not
    kept. *)
Inductive float64 : Type :=
| F64 (q : Q)
| F64_inf (negative : bool)
| F64_nan.

(** The nearest integer to [num / den], ties to even ([0 < den]). *)
Definition round_half_even (num den : Z) : Z :=
  let f := num / den in
  match (2 * (num mod den)) ?= den with
  | Lt => f
  | Gt => f + 1
  | Eq => if Z.even f then f else f + 1
  end.

(** [floor (log2 (a / b))], for positive [a] and [b]. *)
Definition ilog2 (a b : Z) : Z :=
  let k := Z.log2 a - Z.log2 b in
  if 0 <=? k
  then (if b * 2 ^ k <=? a then k else k - 1)
  else (if b <=? a * 2 ^ (- k) then k else k - 1).

(** [a / b] scaled by the power of two that brings it into
    [[2^52, 2^53)], as a fraction. *)
Definition scaled (a b : Z) : Z * Z :=
  let e := ilog2 a b - 52 in
  if 0 <=? e then (a, b * 2 ^ e) else (a * 2 ^ (- e), b).

Definition round53_pos (a b : Z) : Q :=
  let e := ilog2 a b - 52 in
  let m := round_half_even (fst (scaled a b)) (snd (scaled a b)) in
  if 0 <=? e then inject_Z (m * 2 ^ e) else Qmake m (Z.to_pos (2 ^ (- e))).

(** Rounding to the nearest number with a 53-bit significand, ties to
    even: the rounding of every binary64 operation whose result lies in the
    normal range. *)
Definition round53 (q : Q) : Q :=
  let a := Z.abs (Qnum q) in
  let b := Z.pos (Qden q) in
  if a =? 0 then 0%Q
  else Qred (if Qnum q <? 0 then Qopp (round53_pos a b) else round53_pos a b).

(** A Python number: an [int] or a [float]. *)
Inductive number : Type :=
| Int (n : Z)
| Float (f : float64).

(** The [top_500_stats] block of the summary: [max_votes] and [min_votes]
    are Python integers; [median_votes] and [mean_votes] are floats, or the
    integer [0] of the [else] branches. *)
Record stats : Type := {
  max_votes : Z;
  median_votes : number;
  mean_votes : number;
  min_votes : Z
}.

(** An entry of [votecount_data]: keys ['range'], ['min'], ['max'], ['count']. *)
Record bucket : Type := {
  bk_range : string;
  bk_min : Z;
  bk_max : Z;
  bk_count : json
}.

(** An entry of [commercial_data]: keys ['filter'], ['count']. *)
Record commercial : Type := {
  cf_filter : string;
  cf_count : json
}.

Record summary : Type := {
  total_vns_field : Z;
  votecount_distribution : list bucket;
  commercial_counts : list commercial;
  top_500_stats : stats
}.

(** Console lines, with the values they interpolate.  Lines of constant
    text (banners, headings, the closing remarks) are left out. *)
Inductive line : Type :=
| LError (status : Z) (body : string)
| LBucket (label : string) (count : Z)
| LCommercial (label : string) (count : Z)
| LPage (page : Z) (retrieved : nat)
| LPageFailed (page : Z)
| LSaved (n : nat)
| LMax (v : Z)
| LMedian (v : float64)
| LMean (v : float64)
| LMin (v : Z)
| LTopSales (v : Z)
| LBottomSales (v : Z)
| LSales (label : string) (count : Z) (min_votes : Z) (max_votes : option Z).

Inductive document : Type :=
| TopDoc (vns : list json)
| SummaryDoc (s : summary).

Inductive event : Type :=
| EPost (url : string) (payload : json)
| ESleep (ms : Z)
| EPrint (l : line)
| EDump (path : string) (doc : document).

Record world : Type := {
  w_calls : nat;
  w_trace : list event
}.

Definition M (A : Type) : Type := world -> outcome A * world.

Definition ret {A : Type} (a : A) : M A := fun w => (Ok a, w).

Definition bind {A B : Type} (m : M A) (k : A -> M B) : M B :=
  fun w =>
    match m w with
    | (Ok a, w') => k a w'
    | (Raise e, w') => (Raise e, w')
    end.

Definition raise {A : Type} (e : exn) : M A := fun w => (Raise e, w).

Definition emit (ev : event) : M unit :=
  fun w => (Ok tt, {| w_calls := w_calls w; w_trace := w_trace w ++ [ev] |}).

Notation "x <- m ;; k" := (bind m (fun x => k))
  (at level 61, m at next level, right associativity).
Notation "m ;; k" := (bind m (fun _ => k))
  (at level 61, right associativity).

Definition print (l : line) : M unit := emit (EPrint l).

(** [time.sleep], in milliseconds. *)
Definition time_sleep (ms : Z) : M unit := emit (ESleep ms).

Definition json_dump (path : string) (doc : document) : M unit :=
  emit (EDump path doc).

Definition lift {A : Type} (o : outcome A) : M A := fun w => (o, w).

Definition BASE_URL : string := "https://api.vndb.org/kana".

Definition total_vns : Z := 58868.

(** The delay of [time.sleep(0.15)], in milliseconds. *)
Definition rate_limit_ms : Z := 150.

(** ** Reductions used by the statistics step *)

(** [max(l)] and [min(l)]: [ValueError] on an empty sequence. *)
Definition py_max (l : list Z) : outcome Z :=
  match l with
  | [] => Raise ValueError
  | x :: xs => Ok (fold_left Z.max xs x)
  end.

Definition py_min (l : list Z) : outcome Z :=
  match l with
  | [] => Raise ValueError
  | x :: xs => Ok (fold_left Z.min xs x)
  end.

Definition sum_list (l : list Z) : Z := fold_left Z.add l 0.

Definition sum_abs (l : list Z) : Z := fold_right (fun x acc => Z.abs x + acc) 0 l.

(** The lists on which numpy's float arithmetic is exact up to the final
    division: the absolute values add up to at most [2^53] (so every element
    fits an [int64], converts to a float without rounding, and every partial
    sum, in whatever order numpy adds, is an integer a float holds exactly),
    and so does the number of elements. *)
Definition exactly_summable (l : list Z) : bool :=
  (sum_abs l <=? 2 ^ 53) && (Z.of_nat (List.length l) <=? 2 ^ 53).

(** What numpy returns outside these lists depends on the element type it
    picks for the array and on the order of its float additions, which are
    not code of this repository: they are parameters of the model.  [None]
    stands for [OverflowError], which the conversion of an integer beyond the
    float range raises. *)
Record numpy : Type := {
  mean_beyond : list Z -> option float64;
  median_beyond : list Z -> option float64
}.

Definition beyond (r : option float64) : outcome float64 :=
  match r with
  | Some v => Ok v
  | None => Raise OverflowError
  end.

(** [np.mean(l)]: the float sum of the elements divided by their number.
    On an exactly summable list the sum is exact and the quotient is rounded
    once.  The script only evaluates it on a non-empty list. *)
Definition np_mean (np : numpy) (l : list Z) : outcome float64 :=
  match l with
  | [] => Ok F64_nan
  | _ :: _ =>
      if exactly_summable l
      then Ok (F64 (round53 (Qmake (sum_list l) (Pos.of_nat (List.length l)))))
      else beyond (mean_beyond np l)
  end.

Fixpoint insert_sorted (x : Z) (l : list Z) : list Z :=
  match l with
  | [] => [x]
  | y :: l' => if x <=? y then x :: y :: l' else y :: insert_sorted x l'
  end.

Fixpoint sort (l : list Z) : list Z :=
  match l with
  | [] => []
  | x :: l' => insert_sorted x (sort l')
  end.

(** The middle of the sorted values: the middle element, or half the sum
    of the two middle elements when their number is even. *)
Definition middle (l : list Z) : Q :=
  let s := sort l in
  let n := List.length s in
  if Nat.even n
  then Qred (Qmake (nth (n / 2 - 1)%nat s 0 + nth (n / 2)%nat s 0) 2)
  else inject_Z (nth (n / 2)%nat s 0).

(** [np.median(l)]: numpy's mean of the one or two middle elements.  On an
    exactly summable list their float sum and its half are exact. *)
Definition np_median (np : numpy) (l : list Z) : outcome float64 :=
  match l with
  | [] => Ok F64_nan
  | _ :: _ =>
      if exactly_summable l
      then Ok (F64 (middle l))
      else beyond (median_beyond np l)
  end.

(** Integers as Python sees them: [bool] is a subclass of [int]. *)
Definition as_int (v : json) : option Z :=
  match v with
  | JInt n => Some n
  | JBool b => Some (Z.b2z b)
  | _ => None
  end.

Fixpoint as_ints (vs : list json) : option (list Z) :=
  match vs with
  | [] => Some []
  | v :: vs' =>
      match as_int v, as_ints vs' with
      | Some n, Some ns => Some (n :: ns)
      | _, _ => None
      end
  end.

Definition is_str (v : json) : bool :=
  match v with JStr _ => true | _ => false end.

(** The operands of line 137, [f"{max(votecounts):>8,}"].  Integers go
    through.  Other values make [max] or the format raise: strings alone
    are rejected by the format specification ([ValueError]), anything else
    by the comparison or the format ([TypeError]). *)
Definition numeric (vs : list json) : outcome (list Z) :=
  match as_ints vs with
  | Some ns => Ok ns
  | None => if forallb is_str vs then Raise ValueError else Raise TypeError
  end.

(** The comprehension of line 134,
    [[vn['votecount'] for vn in top_vns if vn.get('votecount')]]:
    [.get] exists on dictionaries only. *)
Fixpoint extract_votecounts (top_vns : list json) : outcome (list json) :=
  match top_vns with
  | [] => Ok []
  | JObj vn :: rest =>
      match extract_votecounts rest with
      | Ok vs =>
          match dict_get "votecount" vn with
          | Some v => if truthy v then Ok (v :: vs) else Ok vs
          | None => Ok vs
          end
      | Raise e =>
          Raise e
      end
  | _ :: _ => Raise AttributeError
  end.

(** [f"{v:>6,}"]: the thousands-separator format is defined for integers. *)
Definition format_int (v : json) : M Z :=
  match v with
  | JInt n => ret n
  | JBool b => ret (Z.b2z b)
  | JStr _ => raise ValueError
  | _ => raise TypeError
  end.

(** The elements [list.extend] takes from its argument, and [len] of it. *)
Definition py_iter (v : json) : outcome (list json) :=
  match v with
  | JArr items => Ok items
  | JObj fields => Ok (map (fun kv => JStr (fst kv)) fields)
  | JStr s => Ok (map (fun c => JStr (String c EmptyString)) (list_ascii_of_string s))
  | _ => Raise TypeError
  end.

(** [d.get(k, default)] *)
Definition dict_get_default (k : string) (default : json) (d : dict) : json :=
  match dict_get k d with Some v => v | None => default end.

Definition olang_ja : json := JArr [JStr "olang"; JStr "="; JStr "ja"].

Definition commercial_filters : list (string * json) :=
  [ ("All Japanese VNs", olang_ja);
    ("Japanese + Short or longer",
     JArr [JStr "and"; olang_ja; cmp "length" ">=" 2]);
    ("Japanese + Medium or longer",
     JArr [JStr "and"; olang_ja; cmp "length" ">=" 3]);
    ("Japanese + Some engagement",
     JArr [JStr "and"; olang_ja; cmp "votecount" ">" 10]);
    ("Japanese + Medium + Engagement",
     JArr [JStr "and"; olang_ja; cmp "length" ">=" 3; cmp "votecount" ">" 10]) ].

(** [{"filters": filters, "fields": "id", "count": True}] *)
Definition count_payload (filters : json) : json :=
  JObj [("filters", filters); ("fields", JStr "id"); ("count", JBool true)].

(** The payload of a page request of Step 3. *)
Definition page_payload (page : Z) : json :=
  JObj [("filters", cmp "votecount" ">" 0);
        ("fields", JStr "id, title, votecount, popularity, rating, olang, length");
        ("sort", JStr "votecount");
        ("reverse", JBool true);
        ("results", JInt 100);
        ("page", JInt page)].

(** [range(1, 6)] *)
Definition pages : list Z := [1; 2; 3; 4; 5].

(** ** The pipeline *)

Section Pipeline.

Variable np : numpy.
Variable server : service.

Definition requests_post (url : string) (payload : json) : M response :=
  fun w =>
    let w' := {| w_calls := S (w_calls w);
                 w_trace := w_trace w ++ [EPost url payload] |} in
    match server (w_calls w) url payload with
    | Response r => (Ok r, w')
    | NoResponse => (Raise ConnectionError, w')
    end.

Definition response_json (r : response) : M (option dict) :=
  match json_body r with
  | Some v => ret v
  | None => raise JSONDecodeError
  end.

Definition query_vndb (endpoint : string) (payload : json) : M (option dict) :=
  let url := String.append BASE_URL (String.append "/" endpoint) in
  response <- requests_post url payload ;;
  time_sleep rate_limit_ms ;;
  if status_code response =? 200
  then response_json response
  else print (LError (status_code response) (text response)) ;; ret None.

(** Step 1: the loop over the bucket triples, threading [votecount_data]. *)
Fixpoint step1_loop (ranges : list triple) (votecount_data : list bucket)
  : M (list bucket) :=
  match ranges with
  | [] => ret votecount_data
  | (min_votes, max_votes, label) :: rest =>
      let filters := votecount_filter min_votes max_votes in
      result <- query_vndb "vn" (count_payload filters) ;;
      match result with
      | Some ((_ :: _) as d) =>
          let count := dict_get_default "count" (JInt 0) d in
          let votecount_data' :=
            votecount_data ++
            [ {| bk_range := label;
                 bk_min := min_votes;
                 bk_max := match max_votes with
                           | Some u => if truthy_bound max_votes then u else 999999
                           | None => 999999
                           end;
                 bk_count := count |} ] in
          n <- format_int count ;;
          print (LBucket label n) ;;
          step1_loop rest votecount_data'
      | _ => step1_loop rest votecount_data
      end
  end.

(** Step 2: the same loop over the fixed commercial filters. *)
Fixpoint step2_loop (filters_list : list (string * json))
  (commercial_data : list commercial) : M (list commercial) :=
  match filters_list with
  | [] => ret commercial_data
  | (label, filters) :: rest =>
      result <- query_vndb "vn" (count_payload filters) ;;
      match result with
      | Some ((_ :: _) as d) =>
          let count := dict_get_default "count" (JInt 0) d in
          let commercial_data' :=
            commercial_data ++ [ {| cf_filter := label; cf_count := count |} ] in
          n <- format_int count ;;
          print (LCommercial label n) ;;
          step2_loop rest commercial_data'
      | _ => step2_loop rest commercial_data
      end
  end.

(** Step 3: the page loop, threading [top_vns]; the [else] branch breaks. *)
Fixpoint step3_loop (todo : list Z) (top_vns : list json) : M (list json) :=
  match todo with
  | [] => ret top_vns
  | page :: rest =>
      result <- query_vndb "vn" (page_payload page) ;;
      match result with
      | Some ((_ :: _) as d) =>
          match dict_get "results" d with
          | Some results =>
              items <- lift (py_iter results) ;;
              print (LPage page (List.length items)) ;;
              step3_loop rest (top_vns ++ items)
          | None => print (LPageFailed page) ;; ret top_vns
          end
      | _ => print (LPageFailed page) ;; ret top_vns
      end
  end.

(** Step 4: [None] stands for the name [votecounts] left unbound when
    [top_vns] is empty. *)
Definition step4 (top_vns : list json) : M (option (list Z)) :=
  match top_vns with
  | [] => ret None
  | _ :: _ =>
      vs <- lift (extract_votecounts top_vns) ;;
      votecounts <- lift (numeric vs) ;;
      mx <- lift (py_max votecounts) ;;
      print (LMax mx) ;;
      median <- lift (np_median np votecounts) ;;
      print (LMedian median) ;;
      mean <- lift (np_mean np votecounts) ;;
      print (LMean mean) ;;
      mn <- lift (py_min votecounts) ;;
      print (LMin mn) ;;
      mx' <- lift (py_max votecounts) ;;
      print (LTopSales (mx' * 75)) ;;
      mn' <- lift (py_min votecounts) ;;
      print (LBottomSales (mn' * 75)) ;;
      ret (Some votecounts)
  end.

(** Step 5: the loop over the sales ranges; nothing is accumulated. *)
Fixpoint step5_loop (ranges : list triple) : M unit :=
  match ranges with
  | [] => ret tt
  | (min_sales, max_sales, label) :: rest =>
      let filters := sales_filter min_sales max_sales in
      result <- query_vndb "vn" (count_payload filters) ;;
      match result with
      | Some ((_ :: _) as d) =>
          let count := dict_get_default "count" (JInt 0) d in
          n <- format_int count ;;
          print (LSales label n (sales_min_votes min_sales)
                   (sales_max_votes max_sales)) ;;
          step5_loop rest
      | _ => step5_loop rest
      end
  end.

(** [x(votecounts) if votecounts else 0], for each of the four entries, in
    the order of the dictionary display; [float(...)] leaves numpy's double
    as it is. *)
Definition top_stats (votecounts : option (list Z)) : outcome stats :=
  match votecounts with
  | None => Raise NameError
  | Some [] =>
      Ok {| max_votes := 0; median_votes := Int 0; mean_votes := Int 0;
            min_votes := 0 |}
  | Some ((_ :: _) as l) =>
      match py_max l with
      | Raise e => Raise e
      | Ok mx =>
          match np_median np l with
          | Raise e => Raise e
          | Ok median =>
              match np_mean np l with
              | Raise e => Raise e
              | Ok mean =>
                  match py_min l with
                  | Raise e => Raise e
                  | Ok mn =>
                      Ok {| max_votes := mx; median_votes := Float median;
                            mean_votes := Float mean; min_votes := mn |}
                  end
              end
          end
      end
  end.

Definition build_summary (votecount_data : list bucket)
  (commercial_data : list commercial) (votecounts : option (list Z))
  : outcome summary :=
  match top_stats votecounts with
  | Ok st =>
      Ok {| total_vns_field := total_vns;
            votecount_distribution := votecount_data;
            commercial_counts := commercial_data;
            top_500_stats := st |}
  | Raise e => Raise e
  end.

(** The whole run, in the order of the script. *)
Definition script : M summary :=
  votecount_data <- step1_loop votecount_ranges [] ;;
  commercial_data <- step2_loop commercial_filters [] ;;
  top_vns <- step3_loop pages [] ;;
  json_dump "vndb_top500.json" (TopDoc top_vns) ;;
  print (LSaved (List.length top_vns)) ;;
  votecounts <- step4 top_vns ;;
  step5_loop sales_estimate_ranges ;;
  s <- lift (build_summary votecount_data commercial_data votecounts) ;;
  json_dump "vndb_analysis_summary.json" (SummaryDoc s) ;;
  ret s.

End Pipeline.

(** ** JSON text

    The script writes its two documents with [json.dump(..., indent=2)] and
    never reads them back.  The serializer and the parser below follow the
    documentation of Python's [json] module: the conversion table, the
    pretty-printed layout of [indent], [ensure_ascii] escapes, [NaN] and
    [Infinity], and the grammar [json.load] accepts.  A text is a list of
    characters; characters are code points below 256. *)

Definition jtext : Type := list ascii.

Definition chars (s : string) : jtext := list_ascii_of_string s.

(** The values [json.load] returns, and [json.dump] takes: numbers are
    [int] or [float], objects are dictionaries in insertion order. *)
Inductive jvalue : Type :=
| VNull
| VBool (b : bool)
| VInt (n : Z)
| VFloat (f : float64)
| VStr (s : string)
| VArr (items : list jvalue)
| VObj (members : list (string * jvalue)).

(** A value decoded from a response, as a value to encode. *)
Fixpoint of_json (v : json) : jvalue :=
  match v with
  | JNull => VNull
  | JBool b => VBool b
  | JInt n => VInt n
  | JStr s => VStr s
  | JArr items => VArr (map of_json items)
  | JObj fields =>
      VObj ((fix members (l : list (string * json)) : list (string * jvalue) :=
               match l with
               | [] => []
               | (k, x) :: l' => (k, of_json x) :: members l'
               end) fields)
  end.

(** *** Encoding *)

Definition hex_digit (n : N) : ascii :=
  if (n <? 10)%N then ascii_of_N (48 + n) else ascii_of_N (87 + n).

(** One character of a string, with [ensure_ascii]: the quote and the
    backslash are escaped, the usual control characters have short escapes,
    printable ASCII is kept, and everything else is written [\u00XX]. *)
Definition escape_char (c : ascii) : jtext :=
  let n := N_of_ascii c in
  if (n =? 34)%N then ["\"; "034"]%char
  else if (n =? 92)%N then ["\"; "\"]%char
  else if (n =? 8)%N then ["\"; "b"]%char
  else if (n =? 12)%N then ["\"; "f"]%char
  else if (n =? 10)%N then ["\"; "n"]%char
  else if (n =? 13)%N then ["\"; "r"]%char
  else if (n =? 9)%N then ["\"; "t"]%char
  else if ((32 <=? n) && (n <=? 126))%N then [c]
  else ["\"; "u"; "0"; "0"; hex_digit (n / 16); hex_digit (n mod 16)]%char.

Definition dump_string (s : string) : jtext :=
  "034"%char :: flat_map escape_char (chars s) ++ ["034"%char].

(** [int.__repr__]: decimal digits, with a minus sign for a negative. *)
Definition int_text (n : Z) : jtext :=
  chars (DecimalString.NilEmpty.string_of_int (Z.to_int n)).

(** A float: [NaN], [Infinity] and [-Infinity] for the special values, and
    [float.__repr__] for the others.  [repr] writes the shortest decimal
    string that reads back as the same double; which digits these are is not
    modelled, [float_repr] stands for it. *)
Definition float_text (float_repr : Q -> jtext) (f : float64) : jtext :=
  match f with
  | F64 q => float_repr q
  | F64_inf false => chars "Infinity"
  | F64_inf true => chars "-Infinity"
  | F64_nan => chars "NaN"
  end.

(** A newline and the indentation of a nesting level, with [indent=2]. *)
Definition newline_indent (level : nat) : jtext :=
  "010"%char :: repeat " "%char (2 * level).

(** The text of a value at a nesting level.  An empty array is [[]] and an
    empty object [{}]; otherwise every item is on a line of its own, one
    level deeper, items are separated by a comma at the end of the line, and
    the closing bracket is on a line of its own at the level of the value;
    a key is followed by a colon and a space. *)
Fixpoint dump_value (float_repr : Q -> jtext) (level : nat) (v : jvalue) {struct v}
  : jtext :=
  match v with
  | VNull => chars "null"
  | VBool true => chars "true"
  | VBool false => chars "false"
  | VInt n => int_text n
  | VFloat f => float_text float_repr f
  | VStr s => dump_string s
  | VArr [] => chars "[]"
  | VArr (x :: xs) =>
      "["%char :: newline_indent (S level) ++ dump_value float_repr (S level) x ++
      (fix tail (l : list jvalue) : jtext :=
         match l with
         | [] => newline_indent level ++ ["]"%char]
         | y :: l' =>
             ","%char :: newline_indent (S level) ++
             dump_value float_repr (S level) y ++ tail l'
         end) xs
  | VObj [] => chars "{}"
  | VObj ((k, x) :: ms) =>
      "{"%char :: newline_indent (S level) ++
      dump_string k ++ ":"%char :: " "%char :: dump_value float_repr (S level) x ++
      (fix tail (l : list (string * jvalue)) : jtext :=
         match l with
         | [] => newline_indent level ++ ["}"%char]
         | (k', y) :: l' =>
             ","%char :: newline_indent (S level) ++
             dump_string k' ++ ":"%char :: " "%char ::
             dump_value float_repr (S level) y ++ tail l'
         end) ms
  end.

(** [json.dumps(v, indent=2)] *)
Definition dumps (float_repr : Q -> jtext) (v : jvalue) : jtext :=
  dump_value float_repr 0 v.

(** *** Decoding *)






















(** *** The documents of the script *)

Definition bucket_value (b : bucket) : jvalue :=
  VObj [ ("range", VStr (bk_range b));
         ("min", VInt (bk_min b));
         ("max", VInt (bk_max b));
         ("count", of_json (bk_count b)) ].

Definition commercial_value (c : commercial) : jvalue :=
  VObj [ ("filter", VStr (cf_filter c)); ("count", of_json (cf_count c)) ].

Definition number_value (n : number) : jvalue :=
  match n with
  | Int n => VInt n
  | Float f => VFloat f
  end.

Definition stats_value (st : stats) : jvalue :=
  VObj [ ("max_votes", VInt (max_votes st));
         ("median_votes", number_value (median_votes st));
         ("mean_votes", number_value (mean_votes st));
         ("min_votes", VInt (min_votes st)) ].

(** The dictionary [summary] of lines 201 to 211. *)
Definition summary_value (s : summary) : jvalue :=
  VObj [ ("total_vns", VInt (total_vns_field s));
         ("votecount_distribution", VArr (map bucket_value (votecount_distribution s)));
         ("commercial_counts", VArr (map commercial_value (commercial_counts s)));
         ("top_500_stats", stats_value (top_500_stats s)) ].

Definition document_value (doc : document) : jvalue :=
  match doc with
  | TopDoc vns => VArr (map of_json vns)
  | SummaryDoc s => summary_value s
  end.

(** The text [json.dump(doc, f, indent=2)] writes to the file. *)
Definition file_text (float_repr : Q -> jtext) (doc : document) : jtext :=
  dumps float_repr (document_value doc).

(** *** Notions used in the statements about JSON text *)










(** [v[k]] on a parsed object, and the items of a parsed array. *)
Definition member (k : string) (v : jvalue) : option jvalue :=
  match v with
  | VObj ms =>
      (fix find (l : list (string * jvalue)) : option jvalue :=
         match l with
         | [] => None
         | (k', x) :: l' => if String.eqb k k' then Some x else find l'
         end) ms
  | _ => None
  end.


(** The string [s] with every apostrophe turned into a double quote. *)
Fixpoint double_quoted (s : string) : string :=
  match s with
  | EmptyString => EmptyString
  | String c s' =>
      String (if Ascii.eqb c "'" then "034"%char else c) (double_quoted s')
  end.

(** The exact decimal expansion of a double [n / 2^k]: one of the texts
    that [float] reads back as that double ([repr] writes the shortest of
    them).  It serves to run the serializer on examples. *)
Definition exact_repr (q : Q) : jtext :=
  let k := Z.log2 (Z.pos (Qden q)) in
  let scaled := Z.abs (Qnum q) * 5 ^ k in
  let fraction := int_text (scaled mod 10 ^ k) in
  (if Qnum q <? 0 then ["-"%char] else []) ++
  int_text (scaled / 10 ^ k) ++
  "."%char ::
  (if k =? 0 then ["0"%char]
   else repeat "0"%char (Z.to_nat k - List.length fraction) ++ fraction).


(** [v[k1][k2]...] on a parsed value. *)
Fixpoint path (keys : list string) (v : jvalue) : option jvalue :=
  match keys with
  | [] => Some v
  | k :: keys' =>
      match member k v with
      | Some x => path keys' x
      | None => None
      end
  end.

(** ** Notions used in the statements *)

Definition lower (t : triple) : Z := fst (fst t).

Definition upper (t : triple) : option Z := snd (fst t).

Definition selects_between (r : dict) (L U : Z) : Prop :=
  exists v, votecount_of r = Some v /\ L < v /\ v <= U.

Definition selects_above (r : dict) (L : Z) : Prop :=
  exists v, votecount_of r = Some v /\ L < v.

Definition triple_filter (t : triple) : json := votecount_filter (lower t) (upper t).

Definition matches (r : dict) (t : triple) : bool := eval_filter r (triple_filter t).

Fixpoint chained (bound : Z) (ts : list triple) : Prop :=
  match ts with
  | [] => True
  | t :: ts' =>
      (exists u, upper t = Some u /\ u <> 0 /\ lower t <= u <= bound) /\
      chained (lower t) ts'
  end.

(** The value [query_vndb] hands to its caller when it is the [n]-th
    request of the run, and the events it adds to the trace. *)
Definition answer (server : service) (n : nat) (endpoint : string) (payload : json)
  : outcome (option dict) :=
  match server n (String.append BASE_URL (String.append "/" endpoint)) payload with
  | NoResponse => Raise ConnectionError
  | Response r =>
      if status_code r =? 200
      then match json_body r with
           | Some v => Ok v
           | None => Raise JSONDecodeError
           end
      else Ok None
  end.

Definition query_events (server : service) (n : nat) (endpoint : string) (payload : json)
  : list event :=
  let url := String.append BASE_URL (String.append "/" endpoint) in
  EPost url payload ::
  match server n url payload with
  | NoResponse => []
  | Response r =>
      ESleep rate_limit_ms ::
      (if status_code r =? 200 then []
       else [EPrint (LError (status_code r) (text r))])
  end.

Definition after_query (server : service) (endpoint : string) (payload : json) (w : world)
  : world :=
  {| w_calls := S (w_calls w);
     w_trace := w_trace w ++ query_events server (w_calls w) endpoint payload |}.

(** The count the aggregators read from a result: [result.get('count', 0)]. *)
Definition count_of (d : dict) : json := dict_get_default "count" (JInt 0) d.

(** A result whose count, when one is read, is an integer. *)
Definition printable (res : option dict) : Prop :=
  match res with
  | Some ((_ :: _) as d) => as_int (count_of d) <> None
  | _ => True
  end.

(** The service answers the requests numbered [n], [n+1], ... for the
    filters [fs] with the results [results], one per filter. *)
Fixpoint answered (server : service) (n : nat) (fs : list json)
  (results : list (option dict)) : Prop :=
  match fs, results with
  | [], [] => True
  | f :: fs', res :: results' =>
      answer server n "vn" (count_payload f) = Ok res /\ printable res /\
      answered server (S n) fs' results'
  | _, _ => False
  end.

Definition label (t : triple) : string := snd t.

(** The records a bucket triple contributes, given the result of its query. *)
Definition bucket_for (t : triple) (res : option dict) : list bucket :=
  match res with
  | Some ((_ :: _) as d) =>
      [ {| bk_range := label t;
           bk_min := lower t;
           bk_max := match upper t with
                     | Some u => if u =? 0 then 999999 else u
                     | None => 999999
                     end;
           bk_count := count_of d |} ]
  | _ => []
  end.

Definition commercial_for (lf : string * json) (res : option dict) : list commercial :=
  match res with
  | Some ((_ :: _) as d) => [ {| cf_filter := fst lf; cf_count := count_of d |} ]
  | _ => []
  end.

(** The line an aggregator prints for a result: one line, with the count,
    for a non-empty object whose count is an integer; none otherwise. *)
Definition count_line (mk : Z -> line) (res : option dict) : list event :=
  match res with
  | Some ((_ :: _) as d) =>
      match as_int (count_of d) with
      | Some n => [EPrint (mk n)]
      | None => []
      end
  | _ => []
  end.

(** The events of a count loop whose requests, numbered from [n], carry the
    filters of [reqs] and get the results [results]: for each entry the
    events of the call, then the line printed for its result. *)
Fixpoint loop_events (server : service) (n : nat) (reqs : list (json * (Z -> line)))
  (results : list (option dict)) : list event :=
  match reqs, results with
  | (f, mk) :: reqs', res :: results' =>
      query_events server n "vn" (count_payload f) ++
      count_line mk res ++ loop_events server (S n) reqs' results'
  | _, _ => []
  end.

(** The filter and the line of a bucket triple, and of a commercial
    predicate. *)
Definition bucket_request (t : triple) : json * (Z -> line) :=
  (triple_filter t, LBucket (label t)).

Definition commercial_request (lf : string * json) : json * (Z -> line) :=
  (snd lf, LCommercial (fst lf)).

Fixpoint zip_with {A B C : Type} (f : A -> B -> list C) (xs : list A) (ys : list B)
  : list C :=
  match xs, ys with
  | x :: xs', y :: ys' => f x y ++ zip_with f xs' ys'
  | _, _ => []
  end.

(** ** Stub services *)

Definition w0 : world := {| w_calls := 0; w_trace := [] |}.

(** A service that gives the same response to every request. *)
Definition const_server (r : response) : service := fun _ _ _ => Response r.

Definition error_response : response :=
  {| status_code := 500; text := "Internal Server Error"; json_body := None |}.

Definition ok_response (d : dict) : response :=
  {| status_code := 200; text := ""; json_body := Some (Some d) |}.

(** The world after a line has been printed. *)
Definition printed (l : line) (w : world) : world :=
  {| w_calls := w_calls w; w_trace := w_trace w ++ [EPrint l] |}.

(** A page result the fetcher accepts, with the records it takes from it. *)
Definition page_ok (res : option dict) (items : list json) : Prop :=
  exists kv d v,
    res = Some (kv :: d) /\ dict_get "results" (kv :: d) = Some v /\
    py_iter v = Ok items.

(** A page result that makes the fetcher stop: the call failed ([None]),
    the object is empty, or it has no ['results'] key. *)
Definition page_failed (res : option dict) : Prop :=
  match res with
  | Some ((_ :: _) as d) => dict_get "results" d = None
  | _ => True
  end.

(** The requests numbered [n], [n+1], ... for the pages [todo] are answered
    with accepted results carrying the records [got], one list per page. *)
Fixpoint served (server : service) (n : nat) (todo : list Z) (got : list (list json))
  : Prop :=
  match todo, got with
  | [], [] => True
  | page :: todo', items :: got' =>
      (exists res, answer server n "vn" (page_payload page) = Ok res /\ page_ok res items) /\
      served server (S n) todo' got'
  | _, _ => False
  end.

Definition vn_sample : json :=
  JObj [("id", JStr "v17"); ("title", JStr "Ever17"); ("votecount", JInt 1500)].

(** A service that answers the [n]-th request with a page of [sizes[n]]
    records, and with an error once the list is exhausted. *)
Definition page_server (sizes : list nat) : service :=
  fun n _ _ =>
    match nth_error sizes n with
    | Some k =>
        Response (ok_response [("results", JArr (repeat vn_sample k)); ("more", JBool true)])
    | None => Response error_response
    end.

(** A numpy that raises on every list beyond the exactly summable ones. *)
Definition numpy_raising : numpy :=
  {| mean_beyond := fun _ => None; median_beyond := fun _ => None |}.

(** Textbook statistics of a list of integers. *)
Definition is_maximum (l : list Z) (m : Z) : Prop :=
  In m l /\ forall x, In x l -> x <= m.

Definition is_minimum (l : list Z) (m : Z) : Prop :=
  In m l /\ forall x, In x l -> m <= x.



(** The arithmetic mean as a fraction: the sum over the number of elements. *)
Definition exact_mean (l : list Z) : Q :=
  Qmake (sum_list l) (Pos.of_nat (List.length l)).






(** The number of records of a database that fall into a bucket. *)
Definition bucket_count (db : list dict) (t : triple) : nat :=
  List.length (filter (fun r => matches r t) db).

Definition vn_with_votes (id : string) (votes : Z) : json :=
  JObj [("id", JStr id); ("votecount", JInt votes)].

(** A service for a whole run: requests 18 to 22 are the page requests of
    Step 3 and get two records each, every other request gets a count. *)
Definition demo_server : service :=
  fun n _ _ =>
    if ((18 <=? n) && (n <? 23))%nat
    then Response (ok_response
                     [("results", JArr [vn_with_votes "v11" 300; vn_with_votes "v12" 100]);
                      ("more", JBool true)])
    else Response (ok_response [("count", JInt 7)]).

(** ** Traces of a run *)

Definition vn_url : string := "https://api.vndb.org/kana/vn".

(** The requests of a trace, in order: URL and payload. *)
Fixpoint posts (evs : list event) : list (string * json) :=
  match evs with
  | [] => []
  | EPost url payload :: rest => (url, payload) :: posts rest
  | _ :: rest => posts rest
  end.

Definition is_post (e : event) : bool :=
  match e with EPost _ _ => true | _ => false end.

Definition is_dump (e : event) : bool :=
  match e with EDump _ _ => true | _ => false end.

(** Every request of the trace is immediately followed by the rate-limit
    delay. *)
Inductive paced : list event -> Prop :=
| paced_nil : paced []
| paced_post (url : string) (payload : json) (tr : list event) :
    paced tr -> paced (EPost url payload :: ESleep rate_limit_ms :: tr)
| paced_other (e : event) (tr : list event) :
    is_post e = false -> paced tr -> paced (e :: tr).

(** A paced trace cut short by a last request that got no response. *)
Definition pending (evs : list event) : Prop :=
  exists tr url payload, evs = tr ++ [EPost url payload] /\ paced tr.

(** The run ended on the exception of [requests.post]. *)
Definition interrupted {A : Type} (out : outcome A) : bool :=
  match out with Raise ConnectionError => true | _ => false end.

Definition is_ok {A : Type} (out : outcome A) : bool :=
  match out with Ok _ => true | Raise _ => false end.

(** What a piece of the pipeline may add to the trace: [k] requests, all to
    the [vn] endpoint, each followed by the delay (but for a last one without
    response), and no file written when [quiet]. *)
Definition segment (quiet : bool) {A : Type} (out : outcome A) (k : nat)
  (evs : list event) : Prop :=
  List.length (posts evs) = k /\
  Forall (fun up => fst up = vn_url) (posts evs) /\
  (if interrupted out then pending evs else paced evs) /\
  (quiet = true -> Forall (fun e => is_dump e = false) evs).

(** [m] extends the trace by a segment of at most [n] requests. *)
Definition bounded (quiet : bool) (n : nat) {A : Type} (m : M A) : Prop :=
  forall w,
  exists k evs,
    (k <= n)%nat /\
    w_calls (snd (m w)) = (w_calls w + k)%nat /\
    w_trace (snd (m w)) = w_trace w ++ evs /\
    segment quiet (fst (m w)) k evs.

(** An outcome of the pure parts of the script: they never raise the
    exception of the transport. *)
Definition local {A : Type} (o : outcome A) : Prop := o <> Raise ConnectionError.

(** The request an aggregator sends for a filter. *)
Definition count_request (f : json) : string * json := (vn_url, count_payload f).

(** The request the fetcher sends for a page. *)
Definition page_request (page : Z) : string * json := (vn_url, page_payload page).

Definition sample_votes : list Z := [3; 1; 5; 2].

(** A sales triple with its bounds converted as Step 5 does. *)
Definition converted (t : triple) : triple :=
  (sales_min_votes (lower t), sales_max_votes (upper t), label t).

(** Sales ranges with a bound below the multiplier. *)
Definition small_sales_ranges : list triple :=
  [ (1000, None, "1k+"); (50, Some 1000, "50-1k"); (0, Some 50, "0-50") ].
(** ** Rounding to 53 bits *)

Lemma rhe_spec (num den : Z) :
  0 < den ->
  let m := round_half_even num den in
  - den <= 2 * (m * den - num) <= den /\
  num / den <= m <= num / den + 1 /\
  (num mod den = 0 -> m = num / den).
Proof.
  intros Hden. unfold round_half_even. cbv zeta.
  pose proof (Z.div_mod num den ltac:(lia)) as Hdm.
  pose proof (Z.mod_pos_bound num den Hden) as Hr.
  generalize dependent (num mod den). generalize (num / den).
  intros f r Hdm Hr. subst num.
  destruct (Z.compare_spec (2 * r) den) as [E | L | G].
  - destruct (Z.even f); repeat split; try lia.
  - repeat split; lia.
  - repeat split; lia.
Qed.

Lemma rhe_le (num den K : Z) :
  0 < den -> num <= K * den -> round_half_even num den <= K.
Proof.
  intros Hden H. destruct (rhe_spec num den Hden) as (_ & [_ Hm] & Hex).
  pose proof (Z.div_mod num den ltac:(lia)) as Hdm.
  pose proof (Z.mod_pos_bound num den Hden) as Hr.
  destruct (Z.eq_dec (num mod den) 0) as [E | N].
  - rewrite (Hex E). apply Z.div_le_upper_bound; lia.
  - assert (num / den < K); [|lia].
    apply Z.div_lt_upper_bound; [lia|].
    assert (num <> K * den); [|lia].
    intros ->. apply N. apply Z.mod_mul. lia.
Qed.

Lemma rhe_ge (num den K : Z) :
  0 < den -> K * den <= num -> K <= round_half_even num den.
Proof.
  intros Hden H. destruct (rhe_spec num den Hden) as (_ & [Hm _] & _).
  assert (K <= num / den); [|lia].
  apply Z.div_le_lower_bound; lia.
Qed.

Lemma ilog2_spec (a b : Z) :
  0 < a -> 0 < b ->
  let k := ilog2 a b in
  (0 <= k -> b * 2 ^ k <= a < b * 2 ^ (k + 1)) /\
  (k < 0 -> b <= a * 2 ^ (- k) < 2 * b).
Proof.
  intros Ha Hb.
  pose proof (Z.log2_spec a Ha) as La. pose proof (Z.log2_spec b Hb) as Lb.
  pose proof (Z.log2_nonneg a). pose proof (Z.log2_nonneg b).
  unfold ilog2. cbv zeta.
  set (la := Z.log2 a) in *. set (lb := Z.log2 b) in *.
  rewrite !Z.pow_succ_r in La, Lb by lia.
  destruct (Z.leb_spec 0 (la - lb)) as [Hk | Hk].
  - assert (Epow : 2 ^ la = 2 ^ lb * 2 ^ (la - lb)).
    { rewrite <- Z.pow_add_r by lia. f_equal. lia. }
    pose proof (Z.pow_pos_nonneg 2 (la - lb) ltac:(lia) Hk) as Hp.
    pose proof (Z.pow_pos_nonneg 2 lb ltac:(lia) ltac:(lia)) as Hplb.
    destruct (Z.leb_spec (b * 2 ^ (la - lb)) a) as [Ht | Ht].
    + split; [|lia]. intros _. split; [exact Ht|].
      rewrite Z.pow_add_r by lia. change (2 ^ 1) with 2. nia.
    + destruct (Z.eq_dec (la - lb) 0) as [E0 | N0].
      * rewrite E0 in *. change (2 ^ 0) with 1 in *.
        split; [lia|]. intros _. change (- (0 - 1)) with 1. change (2 ^ 1) with 2.
        nia.
      * split; [|lia]. intros _.
        replace (la - lb - 1 + 1) with (la - lb) by lia.
        split; [|exact Ht].
        assert (E1 : 2 ^ (la - lb) = 2 * 2 ^ (la - lb - 1)).
        { rewrite <- Z.pow_succ_r by lia. f_equal. lia. }
        pose proof (Z.pow_pos_nonneg 2 (la - lb - 1) ltac:(lia) ltac:(lia)).
        nia.
  - assert (Epow : 2 ^ lb = 2 ^ la * 2 ^ (- (la - lb))).
    { rewrite <- Z.pow_add_r by lia. f_equal. lia. }
    pose proof (Z.pow_pos_nonneg 2 (- (la - lb)) ltac:(lia) ltac:(lia)) as Hp.
    pose proof (Z.pow_pos_nonneg 2 la ltac:(lia) ltac:(lia)) as Hpla.
    destruct (Z.leb_spec b (a * 2 ^ (- (la - lb)))) as [Ht | Ht].
    + split; [lia|]. intros _. split; [exact Ht|]. nia.
    + split; [lia|]. intros _.
      replace (- (la - lb - 1)) with (Z.succ (- (la - lb))) by lia.
      rewrite Z.pow_succ_r by lia. split; [nia | nia].
Qed.

Lemma scaled_spec (a b : Z) :
  0 < a -> 0 < b ->
  let e := ilog2 a b - 52 in
  let num := fst (scaled a b) in
  let den := snd (scaled a b) in
  0 < den /\ den * 2 ^ 52 <= num < den * 2 ^ 53 /\
  (0 <= e -> num = a /\ den = b * 2 ^ e) /\
  (e < 0 -> num = a * 2 ^ (- e) /\ den = b).
Proof.
  intros Ha Hb. cbv zeta. unfold scaled.
  destruct (ilog2_spec a b Ha Hb) as [Hpos Hneg].
  set (k := ilog2 a b) in *.
  destruct (Z.leb_spec 0 (k - 52)) as [He | He]; cbn [fst snd].
  - pose proof (Z.pow_pos_nonneg 2 (k - 52) ltac:(lia) He) as Hp.
    assert (Ek : 2 ^ k = 2 ^ (k - 52) * 2 ^ 52).
    { rewrite <- Z.pow_add_r by lia. f_equal. lia. }
    destruct (Hpos ltac:(lia)) as [Hlo Hhi].
    rewrite Z.pow_add_r in Hhi by lia. change (2 ^ 1) with 2 in Hhi.
    rewrite Ek in Hlo, Hhi.
    change (2 ^ 53) with (2 ^ 52 * 2).
    split; [nia|]. split; [split; nia|]. split; [auto | lia].
  - pose proof (Z.pow_pos_nonneg 2 (- (k - 52)) ltac:(lia) ltac:(lia)) as Hp.
    split; [lia|]. split; [|split; [lia | auto]].
    destruct (Z.le_gt_cases 0 k) as [Hk | Hk].
    + destruct (Hpos Hk) as [Hlo Hhi].
      assert (E52 : 2 ^ 52 = 2 ^ k * 2 ^ (- (k - 52))).
      { rewrite <- Z.pow_add_r by lia. f_equal. lia. }
      rewrite Z.pow_add_r in Hhi by lia. change (2 ^ 1) with 2 in Hhi.
      change (2 ^ 53) with (2 ^ 52 * 2). rewrite E52.
      pose proof (Z.pow_pos_nonneg 2 k ltac:(lia) Hk).
      split; nia.
    + destruct (Hneg Hk) as [Hlo Hhi].
      assert (E : 2 ^ (- (k - 52)) = 2 ^ (- k) * 2 ^ 52).
      { rewrite <- Z.pow_add_r by lia. f_equal. lia. }
      change (2 ^ 53) with (2 ^ 52 * 2). rewrite E.
      pose proof (Z.pow_pos_nonneg 2 (- k) ltac:(lia) ltac:(lia)).
      split; nia.
Qed.

Lemma round53_pos_cases (a b : Z) :
  0 < a -> 0 < b ->
  exists m,
    2 ^ 52 <= m <= 2 ^ 53 /\
    ((exists e, 0 <= e /\ round53_pos a b = inject_Z (m * 2 ^ e) /\
                - (b * 2 ^ e) <= 2 * (m * (b * 2 ^ e) - a) <= b * 2 ^ e /\
                b * 2 ^ e * 2 ^ 52 <= a < b * 2 ^ e * 2 ^ 53 /\
                m = round_half_even a (b * 2 ^ e)) \/
     (exists s, 0 < s /\ round53_pos a b = Qmake m (Z.to_pos (2 ^ s)) /\
                - b <= 2 * (m * b - a * 2 ^ s) <= b /\
                b * 2 ^ 52 <= a * 2 ^ s < b * 2 ^ 53 /\
                m = round_half_even (a * 2 ^ s) b)).
Proof.
  intros Ha Hb.
  destruct (scaled_spec a b Ha Hb) as (Hden & Hrange & Hpos & Hneg).
  unfold round53_pos. cbv zeta.
  set (e := ilog2 a b - 52) in *.
  set (num := fst (scaled a b)) in *. set (den := snd (scaled a b)) in *.
  destruct (rhe_spec num den Hden) as (Herr & _ & _).
  pose proof (rhe_ge num den (2 ^ 52) Hden ltac:(lia)) as Hlo.
  pose proof (rhe_le num den (2 ^ 53) Hden ltac:(lia)) as Hhi.
  exists (round_half_even num den). split; [lia|].
  destruct (Z.leb_spec 0 e) as [He | He].
  - left. exists e. destruct (Hpos He) as [En Ed].
    rewrite En, Ed in *. repeat split; try lia.
  - right. exists (- e). destruct (Hneg He) as [En Ed].
    rewrite En, Ed in *. repeat split; try lia.
Qed.

Lemma pos_pow2 (s : Z) : 0 <= s -> Z.pos (Z.to_pos (2 ^ s)) = 2 ^ s.
Proof.
  intros Hs. apply Z2Pos.id. apply Z.pow_pos_nonneg; lia.
Qed.

Lemma round53_pos_positive (a b : Z) :
  0 < a -> 0 < b -> (0 < round53_pos a b)%Q.
Proof.
  intros Ha Hb.
  destruct (round53_pos_cases a b Ha Hb)
    as (m & Hm & [(e & He & -> & _) | (s & Hs & -> & _)]).
  - unfold Qlt, inject_Z. cbn [Qnum Qden].
    pose proof (Z.pow_pos_nonneg 2 e ltac:(lia) He).
    assert (0 < 2 ^ 52) by reflexivity. nia.
  - unfold Qlt. cbn [Qnum Qden]. assert (0 < 2 ^ 52) by reflexivity. lia.
Qed.


Lemma round53_pos_le (a b M : Z) :
  0 < a -> 0 < b -> M <= 2 ^ 53 -> a <= M * b ->
  (round53_pos a b <= inject_Z M)%Q.
Proof.
  intros Ha Hb HM Hq.
  destruct (round53_pos_cases a b Ha Hb)
    as (m & Hm & [(e & He & -> & Herr & Hr & Em) | (s & Hs & -> & Herr & Hr & Em)]).
  - pose proof (Z.pow_pos_nonneg 2 e ltac:(lia) He) as Hp.
    unfold Qle, inject_Z. cbn [Qnum Qden]. rewrite !Z.mul_1_r.
    destruct (Z.eq_dec e 0) as [-> | Ne].
    + change (2 ^ 0) with 1 in *. rewrite Z.mul_1_r in *.
      subst m. apply rhe_le; lia.
    + assert (E2 : 2 ^ e = 2 * 2 ^ (e - 1)).
      { rewrite <- Z.pow_succ_r by lia. f_equal. lia. }
      pose proof (Z.pow_pos_nonneg 2 (e - 1) ltac:(lia) ltac:(lia)) as Hp1.
      change (2 ^ 53) with (2 ^ 52 * 2) in *.
      assert (HM' : M = 2 ^ 52 * 2) by nia.
      assert (He1 : 2 ^ (e - 1) = 1) by nia.
      rewrite E2, He1 in *.
      assert (m <= 2 ^ 52); [|nia].
      subst m. apply rhe_le; nia.
  - pose proof (Z.pow_pos_nonneg 2 s ltac:(lia) ltac:(lia)) as Hp.
    unfold Qle, inject_Z. cbn [Qnum Qden]. rewrite (pos_pow2 s) by lia.
    rewrite Z.mul_1_r. subst m. apply rhe_le; [lia | nia].
Qed.

Lemma round53_pos_ge (a b M : Z) :
  0 < a -> 0 < b -> M <= 2 ^ 53 -> M * b <= a ->
  (inject_Z M <= round53_pos a b)%Q.
Proof.
  intros Ha Hb HM Hq.
  destruct (round53_pos_cases a b Ha Hb)
    as (m & Hm & [(e & He & -> & Herr & Hr & Em) | (s & Hs & -> & Herr & Hr & Em)]).
  - pose proof (Z.pow_pos_nonneg 2 e ltac:(lia) He) as Hp.
    unfold Qle, inject_Z. cbn [Qnum Qden]. rewrite !Z.mul_1_r.
    destruct (Z.eq_dec e 0) as [-> | Ne].
    + change (2 ^ 0) with 1 in *. rewrite Z.mul_1_r in *.
      subst m. apply rhe_ge; lia.
    + assert (E2 : 2 ^ e = 2 * 2 ^ (e - 1)).
      { rewrite <- Z.pow_succ_r by lia. f_equal. lia. }
      pose proof (Z.pow_pos_nonneg 2 (e - 1) ltac:(lia) ltac:(lia)) as Hp1.
      change (2 ^ 53) with (2 ^ 52 * 2) in *. nia.
  - pose proof (Z.pow_pos_nonneg 2 s ltac:(lia) ltac:(lia)) as Hp.
    unfold Qle, inject_Z. cbn [Qnum Qden]. rewrite (pos_pow2 s) by lia.
    rewrite Z.mul_1_r. subst m. apply rhe_ge; [lia | nia].
Qed.

Lemma round53_sign (q : Q) :
  (Qnum q = 0 /\ round53 q = 0%Q) \/
  (0 < Qnum q /\ (round53 q == round53_pos (Qnum q) (Z.pos (Qden q)))%Q) \/
  (Qnum q < 0 /\ (round53 q == - round53_pos (- Qnum q) (Z.pos (Qden q)))%Q).
Proof.
  unfold round53. cbv zeta.
  destruct (Z.eqb_spec (Z.abs (Qnum q)) 0) as [E | N].
  - left. split; [lia | reflexivity].
  - right. rewrite Qred_correct.
    destruct (Z.ltb_spec (Qnum q) 0) as [L | G].
    + right. split; [exact L|]. rewrite Z.abs_neq by lia. reflexivity.
    + left. split; [lia|]. rewrite Z.abs_eq by lia. reflexivity.
Qed.


Theorem round53_le (q : Q) (M : Z) :
  Z.abs M <= 2 ^ 53 -> (q <= inject_Z M)%Q -> (round53 q <= inject_Z M)%Q.
Proof.
  intros HM Hq. destruct q as [n d].
  unfold Qle, inject_Z in Hq. cbn [Qnum Qden] in Hq. rewrite Z.mul_1_r in Hq.
  destruct (round53_sign (n # d)) as [[E ->] | [[Hp E] | [Hn E]]]; cbn [Qnum Qden] in *.
  - subst n. unfold Qle, inject_Z. cbn. lia.
  - rewrite E. apply round53_pos_le; lia.
  - rewrite E.
    pose proof (round53_pos_ge (- n) (Z.pos d) (- M) ltac:(lia) ltac:(lia)
                  ltac:(lia) ltac:(lia)) as H.
    apply Qopp_le_compat in H.
    assert (EM : (- inject_Z (- M) == inject_Z M)%Q).
    { unfold Qeq, Qopp, inject_Z. cbn. lia. }
    rewrite EM in H. exact H.
Qed.

Theorem round53_ge (q : Q) (M : Z) :
  Z.abs M <= 2 ^ 53 -> (inject_Z M <= q)%Q -> (inject_Z M <= round53 q)%Q.
Proof.
  intros HM Hq. destruct q as [n d].
  unfold Qle, inject_Z in Hq. cbn [Qnum Qden] in Hq. rewrite Z.mul_1_r in Hq.
  destruct (round53_sign (n # d)) as [[E ->] | [[Hp E] | [Hn E]]]; cbn [Qnum Qden] in *.
  - subst n. unfold Qle, inject_Z. cbn. lia.
  - rewrite E. apply round53_pos_ge; lia.
  - rewrite E.
    pose proof (round53_pos_le (- n) (Z.pos d) (- M) ltac:(lia) ltac:(lia)
                  ltac:(lia) ltac:(lia)) as H.
    apply Qopp_le_compat in H.
    assert (EM : (- inject_Z (- M) == inject_Z M)%Q).
    { unfold Qeq, Qopp, inject_Z. cbn. lia. }
    rewrite EM in H. exact H.
Qed.



(** * Properties *)

Lemma eval_cmp_gt (r : dict) (L : Z) :
  eval_filter r (cmp "votecount" ">" L) =
  match votecount_of r with Some v => L <? v | None => false end.
Proof.
  unfold cmp, votecount_of. cbn.
  destruct (dict_get "votecount" r) as [[]|]; reflexivity.
Qed.

Lemma eval_cmp_le (r : dict) (U : Z) :
  eval_filter r (cmp "votecount" "<=" U) =
  match votecount_of r with Some v => v <=? U | None => false end.
Proof.
  unfold cmp, votecount_of. cbn.
  destruct (dict_get "votecount" r) as [[]|]; reflexivity.
Qed.

Lemma eval_and2 (r : dict) (f g : json) :
  eval_filter r (and2 f g) = eval_filter r f && eval_filter r g.
Proof.
  unfold and2. cbn. rewrite andb_true_r. reflexivity.
Qed.

Lemma eval_votecount_filter (r : dict) (L : Z) (U : option Z) :
  eval_filter r (votecount_filter L U) =
  match votecount_of r, U with
  | Some v, Some u => (L <? v) && (if u =? 0 then true else v <=? u)
  | Some v, None => L <? v
  | None, _ => false
  end.
Proof.
  unfold votecount_filter, truthy_bound.
  destruct U as [u|].
  - destruct (u =? 0); cbn [negb].
    + rewrite eval_cmp_gt. destruct (votecount_of r); [rewrite andb_true_r|]; reflexivity.
    + rewrite eval_and2, eval_cmp_gt, eval_cmp_le. destruct (votecount_of r); reflexivity.
  - rewrite eval_cmp_gt. reflexivity.
Qed.

Lemma sales_filter_eq (min_sales : Z) (max_sales : option Z) :
  sales_filter min_sales max_sales =
  votecount_filter (sales_min_votes min_sales) (sales_max_votes max_sales).
Proof.
  unfold sales_filter, votecount_filter. reflexivity.
Qed.

Lemma votecount_filter_bounded (L u : Z) :
  u <> 0 ->
  votecount_filter L (Some u) = and2 (cmp "votecount" ">" L) (cmp "votecount" "<=" u).
Proof.
  intros Hu. unfold votecount_filter, truthy_bound.
  destruct (Z.eqb_spec u 0); [contradiction | reflexivity].
Qed.

Lemma votecount_filter_unbounded (L : Z) (U : option Z) :
  U = None \/ U = Some 0 ->
  votecount_filter L U = cmp "votecount" ">" L.
Proof. intros [-> | ->]; reflexivity. Qed.

Lemma selects_bounded (r : dict) (L u : Z) :
  u <> 0 ->
  eval_filter r (votecount_filter L (Some u)) = true <-> selects_between r L u.
Proof.
  intros Hu. rewrite eval_votecount_filter. unfold selects_between.
  destruct (votecount_of r) as [v|].
  - destruct (Z.eqb_spec u 0); [contradiction|].
    rewrite andb_true_iff, Z.ltb_lt, Z.leb_le. split.
    + intros [H1 H2]. exists v. auto.
    + intros (v' & E & H1 & H2). inversion E; subst. auto.
  - split; [discriminate | intros (v & E & _); discriminate].
Qed.

Lemma selects_unbounded (r : dict) (L : Z) (U : option Z) :
  U = None \/ U = Some 0 ->
  eval_filter r (votecount_filter L U) = true <-> selects_above r L.
Proof.
  intros HU. rewrite eval_votecount_filter. unfold selects_above.
  destruct (votecount_of r) as [v|].
  - assert (E : match U with
                | Some u => (L <? v) && (if u =? 0 then true else v <=? u)
                | None => L <? v
                end = (L <? v)).
    { destruct HU as [-> | ->]; [reflexivity | cbn; apply andb_true_r]. }
    rewrite E, Z.ltb_lt. split.
    + intros H. exists v. auto.
    + intros (v' & E' & H). inversion E'; subst. auto.
  - split; [discriminate | intros (v & E & _); discriminate].
Qed.

(** An upper bound equal to 0 is read as no upper bound, since the test is
    [if max_votes:]: the filter is the single comparison, and it selects a
    record with 7 votes.  None of the declared triples has such a bound. *)
Example filter_zero_upper_bound :
  votecount_filter 5 (Some 0) = cmp "votecount" ">" 5 /\
  eval_filter [("votecount", JInt 7)] (votecount_filter 5 (Some 0)) = true /\
  Forall (fun t => upper t <> Some 0) votecount_ranges /\
  Forall (fun t => sales_max_votes (upper t) <> Some 0) sales_estimate_ranges.
Proof.
  split; [reflexivity|]. split; [reflexivity|].
  split; repeat constructor; discriminate.
Qed.

Lemma matches_spec (r : dict) (t : triple) :
  matches r t = true ->
  exists v, votecount_of r = Some v /\ lower t < v /\
            forall u, upper t = Some u -> u <> 0 -> v <= u.
Proof.
  unfold matches, triple_filter. rewrite eval_votecount_filter.
  destruct (votecount_of r) as [v|]; [|discriminate].
  intros H. exists v. split; [reflexivity|].
  destruct (upper t) as [u'|].
  - apply andb_true_iff in H. destruct H as [H1 H2]. apply Z.ltb_lt in H1.
    split; [assumption|]. intros u E Hu. inversion E; subst u'.
    destruct (Z.eqb_spec u 0); [contradiction|]. now apply Z.leb_le.
  - apply Z.ltb_lt in H. split; [assumption | discriminate].
Qed.

Lemma chained_above (r : dict) (v bound : Z) (ts : list triple) :
  chained bound ts -> votecount_of r = Some v -> bound < v ->
  filter (matches r) ts = [].
Proof.
  revert bound. induction ts as [|t ts IH]; intros bound Hc Hv Hb; [reflexivity|].
  destruct Hc as [(u & Eu & Hu & Hlo & Hhi) Hc]. cbn [filter].
  destruct (matches r t) eqn:Hm.
  - apply matches_spec in Hm. destruct Hm as (v' & Ev & _ & Hup).
    rewrite Hv in Ev. inversion Ev; subst v'. specialize (Hup u Eu Hu). lia.
  - apply (IH (lower t)); [assumption | assumption | lia].
Qed.

Lemma chained_count (r : dict) (bound : Z) (ts : list triple) :
  chained bound ts ->
  (List.length (filter (matches r) ts) <= 1)%nat.
Proof.
  revert bound. induction ts as [|t ts IH]; intros bound Hc; [cbn; lia|].
  destruct Hc as [_ Hc]. cbn [filter].
  destruct (matches r t) eqn:Hm.
  - apply matches_spec in Hm. destruct Hm as (v & Ev & Hlt & _).
    rewrite (chained_above r v (lower t) ts Hc Ev Hlt). cbn. lia.
  - apply (IH (lower t) Hc).
Qed.

Lemma votecount_ranges_chained :
  exists top rest,
    votecount_ranges = top :: rest /\ upper top = None /\ chained (lower top) rest.
Proof.
  eexists; eexists. split; [reflexivity|]. split; [reflexivity|].
  cbn [chained lower upper fst snd].
  repeat match goal with
         | |- _ /\ _ => split
         | |- exists _, _ => eexists
         | |- True => exact I
         end; first [reflexivity | lia].
Qed.

Lemma list_sum_pointwise (ts : list triple) (f g : triple -> nat) :
  list_sum (map (fun t => (f t + g t)%nat) ts) =
  (list_sum (map f ts) + list_sum (map g ts))%nat.
Proof.
  unfold list_sum.
  induction ts as [|t ts IH]; cbn [map fold_right]; [reflexivity | rewrite IH; lia].
Qed.

Lemma list_sum_indicator (r : dict) (ts : list triple) :
  list_sum (map (fun t => if matches r t then 1%nat else 0%nat) ts) =
  List.length (filter (matches r) ts).
Proof.
  unfold list_sum.
  induction ts as [|t ts IH]; cbn [map fold_right filter]; [reflexivity|].
  rewrite IH. destruct (matches r t); reflexivity.
Qed.

Lemma bucket_counts_bounded (ts : list triple) (db : list dict) :
  (forall r, (List.length (filter (matches r) ts) <= 1)%nat) ->
  (list_sum (map (bucket_count db) ts) <= List.length db)%nat.
Proof.
  intros Hone. induction db as [|r db IH].
  - replace (map (bucket_count []) ts) with (map (fun _ : triple => 0%nat) ts)
      by reflexivity.
    clear. unfold list_sum.
    induction ts as [|t ts IH]; cbn [map fold_right List.length] in *; lia.
  - replace (map (bucket_count (r :: db)) ts)
      with (map (fun t => ((if matches r t then 1 else 0) + bucket_count db t)%nat) ts).
    + rewrite list_sum_pointwise, list_sum_indicator.
      specialize (Hone r). cbn [List.length]. lia.
    + apply map_ext. intros t. unfold bucket_count. cbn [filter].
      destruct (matches r t); reflexivity.
Qed.

(** C6: the declared vote-count buckets do not overlap.  Whatever the
    record, at most one of the thirteen filters built from
    [votecount_ranges] selects it; the bounds are exact (a vote count equal
    to a bound [U] falls in the bucket whose upper bound is [U], not in the
    one whose lower bound is [U]); and therefore the bucket counts of any
    database add up to at most the number of its records. *)
Theorem votecount_ranges_disjoint :
  (forall r : dict,
     (List.length (filter (fun t => eval_filter r (triple_filter t)) votecount_ranges)
      <= 1)%nat) /\
  (forall L U lab r,
     In (L, Some U, lab) votecount_ranges ->
     votecount_of r = Some U ->
     filter (fun t => eval_filter r (triple_filter t)) votecount_ranges
     = [(L, Some U, lab)]) /\
  (forall db : list dict,
     (list_sum (map (bucket_count db) votecount_ranges) <= List.length db)%nat).
Proof.
  assert (Hone : forall r, (List.length (filter (matches r) votecount_ranges) <= 1)%nat).
  { intros r. destruct votecount_ranges_chained as (top & rest & -> & Hup & Hc).
    cbn [filter]. destruct (matches r top) eqn:Hm.
    - apply matches_spec in Hm. destruct Hm as (v & Ev & Hlt & _).
      rewrite (chained_above r v (lower top) rest Hc Ev Hlt). cbn. lia.
    - apply (chained_count r (lower top) rest Hc). }
  split; [exact Hone|]. split.
  - intros L U lab r Hin Hv.
    change (fun t => eval_filter r (triple_filter t)) with (matches r).
    assert (Hm : matches r (L, Some U, lab) = true).
    { unfold matches, triple_filter. rewrite eval_votecount_filter, Hv.
      cbn [upper lower fst snd].
      cbn in Hin.
      repeat (destruct Hin as [Hin | Hin];
              [inversion Hin; subst; reflexivity|]).
      contradiction. }
    assert (Hmem : In (L, Some U, lab) (filter (matches r) votecount_ranges)).
    { apply filter_In. split; assumption. }
    specialize (Hone r).
    destruct (filter (matches r) votecount_ranges) as [|t [|t' l]];
      [contradiction | | cbn in Hone; lia].
    destruct Hmem as [-> | []]. reflexivity.
  - intros db. apply bucket_counts_bounded. exact Hone.
Qed.

Lemma votecount_ranges_disjoint_witness :
  filter (fun t => eval_filter [("votecount", JInt 10000)] (triple_filter t))
    votecount_ranges
  = [(5000, Some 10000, "5,000-10,000")].
Proof.
  apply (proj1 (proj2 votecount_ranges_disjoint) 5000 10000 "5,000-10,000").
  - cbn. right. left. reflexivity.
  - reflexivity.
Defined.



Example sales_ranges_converted :
  map (fun t => (sales_min_votes (lower t), sales_max_votes (upper t)))
      sales_estimate_ranges =
  [ (1333, None); (666, Some 1333); (333, Some 666);
    (133, Some 333); (66, Some 133); (13, Some 66) ].
Proof. reflexivity. Qed.

(** ** The API client *)

Lemma query_vndb_run (server : service) (endpoint : string) (payload : json) (w : world) :
  query_vndb server endpoint payload w =
  (answer server (w_calls w) endpoint payload, after_query server endpoint payload w).
Proof.
  unfold query_vndb, answer, after_query, query_events, bind, requests_post.
  destruct (server (w_calls w) _ payload) as [r|]; [|reflexivity].
  unfold time_sleep, print, emit, response_json, ret, raise. cbn.
  destruct (status_code r =? 200).
  - destruct (json_body r); cbn; rewrite <- app_assoc; reflexivity.
  - cbn. rewrite <- !app_assoc. reflexivity.
Qed.

(** C8: when the service answers a call of [query_vndb] with a response
    [r], the call adds to the trace the request followed by the 150 ms
    delay, whatever the status; on status 200 it returns the decoded body; on
    any other status it prints the status code and the body text after the
    delay and returns [None], without raising. *)
Theorem query_vndb_contract (server : service) (endpoint : string) (payload : json)
  (w : world) (r : response) :
  let url := String.append BASE_URL (String.append "/" endpoint) in
  server (w_calls w) url payload = Response r ->
  let (out, w') := query_vndb server endpoint payload w in
  (exists tail,
     w_trace w' = w_trace w ++ EPost url payload :: ESleep 150 :: tail) /\
  (status_code r = 200 ->
     (forall v, json_body r = Some v -> out = Ok v) /\
     w_trace w' = w_trace w ++ [EPost url payload; ESleep 150]) /\
  (status_code r <> 200 ->
     out = Ok None /\
     w_trace w' = w_trace w ++
       [EPost url payload; ESleep 150; EPrint (LError (status_code r) (text r))]).
Proof.
  intros url Hr. rewrite query_vndb_run.
  unfold answer, after_query, query_events. fold url. rewrite Hr. cbn [w_trace].
  change rate_limit_ms with 150.
  split; [eexists; reflexivity|]. split.
  - intros E. rewrite E. cbn. split; [|reflexivity].
    intros v ->. reflexivity.
  - intros N. destruct (Z.eqb_spec (status_code r) 200); [contradiction|].
    split; reflexivity.
Qed.

Lemma query_vndb_contract_witness :
  query_vndb (const_server error_response) "vn" (count_payload (cmp "votecount" ">" 0)) w0 =
  (Ok None,
   {| w_calls := 1;
      w_trace := [EPost "https://api.vndb.org/kana/vn" (count_payload (cmp "votecount" ">" 0));
                  ESleep 150;
                  EPrint (LError 500 "Internal Server Error")] |}).
Proof.
  pose proof (query_vndb_contract (const_server error_response) "vn"
                (count_payload (cmp "votecount" ">" 0)) w0 error_response eq_refl) as H.
  destruct (query_vndb _ _ _ w0) as [out w'] eqn:E.
  destruct H as (_ & _ & H). destruct (H ltac:(discriminate)) as [-> Ht].
  rewrite query_vndb_run in E. inversion E; subst w'. reflexivity.
Defined.

(** ** The aggregators *)

Lemma format_int_ok (v : json) (w : world) :
  as_int v <> None -> exists n, format_int v w = (Ok n, w).
Proof.
  destruct v; cbn; intros H; try contradiction; eexists; reflexivity.
Qed.

Ltac length_lia := unfold triple in *; cbn [List.length] in *; lia.

Lemma world_eta (w : world) (evs : list event) (k : nat) :
  evs = [] -> k = 0%nat ->
  w = {| w_calls := w_calls w + k; w_trace := w_trace w ++ evs |}.
Proof.
  intros -> ->. destruct w as [c tr]. cbn. now rewrite Nat.add_0_r, app_nil_r.
Qed.

Lemma count_line_format (mk : Z -> line) (kv : string * json) (d : dict) :
  as_int (count_of (kv :: d)) <> None ->
  exists n,
    as_int (count_of (kv :: d)) = Some n /\
    count_line mk (Some (kv :: d)) = [EPrint (mk n)] /\
    forall w, format_int (count_of (kv :: d)) w = (Ok n, w).
Proof.
  intros Hp. cbn [count_line].
  destruct (count_of (kv :: d)) as [|b|n|s|l|o]; cbn in Hp |- *; try contradiction;
    eexists; repeat split.
Qed.

Lemma step1_loop_run (server : service) (ranges : list triple) :
  forall (results : list (option dict)) (acc : list bucket) (w : world),
    answered server (w_calls w) (map triple_filter ranges) results ->
    step1_loop server ranges acc w =
      (Ok (acc ++ zip_with bucket_for ranges results),
       {| w_calls := w_calls w + List.length ranges;
          w_trace := w_trace w ++
                     loop_events server (w_calls w) (map bucket_request ranges) results |}).
Proof.
  induction ranges as [|[[mn mx] lab] ranges IH]; intros [|res results] acc w H;
    cbn in H; try contradiction.
  - cbn [step1_loop step2_loop zip_with map loop_events List.length]. unfold ret.
    rewrite app_nil_r. f_equal. now apply world_eta.
  - destruct H as (Ha & Hp & Hrest).
    cbn [step1_loop]. unfold bind at 1. rewrite query_vndb_run.
    change (triple_filter (mn, mx, lab)) with (votecount_filter mn mx) in Ha.
    rewrite Ha.
    cbn [map loop_events bucket_request List.length].
    change (triple_filter (mn, mx, lab)) with (votecount_filter mn mx).
    change (label (mn, mx, lab)) with lab.
    assert (Hskip : forall r, count_line (LBucket lab) r = [] -> bucket_for (mn, mx, lab) r = [] ->
              step1_loop server ranges acc
                (after_query server "vn" (count_payload (votecount_filter mn mx)) w) =
              (Ok (acc ++ zip_with bucket_for ((mn, mx, lab) :: ranges) (r :: results)),
               {| w_calls := w_calls w + S (List.length ranges);
                  w_trace := w_trace w ++
                    query_events server (w_calls w) "vn"
                      (count_payload (votecount_filter mn mx)) ++
                    count_line (LBucket lab) r ++
                    loop_events server (S (w_calls w)) (map bucket_request ranges)
                      results |})).
    { intros r Hl Hb.
      rewrite (IH results acc
                 (after_query server "vn" (count_payload (votecount_filter mn mx)) w)
                 Hrest).
      cbn [zip_with after_query w_calls w_trace]. rewrite Hl, Hb. cbn [app].
      rewrite <- app_assoc. do 2 f_equal. length_lia. }
    destruct res as [[|kv d]|]; [now apply Hskip | | now apply Hskip].
    destruct (count_line_format (LBucket lab) kv d Hp) as (n & _ & Hl & Hf).
    unfold bind at 1. fold (count_of (kv :: d)). rewrite Hf.
    unfold bind at 1. cbn [print emit].
    match goal with
    | |- step1_loop server ranges ?a ?w1 = _ => rewrite (IH results a w1 Hrest)
    end.
    match goal with
    | |- context [count_line ?mk ?r] =>
        replace (count_line mk r) with [EPrint (mk n)] by (symmetry; exact Hl)
    end.
    cbn [zip_with bucket_for label lower upper fst snd after_query w_calls w_trace].
    rewrite <- !app_assoc. cbn [app]. f_equal.
    + do 3 f_equal.
      destruct mx as [u|]; [unfold truthy_bound; destruct (u =? 0)|]; reflexivity.
    + f_equal. length_lia.
Qed.

Lemma step2_loop_run (server : service) (fl : list (string * json)) :
  forall (results : list (option dict)) (acc : list commercial) (w : world),
    answered server (w_calls w) (map snd fl) results ->
    step2_loop server fl acc w =
      (Ok (acc ++ zip_with commercial_for fl results),
       {| w_calls := w_calls w + List.length fl;
          w_trace := w_trace w ++
                     loop_events server (w_calls w) (map commercial_request fl) results |}).
Proof.
  induction fl as [|[lab f] fl IH]; intros [|res results] acc w H;
    cbn in H; try contradiction.
  - cbn [step1_loop step2_loop zip_with map loop_events List.length]. unfold ret.
    rewrite app_nil_r. f_equal. now apply world_eta.
  - destruct H as (Ha & Hp & Hrest).
    cbn [step2_loop]. unfold bind at 1. rewrite query_vndb_run, Ha.
    cbn [map loop_events commercial_request List.length fst snd].
    assert (Hskip : forall r, count_line (LCommercial lab) r = [] ->
              commercial_for (lab, f) r = [] ->
              step2_loop server fl acc (after_query server "vn" (count_payload f) w) =
              (Ok (acc ++ zip_with commercial_for ((lab, f) :: fl) (r :: results)),
               {| w_calls := w_calls w + S (List.length fl);
                  w_trace := w_trace w ++
                    query_events server (w_calls w) "vn" (count_payload f) ++
                    count_line (LCommercial lab) r ++
                    loop_events server (S (w_calls w)) (map commercial_request fl)
                      results |})).
    { intros r Hl Hb.
      rewrite (IH results acc (after_query server "vn" (count_payload f) w) Hrest).
      cbn [zip_with after_query w_calls w_trace]. rewrite Hl, Hb. cbn [app].
      rewrite <- app_assoc. do 2 f_equal. length_lia. }
    destruct res as [[|kv d]|]; [now apply Hskip | | now apply Hskip].
    destruct (count_line_format (LCommercial lab) kv d Hp) as (n & _ & Hl & Hf).
    unfold bind at 1. fold (count_of (kv :: d)). rewrite Hf.
    unfold bind at 1. cbn [print emit].
    match goal with
    | |- step2_loop server fl ?a ?w1 = _ => rewrite (IH results a w1 Hrest)
    end.
    match goal with
    | |- context [count_line ?mk ?r] =>
        replace (count_line mk r) with [EPrint (mk n)] by (symmetry; exact Hl)
    end.
    cbn [zip_with commercial_for fst after_query w_calls w_trace].
    rewrite <- !app_assoc. cbn [app]. f_equal. f_equal. length_lia.
Qed.

Lemma answer_not_200 (server : service) (n : nat) (endpoint : string) (payload : json)
  (r : response) :
  server n (String.append BASE_URL (String.append "/" endpoint)) payload = Response r ->
  status_code r <> 200 ->
  answer server n endpoint payload = Ok None.
Proof.
  intros E N. unfold answer. rewrite E.
  destruct (Z.eqb_spec (status_code r) 200); [contradiction | reflexivity].
Qed.

(** C2, as the code has it: both aggregators guard the record and its
    printed line with [if result:], and print the count with an integer
    format.  When every call of a run returns (the results being [results])
    and every count returned is an integer, the Range Aggregator returns, in
    input order, one record for every triple whose result is a non-empty
    object and none for a triple whose call failed ([None]) or returned an
    empty object; the record's count is the value under ['count'], or [0]
    when the key is missing; the trace is extended, triple by triple, by the
    events of the call followed by the line with the count, that line being
    printed for the recorded triples only; one request is sent per triple and
    nothing is raised.  The Commercial-Filter Aggregator does the same for
    its predicates.  A response with a status other than 200 gives the
    result [None]: its triple gets no record and no line but the error
    report of the API client. *)
Theorem aggregators_records (server : service) (w : world) :
  (forall ranges results,
     answered server (w_calls w) (map triple_filter ranges) results ->
     step1_loop server ranges [] w =
       (Ok (zip_with bucket_for ranges results),
        {| w_calls := w_calls w + List.length ranges;
           w_trace := w_trace w ++
                      loop_events server (w_calls w) (map bucket_request ranges)
                        results |})) /\
  (forall fl results,
     answered server (w_calls w) (map snd fl) results ->
     step2_loop server fl [] w =
       (Ok (zip_with commercial_for fl results),
        {| w_calls := w_calls w + List.length fl;
           w_trace := w_trace w ++
                      loop_events server (w_calls w) (map commercial_request fl)
                        results |})) /\
  (forall t lf kv d,
     let count := match dict_get "count" (kv :: d) with Some c => c | None => JInt 0 end in
     (exists b, bucket_for t (Some (kv :: d)) = [b] /\
                bk_range b = label t /\ bk_min b = lower t /\ bk_count b = count) /\
     commercial_for lf (Some (kv :: d)) = [ {| cf_filter := fst lf; cf_count := count |} ] /\
     forall mk n, as_int count = Some n ->
       count_line mk (Some (kv :: d)) = [EPrint (mk n)]) /\
  (forall t lf mk,
     bucket_for t None = [] /\ bucket_for t (Some []) = [] /\
     commercial_for lf None = [] /\ commercial_for lf (Some []) = [] /\
     count_line mk None = [] /\ count_line mk (Some []) = []) /\
  (forall n f r,
     server n "https://api.vndb.org/kana/vn" (count_payload f) = Response r ->
     status_code r <> 200 ->
     answer server n "vn" (count_payload f) = Ok None /\
     query_events server n "vn" (count_payload f) =
       [EPost "https://api.vndb.org/kana/vn" (count_payload f); ESleep 150;
        EPrint (LError (status_code r) (text r))]).
Proof.
  split; [|split; [|split; [|split]]].
  - intros ranges results H. apply (step1_loop_run server ranges results [] w H).
  - intros fl results H. apply (step2_loop_run server fl results [] w H).
  - intros t lf kv d count. split; [|split; [reflexivity|]].
    + eexists. split; [reflexivity|]. repeat split.
    + intros mk n Hn. cbn [count_line]. unfold count_of, dict_get_default.
      fold count. rewrite Hn. reflexivity.
  - intros t lf mk. repeat split.
  - intros n f r E N.
    split; [apply (answer_not_200 server n "vn" (count_payload f) r E N)|].
    unfold query_events.
    change (String.append BASE_URL (String.append "/" "vn"))
      with "https://api.vndb.org/kana/vn".
    rewrite E. destruct (Z.eqb_spec (status_code r) 200); [contradiction | reflexivity].
Qed.

Lemma aggregators_records_witness :
  step1_loop (const_server (ok_response [("count", JInt 42)]))
    [(0, Some 1, "0-1")] [] w0 =
  (Ok [ {| bk_range := "0-1"; bk_min := 0; bk_max := 1; bk_count := JInt 42 |} ],
   {| w_calls := 1;
      w_trace := [EPost "https://api.vndb.org/kana/vn"
                    (count_payload (votecount_filter 0 (Some 1)));
                  ESleep 150;
                  EPrint (LBucket "0-1" 42)] |}).
Proof.
  apply (proj1 (aggregators_records (const_server (ok_response [("count", JInt 42)])) w0)
           [(0, Some 1, "0-1")] [Some [("count", JInt 42)]]).
  cbn. repeat split. discriminate.
Defined.

(** The claim of C2 as written fails when the calls fail: with a service
    that answers every request with status 500, the aggregators return no
    record at all for their thirteen triples and five predicates, instead of
    one record with count 0 for each.  It also fails on a count that is not
    an integer: the first line to print raises [ValueError] and no record is
    returned. *)
Lemma aggregators_skip_failed_calls :
  fst (step1_loop (const_server error_response) votecount_ranges [] w0) = Ok [] /\
  fst (step2_loop (const_server error_response) commercial_filters [] w0) = Ok [] /\
  List.length votecount_ranges = 13%nat /\ List.length commercial_filters = 5%nat /\
  fst (step1_loop (const_server (ok_response [("count", JStr "1,204")]))
         votecount_ranges [] w0) = Raise ValueError /\
  fst (step2_loop (const_server (ok_response [("count", JStr "1,204")]))
         commercial_filters [] w0) = Raise ValueError.
Proof. repeat split. Qed.

(** ** The top-N fetcher *)

Lemma step3_loop_cons (server : service) (page : Z) (rest : list Z)
  (acc : list json) (w : world) :
  step3_loop server (page :: rest) acc w =
  let w1 := after_query server "vn" (page_payload page) w in
  match answer server (w_calls w) "vn" (page_payload page) with
  | Raise e => (Raise e, w1)
  | Ok (Some ((_ :: _) as d)) =>
      match dict_get "results" d with
      | Some v =>
          match py_iter v with
          | Ok items =>
              step3_loop server rest (acc ++ items)
                (printed (LPage page (List.length items)) w1)
          | Raise e => (Raise e, w1)
          end
      | None => (Ok acc, printed (LPageFailed page) w1)
      end
  | Ok _ => (Ok acc, printed (LPageFailed page) w1)
  end.
Proof.
  cbn [step3_loop]. unfold bind at 1. rewrite query_vndb_run.
  destruct (answer server (w_calls w) "vn" (page_payload page)) as [[[|kv d]|]|e];
    try reflexivity.
  destruct (dict_get "results" (kv :: d)) as [v|]; [|reflexivity].
  unfold bind at 1, lift. destruct (py_iter v); reflexivity.
Qed.

Lemma step3_all_served (server : service) (todo : list Z) :
  forall (got : list (list json)) (acc : list json) (w : world),
    served server (w_calls w) todo got ->
    exists w',
      step3_loop server todo acc w = (Ok (acc ++ List.concat got), w') /\
      w_calls w' = (w_calls w + List.length todo)%nat.
Proof.
  induction todo as [|page todo IH]; intros [|items got] acc w H;
    cbn in H; try contradiction.
  - exists w. cbn. rewrite app_nil_r. split; [reflexivity | lia].
  - destruct H as ((res & Ha & kv & d & v & -> & Hv & Hi) & Hrest).
    rewrite step3_loop_cons. cbv zeta. rewrite Ha, Hv, Hi.
    destruct (IH got (acc ++ items)
                (printed (LPage page (List.length items))
                   (after_query server "vn" (page_payload page) w)) Hrest)
      as (w' & E & Hc).
    exists w'. split.
    + rewrite E. cbn [List.concat]. rewrite app_assoc. reflexivity.
    + cbn in Hc |- *. lia.
Qed.

Lemma step3_stops (server : service) (pre : list Z) :
  forall (got : list (list json)) (p : Z) (post : list Z) (acc : list json) (w : world),
    served server (w_calls w) pre got ->
    (exists res,
       answer server (w_calls w + List.length pre) "vn" (page_payload p) = Ok res /\
       page_failed res) ->
    exists w',
      step3_loop server (pre ++ p :: post) acc w = (Ok (acc ++ List.concat got), w') /\
      w_calls w' = (w_calls w + List.length pre + 1)%nat.
Proof.
  induction pre as [|page pre IH]; intros [|items got] p post acc w H Hf;
    cbn in H; try contradiction.
  - destruct Hf as (res & Ha & Hres). cbn [app]. rewrite step3_loop_cons. cbv zeta.
    cbn [List.length] in Ha. rewrite Nat.add_0_r in Ha. rewrite Ha.
    eexists. split.
    + destruct res as [[|kv d]|]; cbn [page_failed] in Hres; [| rewrite Hres |];
        cbn [List.concat]; rewrite app_nil_r; reflexivity.
    + cbn. lia.
  - destruct H as ((res & Ha & kv & d & v & -> & Hv & Hi) & Hrest).
    cbn [app]. rewrite step3_loop_cons. cbv zeta. rewrite Ha, Hv, Hi.
    destruct (IH got p post (acc ++ items)
                (printed (LPage page (List.length items))
                   (after_query server "vn" (page_payload page) w)) Hrest)
      as (w' & E & Hc).
    { cbn [printed after_query w_calls]. cbn [List.length] in Hf.
      replace (S (w_calls w) + List.length pre)%nat
        with (w_calls w + S (List.length pre))%nat by lia. exact Hf. }
    exists w'. split.
    + rewrite E. cbn [List.concat]. rewrite app_assoc. reflexivity.
    + cbn in Hc |- *. lia.
Qed.

Lemma step3_complete (server : service) (todo : list Z) :
  forall (acc : list json) (w : world) (top : list json) (w' : world),
    step3_loop server todo acc w = (Ok top, w') ->
    exists got,
      top = acc ++ List.concat got /\
      (List.length got <= List.length todo)%nat /\
      served server (w_calls w) (firstn (List.length got) todo) got /\
      ((List.length got = List.length todo /\
        w_calls w' = (w_calls w + List.length todo)%nat) \/
       ((List.length got < List.length todo)%nat /\
        w_calls w' = (w_calls w + List.length got + 1)%nat /\
        exists p res,
          nth_error todo (List.length got) = Some p /\
          answer server (w_calls w + List.length got) "vn" (page_payload p) = Ok res /\
          page_failed res)).
Proof.
  induction todo as [|page todo IH]; intros acc w top w' H.
  - cbn in H. inversion H; subst. exists []. cbn. rewrite app_nil_r.
    repeat split; try lia.
  - rewrite step3_loop_cons in H. cbv zeta in H.
    destruct (answer server (w_calls w) "vn" (page_payload page)) as [res|e] eqn:Ha;
      [|discriminate].
    assert (Hstop : page_failed res ->
              (Ok acc, printed (LPageFailed page)
                         (after_query server "vn" (page_payload page) w)) = (Ok top, w') ->
              exists got,
                top = acc ++ List.concat got /\
                (List.length got <= List.length (page :: todo))%nat /\
                served server (w_calls w) (firstn (List.length got) (page :: todo)) got /\
                ((List.length got = List.length (page :: todo) /\
                  w_calls w' = (w_calls w + List.length (page :: todo))%nat) \/
                 ((List.length got < List.length (page :: todo))%nat /\
                  w_calls w' = (w_calls w + List.length got + 1)%nat /\
                  exists p res0,
                    nth_error (page :: todo) (List.length got) = Some p /\
                    answer server (w_calls w + List.length got) "vn" (page_payload p)
                      = Ok res0 /\
                    page_failed res0))).
    { intros Hres E. inversion E; subst. exists []. cbn [List.concat List.length firstn served].
      rewrite app_nil_r. repeat split; try (cbn; lia).
      right. split; [cbn; lia|]. split; [cbn; lia|].
      exists page, res. rewrite Nat.add_0_r. repeat split; assumption. }
    destruct res as [[|kv d]|]; [apply Hstop; [exact I | exact H] | | apply Hstop; [exact I | exact H]].
    destruct (dict_get "results" (kv :: d)) as [v|] eqn:Hv;
      [|apply Hstop; [exact Hv | exact H]].
    destruct (py_iter v) as [items|e] eqn:Hi; [|discriminate].
    clear Hstop. apply IH in H.
    destruct H as (got & Htop & Hlen & Hserved & Hcases).
    cbn [printed after_query w_calls] in Hserved, Hcases.
    exists (items :: got). cbn [List.concat List.length firstn served].
    split; [rewrite Htop, <- app_assoc; reflexivity|].
    split; [lia|]. split.
    + split; [|exact Hserved].
      exists (Some (kv :: d)). split; [exact Ha|].
      exists kv, d, v. repeat split; assumption.
    + destruct Hcases as [[Hl Hc] | (Hl & Hc & p & res & Hn & Hans & Hf)].
      * left. split; lia.
      * right. split; [lia|]. split; [lia|].
        exists p, res. split; [exact Hn|]. split; [|exact Hf].
        replace (w_calls w + S (List.length got))%nat
          with (S (w_calls w) + List.length got)%nat by lia. exact Hans.
Qed.

Lemma concat_length_upper (k : nat) (got : list (list json)) :
  Forall (fun items => (List.length items <= k)%nat) got ->
  (List.length (List.concat got) <= k * List.length got)%nat.
Proof.
  induction 1 as [|items got Hi _ IH]; cbn [List.concat List.length]; [lia|].
  rewrite length_app. lia.
Qed.

Lemma concat_length_lower (k : nat) (got : list (list json)) :
  Forall (fun items => (k <= List.length items)%nat) got ->
  (k * List.length got <= List.length (List.concat got))%nat.
Proof.
  induction 1 as [|items got Hi _ IH]; cbn [List.concat List.length]; [lia|].
  rewrite length_app. lia.
Qed.

Lemma short_or_full (k : nat) (got : list (list json)) :
  Exists (fun items => (List.length items < k)%nat) got \/
  Forall (fun items => (k <= List.length items)%nat) got.
Proof.
  induction got as [|items got [IH | IH]].
  - right. constructor.
  - left. now constructor 2.
  - destruct (Nat.lt_ge_cases (List.length items) k).
    + left. now constructor 1.
    + right. now constructor.
Qed.

(** C3, as the code has it: the page loop stops on a failed page only (the
    call returned [None] or an empty object, or the object has no
    ['results'] key); a short page does not stop it.  For every run of the
    fetcher over pages 1 to 5 that returns: the records are those of the
    pages accepted so far, in page order; they number at most 500 when no
    page carries more than 100 records; if they number fewer than 500, a
    page failed or some page carried fewer than 100 records; when fewer
    than five pages were accepted, the next page failed and no request
    followed it.  Conversely, when the first pages are accepted and the next
    one fails, the fetcher returns the records gathered so far without
    raising, and when all five pages are accepted it returns all of them
    after five requests. *)
Theorem top_fetcher_contract (server : service) (w : world) :
  (forall top w',
     step3_loop server pages [] w = (Ok top, w') ->
     exists got,
       top = List.concat got /\
       (List.length got <= 5)%nat /\
       served server (w_calls w) (firstn (List.length got) pages) got /\
       (Forall (fun items => (List.length items <= 100)%nat) got ->
        (List.length top <= 500)%nat) /\
       ((List.length top < 500)%nat ->
        (List.length got < 5)%nat \/
        Exists (fun items => (List.length items < 100)%nat) got) /\
       ((List.length got < 5)%nat ->
        w_calls w' = (w_calls w + List.length got + 1)%nat /\
        exists p res,
          nth_error pages (List.length got) = Some p /\
          answer server (w_calls w + List.length got) "vn" (page_payload p) = Ok res /\
          page_failed res) /\
       (List.length got = 5%nat -> w_calls w' = (w_calls w + 5)%nat)) /\
  (forall pre p post got,
     pages = pre ++ p :: post ->
     served server (w_calls w) pre got ->
     (exists res,
        answer server (w_calls w + List.length pre) "vn" (page_payload p) = Ok res /\
        page_failed res) ->
     exists w',
       step3_loop server pages [] w = (Ok (List.concat got), w') /\
       w_calls w' = (w_calls w + List.length pre + 1)%nat) /\
  (forall got,
     served server (w_calls w) pages got ->
     exists w',
       step3_loop server pages [] w = (Ok (List.concat got), w') /\
       w_calls w' = (w_calls w + 5)%nat).
Proof.
  split; [|split].
  - intros top w' H. apply step3_complete in H.
    destruct H as (got & Htop & Hlen & Hserved & Hcases).
    cbn [app] in Htop. change (List.length pages) with 5%nat in Hlen, Hcases.
    exists got. split; [exact Htop|]. split; [exact Hlen|]. split; [exact Hserved|].
    split; [|split; [|split]].
    + intros Hall. apply concat_length_upper in Hall. subst top. lia.
    + intros Hshort. destruct (short_or_full 100 got) as [Hex | Hall].
      * right. exact Hex.
      * left. apply concat_length_lower in Hall. subst top. lia.
    + intros Hlt. destruct Hcases as [[Hl _] | (_ & Hc & Hp)]; [lia|].
      split; assumption.
    + intros Heq. destruct Hcases as [[_ Hc] | (Hl & _)]; [exact Hc | lia].
  - intros pre p post got -> Hserved Hfail.
    apply (step3_stops server pre got p post [] w Hserved Hfail).
  - intros got Hserved.
    destruct (step3_all_served server pages got [] w Hserved) as (w' & E & Hc).
    exists w'. split; [exact E | exact Hc].
Qed.

Lemma top_fetcher_contract_witness :
  exists w',
    step3_loop (page_server [2; 1]%nat) pages [] w0 =
      (Ok [vn_sample; vn_sample; vn_sample], w') /\
    w_calls w' = 3%nat.
Proof.
  apply (proj1 (proj2 (top_fetcher_contract (page_server [2; 1]%nat) w0))
           [1; 2] 3 [4; 5] [[vn_sample; vn_sample]; [vn_sample]]).
  - reflexivity.
  - cbn [served]. repeat split;
      (eexists; split; [reflexivity|]; eexists; eexists; eexists;
       repeat split; reflexivity).
  - exists None. split; [reflexivity | exact I].
Defined.

(** The claim of C3 as written fails on short and on oversized pages: when
    every page carries a single record, all five pages are still requested;
    and when the service sends 101 records per page, 505 records are
    kept. *)
Lemma fetcher_continues_after_short_page :
  (let (out, w') := step3_loop (page_server [1; 1; 1; 1; 1]%nat) pages [] w0 in
   out = Ok [vn_sample; vn_sample; vn_sample; vn_sample; vn_sample] /\
   w_calls w' = 5%nat) /\
  (let (out, w') := step3_loop (page_server [101; 101; 101; 101; 101]%nat) pages [] w0 in
   exists top, out = Ok top /\ List.length top = 505%nat /\ w_calls w' = 5%nat).
Proof.
  split.
  - vm_compute. split; reflexivity.
  - vm_compute. eexists. split; [reflexivity|]. split; reflexivity.
Qed.

(** ** The statistics step *)

Lemma fold_left_max_spec (xs : list Z) :
  forall x,
    let m := fold_left Z.max xs x in
    (m = x \/ In m xs) /\ x <= m /\ forall y, In y xs -> y <= m.
Proof.
  induction xs as [|z xs IH]; intros x; cbn [fold_left].
  - cbn. split; [left; reflexivity|]. split; [lia | contradiction].
  - destruct (IH (Z.max x z)) as (Hin & Hle & Hall). cbv zeta.
    split; [|split].
    + destruct Hin as [E | Hin]; [|right; right; exact Hin].
      destruct (Z.max_spec x z) as [[_ Em] | [_ Em]].
      * right. left. rewrite E. symmetry. exact Em.
      * left. rewrite E. exact Em.
    + lia.
    + intros y [<- | Hy]; [lia | now apply Hall].
Qed.

Lemma fold_left_min_spec (xs : list Z) :
  forall x,
    let m := fold_left Z.min xs x in
    (m = x \/ In m xs) /\ m <= x /\ forall y, In y xs -> m <= y.
Proof.
  induction xs as [|z xs IH]; intros x; cbn [fold_left].
  - cbn. split; [left; reflexivity|]. split; [lia | contradiction].
  - destruct (IH (Z.min x z)) as (Hin & Hle & Hall). cbv zeta.
    split; [|split].
    + destruct Hin as [E | Hin]; [|right; right; exact Hin].
      destruct (Z.min_spec x z) as [[_ Em] | [_ Em]].
      * left. rewrite E. exact Em.
      * right. left. rewrite E. symmetry. exact Em.
    + lia.
    + intros y [<- | Hy]; [lia | now apply Hall].
Qed.

Lemma py_max_spec (l : list Z) :
  l <> [] -> exists m, py_max l = Ok m /\ is_maximum l m.
Proof.
  destruct l as [|x xs]; [contradiction | intros _].
  exists (fold_left Z.max xs x). split; [reflexivity|].
  destruct (fold_left_max_spec xs x) as (Hin & Hle & Hall). split.
  - destruct Hin as [-> | Hin]; [left; reflexivity | right; exact Hin].
  - intros y [<- | Hy]; [exact Hle | now apply Hall].
Qed.

Lemma py_min_spec (l : list Z) :
  l <> [] -> exists m, py_min l = Ok m /\ is_minimum l m.
Proof.
  destruct l as [|x xs]; [contradiction | intros _].
  exists (fold_left Z.min xs x). split; [reflexivity|].
  destruct (fold_left_min_spec xs x) as (Hin & Hle & Hall). split.
  - destruct Hin as [-> | Hin]; [left; reflexivity | right; exact Hin].
  - intros y [<- | Hy]; [exact Hle | now apply Hall].
Qed.

Lemma sum_list_fold_right (l : list Z) :
  sum_list l = fold_right Z.add 0 l.
Proof.
  unfold sum_list.
  assert (H : forall a, fold_left Z.add l a = a + fold_right Z.add 0 l).
  { induction l as [|x l IH]; intros a; cbn; [lia | rewrite IH; lia]. }
  rewrite H. lia.
Qed.


Lemma insert_sorted_perm (x : Z) (l : list Z) :
  Permutation (x :: l) (insert_sorted x l).
Proof.
  induction l as [|y l IH]; cbn [insert_sorted]; [apply Permutation_refl|].
  destruct (x <=? y); [apply Permutation_refl|].
  apply perm_trans with (y :: x :: l); [apply perm_swap | now apply perm_skip].
Qed.

Lemma sort_perm (l : list Z) : Permutation l (sort l).
Proof.
  induction l as [|x l IH]; cbn [sort]; [apply perm_nil|].
  apply perm_trans with (x :: sort l); [now apply perm_skip | apply insert_sorted_perm].
Qed.

Lemma insert_sorted_hd (x a : Z) (l : list Z) :
  a <= x -> HdRel Z.le a l -> HdRel Z.le a (insert_sorted x l).
Proof.
  intros Hax Hl. destruct l as [|y l]; cbn [insert_sorted].
  - now constructor.
  - destruct (x <=? y); constructor; [assumption | now inversion Hl].
Qed.

Lemma insert_sorted_sorted (x : Z) (l : list Z) :
  Sorted Z.le l -> Sorted Z.le (insert_sorted x l).
Proof.
  induction 1 as [|y l Hs IH Hhd]; cbn [insert_sorted].
  - repeat constructor.
  - destruct (Z.leb_spec x y) as [Hle | Hgt].
    + constructor; [now constructor | constructor; exact Hle].
    + constructor; [exact IH | apply insert_sorted_hd; [lia | exact Hhd]].
Qed.

Lemma sort_sorted (l : list Z) : Sorted Z.le (sort l).
Proof.
  induction l as [|x l IH]; cbn [sort]; [constructor | now apply insert_sorted_sorted].
Qed.


Lemma sum_abs_bounds (l : list Z) :
  Z.abs (sum_list l) <= sum_abs l /\ forall x, In x l -> Z.abs x <= sum_abs l.
Proof.
  rewrite sum_list_fold_right.
  induction l as [|y l [IH1 IH2]]; cbn [fold_right sum_abs In]; [split; [lia | contradiction]|].
  fold (sum_abs l). split; [lia|].
  intros x [<- | Hx]; [|specialize (IH2 x Hx)]; lia.
Qed.

Lemma sum_abs_permutation (l l' : list Z) : Permutation l l' -> sum_abs l = sum_abs l'.
Proof.
  unfold sum_abs. induction 1; cbn [fold_right]; lia.
Qed.

Lemma exactly_summable_spec (l : list Z) :
  exactly_summable l = true <->
  sum_abs l <= 2 ^ 53 /\ Z.of_nat (List.length l) <= 2 ^ 53.
Proof.
  unfold exactly_summable. rewrite andb_true_iff, !Z.leb_le. reflexivity.
Qed.

Lemma np_mean_exact (np : numpy) (l : list Z) :
  l <> [] -> exactly_summable l = true ->
  np_mean np l = Ok (F64 (round53 (exact_mean l))).
Proof.
  intros Hl Hs. destruct l as [|x l]; [contradiction|].
  unfold np_mean. rewrite Hs. reflexivity.
Qed.

Lemma np_median_exact (np : numpy) (l : list Z) :
  l <> [] -> exactly_summable l = true ->
  np_median np l = Ok (F64 (middle l)).
Proof.
  intros Hl Hs. destruct l as [|x l]; [contradiction|].
  unfold np_median. rewrite Hs. reflexivity.
Qed.



Lemma top_stats_run (np : numpy) (l : list Z) (mx mn : Z) (median mean : float64) :
  py_max l = Ok mx -> np_median np l = Ok median -> np_mean np l = Ok mean ->
  py_min l = Ok mn ->
  top_stats np (Some l) =
    Ok {| max_votes := mx; median_votes := Float median; mean_votes := Float mean;
          min_votes := mn |}.
Proof.
  intros Hmx Hmed Hmean Hmn. destruct l as [|x l]; [discriminate Hmx|].
  unfold top_stats. rewrite Hmx, Hmed, Hmean, Hmn. reflexivity.
Qed.





Example statistics_even_length :
  top_stats numpy_raising (Some [40; 10; 30; 20]) =
    Ok {| max_votes := 40; median_votes := Float (F64 (inject_Z 25));
          mean_votes := Float (F64 (inject_Z 25)); min_votes := 10 |} /\
  np_median numpy_raising [4; 1; 2; 3] = Ok (F64 (Qmake 5 2)).
Proof. split; vm_compute; reflexivity. Qed.

Lemma extract_votecounts_app (before after : list json) :
  extract_votecounts (before ++ after) =
  match extract_votecounts before, extract_votecounts after with
  | Ok vs, Ok vs' => Ok (vs ++ vs')
  | Raise e, _ => Raise e
  | _, Raise e => Raise e
  end.
Proof.
  induction before as [|vn before IH]; cbn [app extract_votecounts].
  - destruct (extract_votecounts after); reflexivity.
  - destruct vn as [| | | | |d]; try reflexivity.
    rewrite IH.
    destruct (extract_votecounts before) as [vs|e];
      destruct (extract_votecounts after) as [vs'|e']; try reflexivity;
      (destruct (dict_get "votecount" d) as [v|]; [destruct (truthy v)|]; reflexivity).
Qed.

Lemma extract_votecounts_skip (d : dict) (after : list json) :
  dict_get "votecount" d = None \/ dict_get "votecount" d = Some (JInt 0) ->
  extract_votecounts (JObj d :: after) = extract_votecounts after.
Proof.
  intros H. cbn [extract_votecounts].
  destruct (extract_votecounts after) as [vs|e]; [|reflexivity].
  destruct H as [-> | ->]; reflexivity.
Qed.

Lemma step4_congr (np : numpy) (l l' : list json) (w : world) :
  l <> [] -> l' <> [] ->
  extract_votecounts l = extract_votecounts l' ->
  step4 np l w = step4 np l' w.
Proof.
  intros Hl Hl' E.
  destruct l as [|x l]; [contradiction|]. destruct l' as [|x' l']; [contradiction|].
  unfold step4. rewrite E. reflexivity.
Qed.

(** C9: a fetched record whose vote count is missing or equal to 0 does
    not reach the statistics: the extracted list is the same with and without
    the record, so is the whole of Step 4 (hence every statistic printed and
    stored) as long as other records remain, and every extracted value is
    truthy. *)
Theorem zero_votecount_excluded (np : numpy) (d : dict) (before after : list json) :
  dict_get "votecount" d = None \/ dict_get "votecount" d = Some (JInt 0) ->
  extract_votecounts (before ++ JObj d :: after) = extract_votecounts (before ++ after) /\
  (forall w,
     before ++ after <> [] ->
     step4 np (before ++ JObj d :: after) w = step4 np (before ++ after) w) /\
  (forall vs,
     extract_votecounts (before ++ JObj d :: after) = Ok vs ->
     Forall (fun v => truthy v = true) vs).
Proof.
  intros Hd.
  assert (E : extract_votecounts (before ++ JObj d :: after) =
              extract_votecounts (before ++ after)).
  { rewrite !extract_votecounts_app, (extract_votecounts_skip d after Hd). reflexivity. }
  split; [exact E|]. split.
  - intros w Hne. apply step4_congr; [|exact Hne | exact E].
    destruct before; discriminate.
  - generalize (before ++ JObj d :: after) as l. clear.
    induction l as [|vn l IH]; intros vs H; cbn [extract_votecounts] in H.
    + inversion H. constructor.
    + destruct vn as [| | | | |r]; try discriminate.
      destruct (extract_votecounts l) as [vs'|e]; [|discriminate].
      specialize (IH vs' eq_refl).
      destruct (dict_get "votecount" r) as [v|].
      * destruct (truthy v) eqn:Hv; inversion H; subst; [constructor|]; assumption.
      * inversion H; subst. assumption.
Qed.

Lemma zero_votecount_excluded_witness :
  extract_votecounts
    ([vn_sample] ++ JObj [("id", JStr "v2"); ("votecount", JInt 0)] :: [vn_sample]) =
  Ok [JInt 1500; JInt 1500].
Proof.
  rewrite (proj1 (zero_votecount_excluded numpy_raising
                    [("id", JStr "v2"); ("votecount", JInt 0)] [vn_sample] [vn_sample]
                    (or_intror eq_refl))).
  reflexivity.
Defined.








(** ** Whole runs *)

(** When every request fails, Steps 1 to 3 and 5 skip their results, Step 4
    is skipped because [top_vns] is empty, and the run ends on the unbound
    name [votecounts] while the summary is assembled. *)
Example script_when_service_is_down :
  let (out, w') := script numpy_raising (const_server error_response) w0 in
  out = Raise NameError /\ w_calls w' = 25%nat.
Proof. vm_compute. split; reflexivity. Qed.

Example script_demo_run :
  let (out, w') := script numpy_raising demo_server w0 in
  exists s,
    out = Ok s /\
    total_vns_field s = 58868 /\
    map bk_count (votecount_distribution s) = repeat (JInt 7) 13 /\
    map cf_count (commercial_counts s) = repeat (JInt 7) 5 /\
    top_500_stats s =
      {| max_votes := 300; median_votes := Float (F64 (inject_Z 200));
         mean_votes := Float (F64 (inject_Z 200)); min_votes := 100 |} /\
    w_calls w' = 29%nat /\
    last (w_trace w') (ESleep 0) = EDump "vndb_analysis_summary.json" (SummaryDoc s).
Proof.
  vm_compute. eexists. split; [reflexivity|]. repeat split.
Qed.

(** * Further properties of the pipeline *)

(** ** Trace segments *)

Lemma posts_app (a b : list event) : posts (a ++ b) = posts a ++ posts b.
Proof.
  induction a as [|e a IH]; [reflexivity|].
  destruct e; cbn [app posts]; rewrite IH; reflexivity.
Qed.

Lemma paced_app (a b : list event) : paced a -> paced b -> paced (a ++ b).
Proof.
  induction 1 as [|url payload tr _ IH|e tr He _ IH]; intros Hb; cbn [app].
  - exact Hb.
  - apply paced_post. apply IH. exact Hb.
  - apply paced_other; [exact He | apply IH; exact Hb].
Qed.

Lemma pending_app (a b : list event) : paced a -> pending b -> pending (a ++ b).
Proof.
  intros Ha (tr & url & payload & -> & Htr).
  exists (a ++ tr), url, payload. split; [apply app_assoc | now apply paced_app].
Qed.

Lemma segment_nil (quiet : bool) (A : Type) (out : outcome A) :
  local out -> segment quiet out 0 [].
Proof.
  intros Hl. repeat split; try constructor.
  destruct out as [a|[]]; cbn; try constructor. now elim Hl.
Qed.

Lemma segment_single (quiet : bool) (A : Type) (out : outcome A) (e : event) :
  local out -> is_post e = false -> is_dump e = false -> segment quiet out 0 [e].
Proof.
  intros Hl Hp Hd.
  assert (Hposts : posts [e] = []) by (destruct e; try reflexivity; discriminate).
  unfold segment. rewrite Hposts.
  split; [reflexivity|]. split; [constructor|]. split.
  - assert (Hpaced : paced [e]) by (apply paced_other; [exact Hp | constructor]).
    destruct out as [a|[]]; cbn; try exact Hpaced. now elim Hl.
  - intros _. constructor; [exact Hd | constructor].
Qed.

Lemma bounded_weaken (quiet quiet' : bool) (n n' : nat) (A : Type) (m : M A) :
  (n <= n')%nat -> (quiet' = true -> quiet = true) ->
  bounded quiet n m -> bounded quiet' n' m.
Proof.
  intros Hn Hq H w. destruct (H w) as (k & evs & Hk & Hc & Ht & Hl & Hu & Hp & Hd).
  exists k, evs. split; [lia|]. split; [exact Hc|]. split; [exact Ht|].
  repeat split; try assumption. intros Hq'. apply Hd, Hq, Hq'.
Qed.

Lemma bounded_lift (quiet : bool) (A : Type) (o : outcome A) :
  local o -> bounded quiet 0 (lift o).
Proof.
  intros Hl w. exists 0%nat, []. cbn [lift fst snd].
  split; [lia|]. split; [lia|]. split; [now rewrite app_nil_r|].
  now apply segment_nil.
Qed.

Lemma bounded_ret (quiet : bool) (A : Type) (a : A) : bounded quiet 0 (ret a).
Proof. apply (bounded_lift quiet A (Ok a)). discriminate. Qed.

Lemma bounded_raise (quiet : bool) (A : Type) (e : exn) :
  e <> ConnectionError -> bounded quiet 0 (@raise A e).
Proof.
  intros He. apply (bounded_lift quiet A (Raise e)). intros E. now inversion E.
Qed.

Lemma bounded_print (quiet : bool) (l : line) : bounded quiet 0 (print l).
Proof.
  intros w. exists 0%nat, [EPrint l]. cbn [print emit fst snd w_calls w_trace].
  split; [lia|]. split; [lia|]. split; [reflexivity|].
  apply segment_single; [discriminate | reflexivity | reflexivity].
Qed.

Lemma bounded_dump (path : string) (doc : document) :
  bounded false 0 (json_dump path doc).
Proof.
  intros w. exists 0%nat, [EDump path doc].
  cbn [json_dump emit fst snd w_calls w_trace].
  split; [lia|]. split; [lia|]. split; [reflexivity|].
  split; [reflexivity|]. split; [constructor|]. split.
  - apply paced_other; [reflexivity | constructor].
  - discriminate.
Qed.

Lemma bounded_bind (quiet : bool) (n1 n2 : nat) (A B : Type) (m : M A) (k : A -> M B) :
  bounded quiet n1 m -> (forall a, bounded quiet n2 (k a)) ->
  bounded quiet (n1 + n2) (bind m k).
Proof.
  intros Hm Hk w. unfold bind.
  destruct (Hm w) as (k1 & evs1 & Hk1 & Hc1 & Ht1 & Hl1 & Hu1 & Hp1 & Hd1).
  destruct (m w) as [[a|e] w1]; cbn [fst snd] in *.
  - destruct (Hk a w1) as (k2 & evs2 & Hk2 & Hc2 & Ht2 & Hl2 & Hu2 & Hp2 & Hd2).
    exists (k1 + k2)%nat, (evs1 ++ evs2).
    split; [lia|]. split; [lia|].
    split; [rewrite Ht2, Ht1; symmetry; apply app_assoc|].
    unfold segment. rewrite posts_app, length_app.
    split; [lia|]. split; [apply Forall_app; split; assumption|]. split.
    + destruct (interrupted (fst (k a w1)));
        [now apply pending_app | now apply paced_app].
    + intros Hq. apply Forall_app. split; [now apply Hd1 | now apply Hd2].
  - exists k1, evs1. split; [lia|]. split; [exact Hc1|]. split; [exact Ht1|].
    repeat split; assumption.
Qed.

Lemma bounded_bind0 (quiet : bool) (n : nat) (A B : Type) (m : M A) (k : A -> M B) :
  bounded quiet 0 m -> (forall a, bounded quiet n (k a)) ->
  bounded quiet n (bind m k).
Proof. intros Hm Hk. apply (bounded_bind quiet 0 n A B m k Hm Hk). Qed.

Lemma bounded_query (quiet : bool) (server : service) (payload : json) :
  bounded quiet 1 (query_vndb server "vn" payload).
Proof.
  intros w. rewrite query_vndb_run. cbn [fst snd].
  exists 1%nat, (query_events server (w_calls w) "vn" payload).
  split; [lia|]. split; [cbn; lia|]. split; [reflexivity|].
  unfold query_events, answer.
  change (String.append BASE_URL (String.append "/" "vn")) with vn_url.
  destruct (server (w_calls w) vn_url payload) as [r|].
  - assert (Hpaced : forall tail,
              Forall (fun e => is_post e = false) tail ->
              paced (EPost vn_url payload :: ESleep rate_limit_ms :: tail)).
    { intros tail Ht. apply paced_post.
      induction Ht; [constructor | now apply paced_other]. }
    destruct (status_code r =? 200).
    + repeat split; try (repeat constructor).
      destruct (json_body r); cbn [interrupted]; apply Hpaced; constructor.
    + repeat split; try (repeat constructor).
  - repeat split; try (repeat constructor).
    exists [], vn_url, payload. split; [reflexivity | constructor].
Qed.

Lemma format_int_bounded (quiet : bool) (v : json) : bounded quiet 0 (format_int v).
Proof.
  destruct v; cbn [format_int];
    first [apply bounded_ret | apply bounded_raise; discriminate].
Qed.

Lemma py_iter_local (v : json) : local (py_iter v).
Proof. destruct v; discriminate. Qed.

Lemma extract_votecounts_local (top_vns : list json) : local (extract_votecounts top_vns).
Proof.
  induction top_vns as [|vn l IH]; [discriminate|].
  destruct vn as [| | | | |d]; try discriminate. cbn [extract_votecounts].
  destruct (extract_votecounts l) as [vs|e].
  - destruct (dict_get "votecount" d) as [v|]; [destruct (truthy v)|]; discriminate.
  - exact IH.
Qed.

Lemma numeric_local (vs : list json) : local (numeric vs).
Proof.
  unfold numeric. destruct (as_ints vs); [discriminate|].
  destruct (forallb is_str vs); discriminate.
Qed.

Lemma py_max_local (l : list Z) : local (py_max l).
Proof. destruct l; discriminate. Qed.

Lemma py_min_local (l : list Z) : local (py_min l).
Proof. destruct l; discriminate. Qed.

Lemma np_mean_local (np : numpy) (l : list Z) : local (np_mean np l).
Proof.
  unfold np_mean. destruct l as [|x l]; [discriminate|].
  destruct (exactly_summable (x :: l)); [discriminate|].
  destruct (mean_beyond np (x :: l)); discriminate.
Qed.

Lemma np_median_local (np : numpy) (l : list Z) : local (np_median np l).
Proof.
  unfold np_median. destruct l as [|x l]; [discriminate|].
  destruct (exactly_summable (x :: l)); [discriminate|].
  destruct (median_beyond np (x :: l)); discriminate.
Qed.

Lemma build_summary_local (np : numpy) (vd : list bucket) (cd : list commercial)
  (votecounts : option (list Z)) : local (build_summary np vd cd votecounts).
Proof.
  unfold build_summary, top_stats.
  destruct votecounts as [[|x l]|]; try discriminate.
  pose proof (np_median_local np (x :: l)) as Hmed.
  pose proof (np_mean_local np (x :: l)) as Hmean.
  destruct (py_max (x :: l)) as [mx|e] eqn:Emx; [|discriminate Emx].
  destruct (np_median np (x :: l)) as [median|e];
    [|intros E; apply Hmed; inversion E; reflexivity].
  destruct (np_mean np (x :: l)) as [mean|e];
    [|intros E; apply Hmean; inversion E; reflexivity].
  destruct (py_min (x :: l)) as [mn|e] eqn:Emn; [discriminate | discriminate Emn].
Qed.

Lemma step1_loop_bounded (server : service) (ranges : list triple) :
  forall acc, bounded true (List.length ranges) (step1_loop server ranges acc).
Proof.
  induction ranges as [|[[mn mx] lab] ranges IH]; intros acc; cbn [step1_loop List.length].
  - apply bounded_ret.
  - apply (bounded_bind true 1 (List.length ranges)); [apply bounded_query|].
    intros [[|kv d]|]; try apply IH.
    apply bounded_bind0; [apply format_int_bounded|]. intros n.
    apply bounded_bind0; [apply bounded_print|]. intros _. apply IH.
Qed.

Lemma step2_loop_bounded (server : service) (fl : list (string * json)) :
  forall acc, bounded true (List.length fl) (step2_loop server fl acc).
Proof.
  induction fl as [|[lab f] fl IH]; intros acc; cbn [step2_loop List.length].
  - apply bounded_ret.
  - apply (bounded_bind true 1 (List.length fl)); [apply bounded_query|].
    intros [[|kv d]|]; try apply IH.
    apply bounded_bind0; [apply format_int_bounded|]. intros n.
    apply bounded_bind0; [apply bounded_print|]. intros _. apply IH.
Qed.

Lemma step3_loop_bounded (server : service) (todo : list Z) :
  forall acc, bounded true (List.length todo) (step3_loop server todo acc).
Proof.
  induction todo as [|page todo IH]; intros acc; cbn [step3_loop List.length].
  - apply bounded_ret.
  - assert (Hstop : bounded true (List.length todo)
                      (print (LPageFailed page) ;; ret acc)).
    { apply (bounded_weaken true true 0); [lia | auto|].
      apply bounded_bind0; [apply bounded_print|]. intros _. apply bounded_ret. }
    apply (bounded_bind true 1 (List.length todo)); [apply bounded_query|].
    intros [[|kv d]|]; try exact Hstop.
    destruct (dict_get "results" (kv :: d)) as [v|]; [|exact Hstop].
    apply bounded_bind0; [apply bounded_lift, py_iter_local|]. intros items.
    apply bounded_bind0; [apply bounded_print|]. intros _. apply IH.
Qed.

Lemma step4_bounded (np : numpy) (top_vns : list json) :
  bounded true 0 (step4 np top_vns).
Proof.
  destruct top_vns as [|vn l]; [apply bounded_ret|]. unfold step4.
  apply bounded_bind0; [apply bounded_lift, extract_votecounts_local|]. intros vs.
  apply bounded_bind0; [apply bounded_lift, numeric_local|]. intros votecounts.
  apply bounded_bind0; [apply bounded_lift, py_max_local|]. intros mx.
  apply bounded_bind0; [apply bounded_print|]. intros _.
  apply bounded_bind0; [apply bounded_lift, np_median_local|]. intros median.
  apply bounded_bind0; [apply bounded_print|]. intros _.
  apply bounded_bind0; [apply bounded_lift, np_mean_local|]. intros mean.
  apply bounded_bind0; [apply bounded_print|]. intros _.
  apply bounded_bind0; [apply bounded_lift, py_min_local|]. intros mn.
  apply bounded_bind0; [apply bounded_print|]. intros _.
  apply bounded_bind0; [apply bounded_lift, py_max_local|]. intros mx'.
  apply bounded_bind0; [apply bounded_print|]. intros _.
  apply bounded_bind0; [apply bounded_lift, py_min_local|]. intros mn'.
  apply bounded_bind0; [apply bounded_print|]. intros _.
  apply bounded_ret.
Qed.

Lemma step5_loop_bounded (server : service) (ranges : list triple) :
  bounded true (List.length ranges) (step5_loop server ranges).
Proof.
  induction ranges as [|[[mn mx] lab] ranges IH]; cbn [step5_loop List.length].
  - apply bounded_ret.
  - apply (bounded_bind true 1 (List.length ranges)); [apply bounded_query|].
    intros [[|kv d]|]; try apply IH.
    apply bounded_bind0; [apply format_int_bounded|]. intros n.
    apply bounded_bind0; [apply bounded_print|]. intros _. apply IH.
Qed.

Lemma script_bounded (np : numpy) (server : service) :
  bounded false 29 (script np server).
Proof.
  unfold script.
  apply (bounded_bind false 13 16).
  { apply (bounded_weaken true false 13); [lia | discriminate|].
    apply (step1_loop_bounded server votecount_ranges). }
  intros votecount_data.
  apply (bounded_bind false 5 11).
  { apply (bounded_weaken true false 5); [lia | discriminate|].
    apply (step2_loop_bounded server commercial_filters). }
  intros commercial_data.
  apply (bounded_bind false 5 6).
  { apply (bounded_weaken true false 5); [lia | discriminate|].
    apply (step3_loop_bounded server pages). }
  intros top_vns.
  apply bounded_bind0; [apply bounded_dump|]. intros _.
  apply bounded_bind0; [apply bounded_print|]. intros _.
  apply bounded_bind0.
  { apply (bounded_weaken true false 0); [lia | discriminate|]. apply step4_bounded. }
  intros votecounts.
  apply (bounded_bind false 6 0).
  { apply (bounded_weaken true false 6); [lia | discriminate|].
    apply (step5_loop_bounded server sales_estimate_ranges). }
  intros _.
  apply bounded_bind0; [apply bounded_lift, build_summary_local|]. intros s.
  apply bounded_bind0; [apply bounded_dump|]. intros _.
  apply bounded_ret.
Qed.

(** ** Rate limiting and request budget of a whole run *)

(** X1: whatever the service does, a run of the script keeps the rate limit:
    in the events it adds to the trace every request is immediately followed
    by the 150 ms delay.  The only exception is a run that ends on the
    exception of [requests.post]: its last event is the request that got no
    response, and the events before it are paced. *)
Theorem script_rate_limited (np : numpy) (server : service) (w : world) :
  let (out, w') := script np server w in
  exists evs,
    w_trace w' = w_trace w ++ evs /\
    (if interrupted out then pending evs else paced evs).
Proof.
  destruct (script_bounded np server w) as (k & evs & _ & _ & Ht & _ & _ & Hp & _).
  destruct (script np server w) as [out w']. cbn [fst snd] in *.
  exists evs. split; assumption.
Qed.

(** X2: whatever the service does, a run of the script sends at most 29
    requests (13 buckets, 5 commercial filters, 5 pages, 6 sales ranges),
    every one of them to the [vn] endpoint of the base URL, and the call
    counter advances by exactly the number of requests sent. *)
Theorem script_request_budget (np : numpy) (server : service) (w : world) :
  let (out, w') := script np server w in
  exists evs,
    w_trace w' = w_trace w ++ evs /\
    (List.length (posts evs) <= 29)%nat /\
    w_calls w' = (w_calls w + List.length (posts evs))%nat /\
    Forall (fun up => fst up = "https://api.vndb.org/kana/vn") (posts evs).
Proof.
  destruct (script_bounded np server w) as (k & evs & Hk & Hc & Ht & Hl & Hu & _).
  destruct (script np server w) as [out w']. cbn [fst snd] in *.
  exists evs. split; [exact Ht|]. split; [lia|]. split; [lia | exact Hu].
Qed.

(** ** One request per bucket *)

Lemma posts_query_events (server : service) (n : nat) (payload : json) :
  posts (query_events server n "vn" payload) = [(vn_url, payload)].
Proof.
  unfold query_events.
  change (String.append BASE_URL (String.append "/" "vn")) with vn_url.
  destruct (server n vn_url payload) as [r|]; [|reflexivity].
  destruct (status_code r =? 200); reflexivity.
Qed.

Lemma format_int_cases (v : json) (w : world) :
  (exists n, as_int v = Some n /\ format_int v w = (Ok n, w)) \/
  (exists e, as_int v = None /\ (e = ValueError \/ e = TypeError) /\
             format_int v w = (Raise e, w)).
Proof.
  destruct v; cbn;
    first [ left; eexists; split; reflexivity
          | right; eexists; split; [reflexivity|]; split; [|reflexivity]; auto ].
Qed.

Lemma step1_loop_requests (server : service) (ranges : list triple) :
  forall acc w out w',
    step1_loop server ranges acc w = (out, w') ->
    exists k evs,
      (k <= List.length ranges)%nat /\
      w_trace w' = w_trace w ++ evs /\
      posts evs = map (fun t => count_request (triple_filter t)) (firstn k ranges) /\
      forall data, out = Ok data ->
        k = List.length ranges /\
        exists new, data = acc ++ new /\ (List.length new <= List.length ranges)%nat.
Proof.
  induction ranges as [|[[mn mx] lab] ranges IH]; intros acc w out w' H.
  - cbn in H. inversion H; subst. exists 0%nat, []. rewrite !app_nil_r.
    split; [lia|]. split; [reflexivity|]. split; [reflexivity|].
    intros data Hd. inversion Hd; subst. split; [reflexivity|].
    exists []. rewrite app_nil_r. split; [reflexivity | cbn; lia].
  - cbn [step1_loop] in H. unfold bind at 1 in H. rewrite query_vndb_run in H.
    set (f := votecount_filter mn mx) in *.
    set (w1 := after_query server "vn" (count_payload f) w) in *.
    assert (Hone : posts (query_events server (w_calls w) "vn" (count_payload f))
                   = map (fun t => count_request (triple_filter t))
                         (firstn 1 ((mn, mx, lab) :: ranges))).
    { rewrite posts_query_events. reflexivity. }
    assert (Hnext : forall acc1 w2 tail,
              w_trace w2 = w_trace w1 ++ tail -> posts tail = [] ->
              step1_loop server ranges acc1 w2 = (out, w') ->
              exists k evs,
                (k <= List.length ((mn, mx, lab) :: ranges))%nat /\
                w_trace w' = w_trace w ++ evs /\
                posts evs = map (fun t => count_request (triple_filter t))
                                (firstn k ((mn, mx, lab) :: ranges)) /\
                forall data, out = Ok data ->
                  k = List.length ((mn, mx, lab) :: ranges) /\
                  exists new, data = acc1 ++ new /\
                              (List.length new <= List.length ranges)%nat).
    { intros acc1 w2 tail Hw2 Htail Hrun.
      destruct (IH acc1 w2 out w' Hrun) as (k & evs & Hk & Ht & Hp & Hok).
      exists (S k), (query_events server (w_calls w) "vn" (count_payload f) ++ tail ++ evs).
      split; [clear - Hk; length_lia|]. split.
      { rewrite Ht, Hw2. unfold w1. cbn [after_query w_trace].
        rewrite <- !app_assoc. reflexivity. }
      split.
      { rewrite !posts_app, posts_query_events, Htail, Hp. reflexivity. }
      intros data Hd. destruct (Hok data Hd) as (-> & new & -> & Hlen).
      split; [reflexivity|]. exists new. split; [reflexivity | exact Hlen]. }
    assert (Hskip : step1_loop server ranges acc w1 = (out, w') ->
              exists k evs,
                (k <= List.length ((mn, mx, lab) :: ranges))%nat /\
                w_trace w' = w_trace w ++ evs /\
                posts evs = map (fun t => count_request (triple_filter t))
                                (firstn k ((mn, mx, lab) :: ranges)) /\
                forall data, out = Ok data ->
                  k = List.length ((mn, mx, lab) :: ranges) /\
                  exists new, data = acc ++ new /\
                    (List.length new <= List.length ((mn, mx, lab) :: ranges))%nat).
    { intros Hrun.
      destruct (Hnext acc w1 [] ltac:(now rewrite app_nil_r) eq_refl Hrun)
        as (k & evs & Hk & Ht & Hp & Hok).
      exists k, evs. split; [exact Hk|]. split; [exact Ht|]. split; [exact Hp|].
      intros data Hd. destruct (Hok data Hd) as (Hk' & new & Hdata & Hl).
      split; [exact Hk'|]. exists new. split; [exact Hdata | clear - Hl; length_lia]. }
    assert (Hraise : forall e, (Raise e, w1) = (out, w') ->
              exists k evs,
                (k <= List.length ((mn, mx, lab) :: ranges))%nat /\
                w_trace w' = w_trace w ++ evs /\
                posts evs = map (fun t => count_request (triple_filter t))
                                (firstn k ((mn, mx, lab) :: ranges)) /\
                forall data, out = Ok data ->
                  k = List.length ((mn, mx, lab) :: ranges) /\
                  exists new, data = acc ++ new /\
                    (List.length new <= List.length ((mn, mx, lab) :: ranges))%nat).
    { intros e E. inversion E; subst.
      exists 1%nat, (query_events server (w_calls w) "vn" (count_payload f)).
      split; [clear; length_lia|]. split; [reflexivity|]. split; [exact Hone|].
      intros data Hd. discriminate Hd. }
    destruct (answer server (w_calls w) "vn" (count_payload f)) as [[[|kv d]|]|e];
      [exact (Hskip H) | | exact (Hskip H) | exact (Hraise e H)].
    destruct (format_int_cases (dict_get_default "count" (JInt 0) (kv :: d)) w1)
      as [(n & _ & Hf) | (e & _ & _ & Hf)];
      unfold bind at 1 in H; rewrite Hf in H; [|exact (Hraise e H)].
    unfold bind at 1 in H. cbn [print emit] in H.
    match type of H with
    | step1_loop server ranges ?a ?w2 = _ =>
        destruct (Hnext a w2 [EPrint (LBucket lab n)] eq_refl eq_refl H)
          as (k & evs & Hk & Ht & Hp & Hok)
    end.
    exists k, evs. split; [exact Hk|]. split; [exact Ht|]. split; [exact Hp|].
    intros data Hd. destruct (Hok data Hd) as (Hk' & new & Hdata & Hl).
    split; [exact Hk'|].
    eexists. split; [rewrite Hdata, <- app_assoc; reflexivity|].
    rewrite length_app. clear - Hl. length_lia.
Qed.

Lemma step2_loop_requests (server : service) (ranges : list (string * json)) :
  forall acc w out w',
    step2_loop server ranges acc w = (out, w') ->
    exists k evs,
      (k <= List.length ranges)%nat /\
      w_trace w' = w_trace w ++ evs /\
      posts evs = map (fun t => count_request (snd t)) (firstn k ranges) /\
      forall data, out = Ok data ->
        k = List.length ranges /\
        exists new, data = acc ++ new /\ (List.length new <= List.length ranges)%nat.
Proof.
  induction ranges as [|[lab f0] ranges IH]; intros acc w out w' H.
  - cbn in H. inversion H; subst. exists 0%nat, []. rewrite !app_nil_r.
    split; [lia|]. split; [reflexivity|]. split; [reflexivity|].
    intros data Hd. inversion Hd; subst. split; [reflexivity|].
    exists []. rewrite app_nil_r. split; [reflexivity | cbn; lia].
  - cbn [step2_loop] in H. unfold bind at 1 in H. rewrite query_vndb_run in H.
    set (f := f0) in *.
    set (w1 := after_query server "vn" (count_payload f) w) in *.
    assert (Hone : posts (query_events server (w_calls w) "vn" (count_payload f))
                   = map (fun t => count_request (snd t))
                         (firstn 1 ((lab, f0) :: ranges))).
    { rewrite posts_query_events. reflexivity. }
    assert (Hnext : forall acc1 w2 tail,
              w_trace w2 = w_trace w1 ++ tail -> posts tail = [] ->
              step2_loop server ranges acc1 w2 = (out, w') ->
              exists k evs,
                (k <= List.length ((lab, f0) :: ranges))%nat /\
                w_trace w' = w_trace w ++ evs /\
                posts evs = map (fun t => count_request (snd t))
                                (firstn k ((lab, f0) :: ranges)) /\
                forall data, out = Ok data ->
                  k = List.length ((lab, f0) :: ranges) /\
                  exists new, data = acc1 ++ new /\
                              (List.length new <= List.length ranges)%nat).
    { intros acc1 w2 tail Hw2 Htail Hrun.
      destruct (IH acc1 w2 out w' Hrun) as (k & evs & Hk & Ht & Hp & Hok).
      exists (S k), (query_events server (w_calls w) "vn" (count_payload f) ++ tail ++ evs).
      split; [clear - Hk; length_lia|]. split.
      { rewrite Ht, Hw2. unfold w1. cbn [after_query w_trace].
        rewrite <- !app_assoc. reflexivity. }
      split.
      { rewrite !posts_app, posts_query_events, Htail, Hp. reflexivity. }
      intros data Hd. destruct (Hok data Hd) as (-> & new & -> & Hlen).
      split; [reflexivity|]. exists new. split; [reflexivity | exact Hlen]. }
    assert (Hskip : step2_loop server ranges acc w1 = (out, w') ->
              exists k evs,
                (k <= List.length ((lab, f0) :: ranges))%nat /\
                w_trace w' = w_trace w ++ evs /\
                posts evs = map (fun t => count_request (snd t))
                                (firstn k ((lab, f0) :: ranges)) /\
                forall data, out = Ok data ->
                  k = List.length ((lab, f0) :: ranges) /\
                  exists new, data = acc ++ new /\
                    (List.length new <= List.length ((lab, f0) :: ranges))%nat).
    { intros Hrun.
      destruct (Hnext acc w1 [] ltac:(now rewrite app_nil_r) eq_refl Hrun)
        as (k & evs & Hk & Ht & Hp & Hok).
      exists k, evs. split; [exact Hk|]. split; [exact Ht|]. split; [exact Hp|].
      intros data Hd. destruct (Hok data Hd) as (Hk' & new & Hdata & Hl).
      split; [exact Hk'|]. exists new. split; [exact Hdata | clear - Hl; length_lia]. }
    assert (Hraise : forall e, (Raise e, w1) = (out, w') ->
              exists k evs,
                (k <= List.length ((lab, f0) :: ranges))%nat /\
                w_trace w' = w_trace w ++ evs /\
                posts evs = map (fun t => count_request (snd t))
                                (firstn k ((lab, f0) :: ranges)) /\
                forall data, out = Ok data ->
                  k = List.length ((lab, f0) :: ranges) /\
                  exists new, data = acc ++ new /\
                    (List.length new <= List.length ((lab, f0) :: ranges))%nat).
    { intros e E. inversion E; subst.
      exists 1%nat, (query_events server (w_calls w) "vn" (count_payload f)).
      split; [clear; length_lia|]. split; [reflexivity|]. split; [exact Hone|].
      intros data Hd. discriminate Hd. }
    destruct (answer server (w_calls w) "vn" (count_payload f)) as [[[|kv d]|]|e];
      [exact (Hskip H) | | exact (Hskip H) | exact (Hraise e H)].
    destruct (format_int_cases (dict_get_default "count" (JInt 0) (kv :: d)) w1)
      as [(n & _ & Hf) | (e & _ & _ & Hf)];
      unfold bind at 1 in H; rewrite Hf in H; [|exact (Hraise e H)].
    unfold bind at 1 in H. cbn [print emit] in H.
    match type of H with
    | step2_loop server ranges ?a ?w2 = _ =>
        destruct (Hnext a w2 [EPrint (LCommercial lab n)] eq_refl eq_refl H)
          as (k & evs & Hk & Ht & Hp & Hok)
    end.
    exists k, evs. split; [exact Hk|]. split; [exact Ht|]. split; [exact Hp|].
    intros data Hd. destruct (Hok data Hd) as (Hk' & new & Hdata & Hl).
    split; [exact Hk'|].
    eexists. split; [rewrite Hdata, <- app_assoc; reflexivity|].
    rewrite length_app. clear - Hl. length_lia.
Qed.

Lemma step5_loop_requests (server : service) (ranges : list triple) :
  forall w out w',
    step5_loop server ranges w = (out, w') ->
    exists k evs,
      (k <= List.length ranges)%nat /\
      w_trace w' = w_trace w ++ evs /\
      posts evs = map (fun t => count_request (sales_filter (lower t) (upper t)))
                      (firstn k ranges) /\
      (out = Ok tt -> k = List.length ranges).
Proof.
  induction ranges as [|[[mn mx] lab] ranges IH]; intros w out w' H.
  - cbn in H. inversion H; subst. exists 0%nat, []. rewrite !app_nil_r.
    split; [lia|]. split; [reflexivity|]. split; reflexivity.
  - cbn [step5_loop] in H. unfold bind at 1 in H. rewrite query_vndb_run in H.
    set (f := sales_filter mn mx) in *.
    set (w1 := after_query server "vn" (count_payload f) w) in *.
    assert (Hone : posts (query_events server (w_calls w) "vn" (count_payload f))
                   = map (fun t => count_request (sales_filter (lower t) (upper t)))
                         (firstn 1 ((mn, mx, lab) :: ranges))).
    { rewrite posts_query_events. reflexivity. }
    assert (Hnext : forall w2 tail,
              w_trace w2 = w_trace w1 ++ tail -> posts tail = [] ->
              step5_loop server ranges w2 = (out, w') ->
              exists k evs,
                (k <= List.length ((mn, mx, lab) :: ranges))%nat /\
                w_trace w' = w_trace w ++ evs /\
                posts evs = map (fun t => count_request (sales_filter (lower t) (upper t)))
                                (firstn k ((mn, mx, lab) :: ranges)) /\
                (out = Ok tt -> k = List.length ((mn, mx, lab) :: ranges))).
    { intros w2 tail Hw2 Htail Hrun.
      destruct (IH w2 out w' Hrun) as (k & evs & Hk & Ht & Hp & Hok).
      exists (S k), (query_events server (w_calls w) "vn" (count_payload f) ++ tail ++ evs).
      split; [clear - Hk; length_lia|]. split.
      { rewrite Ht, Hw2. unfold w1. cbn [after_query w_trace].
        rewrite <- !app_assoc. reflexivity. }
      split.
      { rewrite !posts_app, posts_query_events, Htail, Hp. reflexivity. }
      intros Hd. rewrite (Hok Hd). reflexivity. }
    assert (Hraise : forall e, (Raise e, w1) = (out, w') ->
              exists k evs,
                (k <= List.length ((mn, mx, lab) :: ranges))%nat /\
                w_trace w' = w_trace w ++ evs /\
                posts evs = map (fun t => count_request (sales_filter (lower t) (upper t)))
                                (firstn k ((mn, mx, lab) :: ranges)) /\
                (out = Ok tt -> k = List.length ((mn, mx, lab) :: ranges))).
    { intros e E. inversion E; subst.
      exists 1%nat, (query_events server (w_calls w) "vn" (count_payload f)).
      split; [clear; length_lia|]. split; [reflexivity|]. split; [exact Hone|].
      intros Hd. discriminate Hd. }
    destruct (answer server (w_calls w) "vn" (count_payload f)) as [[[|kv d]|]|e];
      [ exact (Hnext w1 [] ltac:(now rewrite app_nil_r) eq_refl H) |
      | exact (Hnext w1 [] ltac:(now rewrite app_nil_r) eq_refl H)
      | exact (Hraise e H) ].
    destruct (format_int_cases (dict_get_default "count" (JInt 0) (kv :: d)) w1)
      as [(n & _ & Hf) | (e & _ & _ & Hf)];
      unfold bind at 1 in H; rewrite Hf in H; [|exact (Hraise e H)].
    unfold bind at 1 in H. cbn [print emit] in H.
    match type of H with
    | step5_loop server ranges ?w2 = _ =>
        exact (Hnext w2 [EPrint (LSales lab n (sales_min_votes mn) (sales_max_votes mx))]
                 eq_refl eq_refl H)
    end.
Qed.

(** X3: the aggregators never retry and never stop early.  In any run of
    the Range Aggregator the requests sent are, in order, the count queries
    for the filters of the first [k] triples; a run that returns has sent
    exactly one request per triple, and has appended at most one record per
    triple behind the records it started from.  The same holds for the
    Commercial-Filter Aggregator with its predicates, and for the loop of
    Step 5 with the filters of the converted sales ranges. *)
Theorem aggregators_one_request_each (server : service) (w : world) :
  (forall ranges acc,
     let (out, w') := step1_loop server ranges acc w in
     exists k evs,
       (k <= List.length ranges)%nat /\
       w_trace w' = w_trace w ++ evs /\
       posts evs = map (fun t => count_request (triple_filter t)) (firstn k ranges) /\
       forall data, out = Ok data ->
         k = List.length ranges /\
         exists new, data = acc ++ new /\ (List.length new <= List.length ranges)%nat) /\
  (forall fl acc,
     let (out, w') := step2_loop server fl acc w in
     exists k evs,
       (k <= List.length fl)%nat /\
       w_trace w' = w_trace w ++ evs /\
       posts evs = map (fun lf => count_request (snd lf)) (firstn k fl) /\
       forall data, out = Ok data ->
         k = List.length fl /\
         exists new, data = acc ++ new /\ (List.length new <= List.length fl)%nat) /\
  (forall ranges,
     let (out, w') := step5_loop server ranges w in
     exists k evs,
       (k <= List.length ranges)%nat /\
       w_trace w' = w_trace w ++ evs /\
       posts evs = map (fun t => count_request (sales_filter (lower t) (upper t)))
                       (firstn k ranges) /\
       (out = Ok tt -> k = List.length ranges)).
Proof.
  split; [|split].
  - intros ranges acc.
    destruct (step1_loop server ranges acc w) as [out w'] eqn:E.
    apply (step1_loop_requests server ranges acc w out w' E).
  - intros fl acc.
    destruct (step2_loop server fl acc w) as [out w'] eqn:E.
    apply (step2_loop_requests server fl acc w out w' E).
  - intros ranges.
    destruct (step5_loop server ranges w) as [out w'] eqn:E.
    apply (step5_loop_requests server ranges w out w' E).
Qed.

(** ** The requests of the fetcher *)

Lemma step3_loop_requests (server : service) (todo : list Z) :
  forall acc w out w',
    step3_loop server todo acc w = (out, w') ->
    exists k evs,
      (k <= List.length todo)%nat /\
      (todo <> [] -> (1 <= k)%nat) /\
      w_calls w' = (w_calls w + k)%nat /\
      w_trace w' = w_trace w ++ evs /\
      posts evs = map page_request (firstn k todo) /\
      forall top, out = Ok top -> exists new, top = acc ++ new.
Proof.
  induction todo as [|page todo IH]; intros acc w out w' H.
  - cbn in H. inversion H; subst. exists 0%nat, []. rewrite !app_nil_r.
    split; [lia|]. split; [intros N; now elim N|]. split; [lia|].
    split; [reflexivity|]. split; [reflexivity|].
    intros top Hd. inversion Hd; subst. exists []. now rewrite app_nil_r.
  - rewrite step3_loop_cons in H. cbv zeta in H.
    set (w1 := after_query server "vn" (page_payload page) w) in *.
    assert (Hend : forall (o : outcome (list json)) tail,
              posts tail = [] ->
              (forall top, o = Ok top -> top = acc) ->
              (o, {| w_calls := w_calls w1; w_trace := w_trace w1 ++ tail |}) = (out, w') ->
              exists k evs,
                (k <= List.length (page :: todo))%nat /\
                (page :: todo <> [] -> (1 <= k)%nat) /\
                w_calls w' = (w_calls w + k)%nat /\
                w_trace w' = w_trace w ++ evs /\
                posts evs = map page_request (firstn k (page :: todo)) /\
                forall top, out = Ok top -> exists new, top = acc ++ new).
    { intros o tail Htail Ho E. inversion E; subst.
      exists 1%nat, (query_events server (w_calls w) "vn" (page_payload page) ++ tail).
      split; [cbn [List.length]; lia|]. split; [intros _; lia|].
      split; [cbn; lia|]. split.
      { cbn [w_trace w1 after_query]. unfold w1. cbn [after_query w_trace].
        now rewrite <- app_assoc. }
      split; [rewrite posts_app, posts_query_events, Htail; reflexivity|].
      intros top Hd. rewrite (Ho top Hd). exists []. now rewrite app_nil_r. }
    destruct (answer server (w_calls w) "vn" (page_payload page)) as [[[|kv d]|]|e].
    + apply (Hend (Ok acc) [EPrint (LPageFailed page)] eq_refl);
        [intros top E; now inversion E | exact H].
    + destruct (dict_get "results" (kv :: d)) as [v|].
      * destruct (py_iter v) as [items|e].
        -- destruct (IH _ _ _ _ H) as (k & evs & Hk & _ & Hc & Ht & Hp & Hok).
           exists (S k), (query_events server (w_calls w) "vn" (page_payload page)
                          ++ [EPrint (LPage page (List.length items))] ++ evs).
           split; [cbn [List.length]; lia|]. split; [intros _; lia|].
           split; [rewrite Hc; cbn; lia|]. split.
           { rewrite Ht. unfold w1. cbn [printed after_query w_trace].
             rewrite <- !app_assoc. reflexivity. }
           split.
           { rewrite !posts_app, posts_query_events, Hp. reflexivity. }
           intros top Hd. destruct (Hok top Hd) as (new & ->).
           exists (items ++ new). now rewrite app_assoc.
        -- apply (Hend (Raise e) []); [reflexivity | intros top E; discriminate E|].
           rewrite app_nil_r. destruct w1; exact H.
      * apply (Hend (Ok acc) [EPrint (LPageFailed page)] eq_refl);
          [intros top E; now inversion E | exact H].
    + apply (Hend (Ok acc) [EPrint (LPageFailed page)] eq_refl);
        [intros top E; now inversion E | exact H].
    + apply (Hend (Raise e) []); [reflexivity | intros top E; discriminate E|].
      rewrite app_nil_r. destruct w1; exact H.
Qed.

(** X4: in any run of the Top-N Fetcher the requests sent are, in order,
    the page queries for pages 1 to [k] with [1 <= k <= 5]: page 1 is always
    requested, no page is requested twice or skipped, and every request asks
    for 100 results sorted by vote count in descending order. *)
Theorem fetcher_requests_in_order (server : service) (w : world) :
  let (out, w') := step3_loop server pages [] w in
  exists k evs,
    (1 <= k <= 5)%nat /\
    w_calls w' = (w_calls w + k)%nat /\
    w_trace w' = w_trace w ++ evs /\
    posts evs = map page_request (firstn k pages) /\
    Forall (fun up =>
              dict_get "results" match snd up with JObj d => d | _ => [] end
                = Some (JInt 100) /\
              dict_get "sort" match snd up with JObj d => d | _ => [] end
                = Some (JStr "votecount") /\
              dict_get "reverse" match snd up with JObj d => d | _ => [] end
                = Some (JBool true))
           (posts evs).
Proof.
  destruct (step3_loop server pages [] w) as [out w'] eqn:E.
  destruct (step3_loop_requests server pages [] w out w' E)
    as (k & evs & Hk & H1 & Hc & Ht & Hp & _).
  exists k, evs. split; [split; [apply H1; discriminate | exact Hk]|].
  split; [exact Hc|]. split; [exact Ht|]. split; [exact Hp|].
  rewrite Hp. apply Forall_forall. intros up Hin.
  apply in_map_iff in Hin. destruct Hin as (page & <- & _).
  repeat split.
Qed.

(** ** Counts that are not integers *)

Lemma step1_loop_prefix (server : service) (pre : list triple) :
  forall (results : list (option dict)) (rest : list triple) (acc : list bucket)
         (w : world),
    answered server (w_calls w) (map triple_filter pre) results ->
    exists w1,
      step1_loop server (pre ++ rest) acc w =
        step1_loop server rest (acc ++ zip_with bucket_for pre results) w1 /\
      w_calls w1 = (w_calls w + List.length pre)%nat.
Proof.
  induction pre as [|[[mn mx] lab] pre IH]; intros [|res results] rest acc w H;
    cbn in H; try contradiction.
  - exists w. cbn [app zip_with]. rewrite app_nil_r. split; [reflexivity | cbn; lia].
  - destruct H as (Ha & Hp & Hrest).
    cbn [app step1_loop]. unfold bind at 1. rewrite query_vndb_run.
    change (triple_filter (mn, mx, lab)) with (votecount_filter mn mx) in Ha.
    rewrite Ha.
    destruct res as [[|kv d]|].
    + destruct (IH results rest acc (after_query server "vn"
                  (count_payload (votecount_filter mn mx)) w) Hrest) as (w1 & E & Hc).
      exists w1. split; [exact E | cbn in Hc |- *; lia].
    + destruct (format_int_ok _ (after_query server "vn"
                  (count_payload (votecount_filter mn mx)) w) Hp) as (n & Hf).
      unfold bind at 1. fold (count_of (kv :: d)). rewrite Hf.
      unfold bind at 1. cbn [print emit].
      match goal with
      | |- context [step1_loop server (pre ++ rest) ?a ?w1] =>
          destruct (IH results rest a w1 Hrest) as (w2 & E & Hc)
      end.
      exists w2. split.
      * rewrite E. cbn [zip_with bucket_for label lower upper fst snd].
        rewrite <- app_assoc.
        destruct mx as [u|]; [unfold truthy_bound; destruct (u =? 0)|]; reflexivity.
      * cbn in Hc |- *. lia.
    + destruct (IH results rest acc (after_query server "vn"
                  (count_payload (votecount_filter mn mx)) w) Hrest) as (w1 & E & Hc).
      exists w1. split; [exact E | cbn in Hc |- *; lia].
Qed.

(** X5: the counts are not validated, but they are printed with the
    thousands-separator format, which is defined for integers only.  When
    the first triples are answered as usual and the next one gets a non-empty
    result whose count is not an integer (a string, [null], a list, an
    object), the Range Aggregator raises right after that request
    ([ValueError] for a string, [TypeError] otherwise): the remaining
    triples are never queried and the records gathered so far are lost. *)
Theorem aggregator_rejects_non_integer_count (server : service)
  (pre : list triple) (results : list (option dict)) (t : triple) (rest : list triple)
  (w : world) (d : dict) :
  answered server (w_calls w) (map triple_filter pre) results ->
  answer server (w_calls w + List.length pre) "vn" (count_payload (triple_filter t))
    = Ok (Some d) ->
  d <> [] ->
  as_int (count_of d) = None ->
  exists w',
    step1_loop server (pre ++ t :: rest) [] w =
      (Raise (match count_of d with JStr _ => ValueError | _ => TypeError end), w') /\
    w_calls w' = (w_calls w + List.length pre + 1)%nat.
Proof.
  intros Hpre Ha Hd Hc.
  destruct (step1_loop_prefix server pre results (t :: rest) [] w Hpre) as (w1 & E & Hw1).
  rewrite E. destruct t as [[mn mx] lab].
  cbn [step1_loop]. unfold bind at 1. rewrite query_vndb_run.
  change (triple_filter (mn, mx, lab)) with (votecount_filter mn mx) in Ha.
  rewrite Hw1, Ha. destruct d as [|kv d]; [contradiction|].
  fold (count_of (kv :: d)). unfold bind at 1.
  eexists. split.
  - destruct (count_of (kv :: d)); try discriminate Hc; reflexivity.
  - destruct (count_of (kv :: d)); try discriminate Hc; cbn; lia.
Qed.

Lemma aggregator_rejects_non_integer_count_witness :
  exists w',
    step1_loop (const_server (ok_response [("count", JStr "1,204")]))
      votecount_ranges [] w0 = (Raise ValueError, w') /\
    w_calls w' = 1%nat.
Proof.
  apply (aggregator_rejects_non_integer_count
           (const_server (ok_response [("count", JStr "1,204")]))
           [] [] (10000, None, "10,000+") (tl votecount_ranges) w0
           [("count", JStr "1,204")]).
  - exact I.
  - reflexivity.
  - discriminate.
  - reflexivity.
Defined.

(** ** Runs that succeed *)

Lemma bind_ok (A B : Type) (m : M A) (k : A -> M B) (w : world) (b : B) (w' : world) :
  bind m k w = (Ok b, w') ->
  exists a w1, m w = (Ok a, w1) /\ k a w1 = (Ok b, w').
Proof.
  unfold bind. destruct (m w) as [[a|e] w1]; [|discriminate].
  intros H. exists a, w1. split; [reflexivity | exact H].
Qed.

Lemma lift_ok (A : Type) (o : outcome A) (w : world) (a : A) (w' : world) :
  lift o w = (Ok a, w') -> o = Ok a /\ w' = w.
Proof. unfold lift. intros H. inversion H; subst. split; reflexivity. Qed.

Lemma run_calls (quiet : bool) (n : nat) (A : Type) (m : M A) (w : world)
  (out : outcome A) (w' : world) (evs : list event) :
  bounded quiet n m -> m w = (out, w') -> w_trace w' = w_trace w ++ evs ->
  w_calls w' = (w_calls w + List.length (posts evs))%nat.
Proof.
  intros Hb E Ht. destruct (Hb w) as (k & evs' & _ & Hc & Ht' & Hl & _).
  rewrite E in Hc, Ht'. cbn [fst snd] in Hc, Ht'.
  rewrite Ht in Ht'. apply app_inv_head in Ht'. subst evs'. lia.
Qed.

Lemma step4_ok (np : numpy) (top_vns : list json) (w : world) (r : option (list Z))
  (w' : world) :
  step4 np top_vns w = (Ok r, w') ->
  w_calls w' = w_calls w /\
  ((top_vns = [] /\ r = None) \/
   (top_vns <> [] /\
    exists vs l median mean,
      extract_votecounts top_vns = Ok vs /\ numeric vs = Ok l /\
      l <> [] /\ r = Some l /\
      np_median np l = Ok median /\ np_mean np l = Ok mean)).
Proof.
  intros H. split.
  - destruct (step4_bounded np top_vns w) as (k & evs & Hk & Hc & _).
    rewrite H in Hc. cbn [snd] in Hc. lia.
  - destruct top_vns as [|vn l0]; [left; cbn in H; inversion H; split; reflexivity|].
    right. split; [discriminate|]. unfold step4 in H.
    apply bind_ok in H. destruct H as (vs & w1 & Hvs & H).
    apply lift_ok in Hvs. destruct Hvs as [Hvs ->].
    apply bind_ok in H. destruct H as (l & w1 & Hl & H).
    apply lift_ok in Hl. destruct Hl as [Hl ->].
    apply bind_ok in H. destruct H as (mx & w1 & Hmx & H).
    apply lift_ok in Hmx. destruct Hmx as [Hmx ->].
    apply bind_ok in H. destruct H as (? & ? & _ & H).
    apply bind_ok in H. destruct H as (median & w1 & Hmed & H).
    apply lift_ok in Hmed. destruct Hmed as [Hmed ->].
    apply bind_ok in H. destruct H as (? & ? & _ & H).
    apply bind_ok in H. destruct H as (mean & w1 & Hmean & H).
    apply lift_ok in Hmean. destruct Hmean as [Hmean ->].
    apply bind_ok in H. destruct H as (? & ? & _ & H).
    apply bind_ok in H. destruct H as (mn & w2 & _ & H).
    do 5 (apply bind_ok in H; destruct H as (? & ? & _ & H)).
    inversion H; subst.
    exists vs, l, median, mean. repeat split; try assumption.
    intros ->. discriminate Hmx.
Qed.

Lemma script_ok (np : numpy) (server : service) (w : world) (s : summary)
  (w' : world) :
  script np server w = (Ok s, w') ->
  exists vd w1 cd w2 top w3 l w4 w5,
    step1_loop server votecount_ranges [] w = (Ok vd, w1) /\
    step2_loop server commercial_filters [] w1 = (Ok cd, w2) /\
    step3_loop server pages [] w2 = (Ok top, w3) /\
    step4 np top (printed (LSaved (List.length top))
                    {| w_calls := w_calls w3;
                       w_trace := w_trace w3 ++ [EDump "vndb_top500.json" (TopDoc top)] |})
      = (Ok (Some l), w4) /\
    step5_loop server sales_estimate_ranges w4 = (Ok tt, w5) /\
    build_summary np vd cd (Some l) = Ok s /\
    w' = {| w_calls := w_calls w5;
            w_trace := w_trace w5 ++
                       [EDump "vndb_analysis_summary.json" (SummaryDoc s)] |}.
Proof.
  unfold script. intros H.
  apply bind_ok in H. destruct H as (vd & w1 & H1 & H).
  apply bind_ok in H. destruct H as (cd & w2 & H2 & H).
  apply bind_ok in H. destruct H as (top & w3 & H3 & H).
  apply bind_ok in H. destruct H as ([] & w3a & Hd & H).
  apply bind_ok in H. destruct H as ([] & w3b & Hp & H).
  apply bind_ok in H. destruct H as (r & w4 & H4 & H).
  apply bind_ok in H. destruct H as ([] & w5 & H5 & H).
  apply bind_ok in H. destruct H as (s' & w5' & Hs & H).
  apply lift_ok in Hs. destruct Hs as [Hs ->].
  apply bind_ok in H. destruct H as ([] & w6 & Hd' & H).
  inversion H; subst s' w6.
  cbn in Hd, Hp, Hd'. inversion Hd; subst w3a. inversion Hp; subst w3b.
  inversion Hd'; subst w'.
  destruct r as [l|]; [|discriminate Hs].
  exists vd, w1, cd, w2, top, w3, l, w4, w5.
  repeat split; assumption.
Qed.

(** X6: the fallback zeros of [top_500_stats] are never stored.  In any run
    of the script that succeeds, the records written to [vndb_top500.json]
    are not empty, their truthy vote counts are not empty either, and the
    four statistics of the summary are those of that list: in particular the
    stored maximum and minimum are vote counts of fetched records.  A run in
    which Step 3 gathers nothing cannot succeed. *)
Theorem successful_run_has_votes (np : numpy) (server : service) (w : world)
  (s : summary) (w' : world) :
  script np server w = (Ok s, w') ->
  exists top vs l,
    top <> [] /\ l <> [] /\
    In (EDump "vndb_top500.json" (TopDoc top)) (w_trace w') /\
    extract_votecounts top = Ok vs /\ numeric vs = Ok l /\
    top_stats np (Some l) = Ok (top_500_stats s) /\
    is_maximum l (max_votes (top_500_stats s)) /\
    is_minimum l (min_votes (top_500_stats s)) /\
    (exists median,
       np_median np l = Ok median /\ median_votes (top_500_stats s) = Float median) /\
    (exists mean,
       np_mean np l = Ok mean /\ mean_votes (top_500_stats s) = Float mean).
Proof.
  intros H. apply script_ok in H.
  destruct H as (vd & w1 & cd & w2 & top & w3 & l & w4 & w5 &
                 H1 & H2 & H3 & H4 & H5 & Hs & ->).
  pose proof H4 as H4'. apply step4_ok in H4'.
  destruct H4' as [_ [[_ Hr] | (Htop & vs & l' & median & mean &
                                 Hvs & Hl & Hne & Hr & Emed & Emean)]];
    [discriminate Hr|].
  inversion Hr; subst l'.
  exists top, vs, l. split; [exact Htop|]. split; [exact Hne|]. split.
  { cbn [w_trace].
    destruct (step5_loop_bounded server sales_estimate_ranges w4)
      as (k5 & evs5 & _ & _ & Ht5 & _).
    rewrite H5 in Ht5. cbn [snd] in Ht5.
    destruct (step4_bounded np top (printed (LSaved (List.length top))
                {| w_calls := w_calls w3;
                   w_trace := w_trace w3 ++ [EDump "vndb_top500.json" (TopDoc top)] |}))
      as (k4 & evs4 & _ & _ & Ht4 & _).
    rewrite H4 in Ht4. cbn [snd printed w_trace] in Ht4.
    rewrite Ht5, Ht4, !in_app_iff. cbn [In]. tauto. }
  split; [exact Hvs|]. split; [exact Hl|].
  destruct (py_max_spec l Hne) as (mx & Emx & Hmx).
  destruct (py_min_spec l Hne) as (mn & Emn & Hmn).
  unfold build_summary in Hs.
  pose proof (top_stats_run np l mx mn median mean Emx Emed Emean Emn) as Est.
  rewrite Est in Hs. inversion Hs; subst s. cbn [top_500_stats max_votes min_votes
    median_votes mean_votes].
  split; [exact Est|]. split; [exact Hmx|]. split; [exact Hmn|].
  split; [exists median | exists mean]; split; auto.
Qed.

Lemma successful_run_has_votes_witness :
  exists s w' top vs l,
    script numpy_raising demo_server w0 = (Ok s, w') /\
    top <> [] /\ l <> [] /\
    In (EDump "vndb_top500.json" (TopDoc top)) (w_trace w') /\
    extract_votecounts top = Ok vs /\ numeric vs = Ok l /\
    top_stats numpy_raising (Some l) = Ok (top_500_stats s).
Proof.
  destruct (script numpy_raising demo_server w0) as [[s|e] w'] eqn:E.
  - destruct (successful_run_has_votes numpy_raising demo_server w0 s w' E)
      as (top & vs & l & H1 & H2 & H3 & H4 & H5 & H6 & _).
    exists s, w', top, vs, l. repeat split; assumption.
  - vm_compute in E. discriminate E.
Defined.

Lemma step_calls_exact (quiet : bool) (n : nat) (A B : Type) (m : M A)
  (w : world) (out : outcome A) (w' : world) (evs : list event)
  (reqs : list B) (f : B -> string * json) :
  bounded quiet n m -> m w = (out, w') ->
  w_trace w' = w_trace w ++ evs -> posts evs = map f reqs ->
  w_calls w' = (w_calls w + List.length reqs)%nat.
Proof.
  intros Hb E Ht Hp.
  rewrite (run_calls quiet n A m w out w' evs Hb E Ht), Hp, length_map. reflexivity.
Qed.

(** X7: a run of the script that succeeds has sent between 26 and 29
    requests: one for each of the 13 buckets, the 5 commercial filters and
    the 6 sales ranges, and between 2 and 5 page requests (the first page
    was accepted, so a second one was asked for). *)
Theorem successful_run_request_count (np : numpy) (server : service) (w : world)
  (s : summary) (w' : world) :
  script np server w = (Ok s, w') ->
  (w_calls w + 26 <= w_calls w' <= w_calls w + 29)%nat.
Proof.
  intros H. apply script_ok in H.
  destruct H as (vd & w1 & cd & w2 & top & w3 & l & w4 & w5 &
                 H1 & H2 & H3 & H4 & H5 & Hs & ->).
  cbn [w_calls].
  destruct (step1_loop_requests server _ _ _ _ _ H1) as (k1 & evs1 & _ & Ht1 & Hp1 & Hok1).
  destruct (Hok1 vd eq_refl) as (-> & _).
  rewrite firstn_all in Hp1.
  pose proof (step_calls_exact true _ _ _ _ w _ w1 evs1 _ _
                (step1_loop_bounded server votecount_ranges []) H1 Ht1 Hp1) as Hc1.
  destruct (step2_loop_requests server _ _ _ _ _ H2) as (k2 & evs2 & _ & Ht2 & Hp2 & Hok2).
  destruct (Hok2 cd eq_refl) as (-> & _).
  rewrite firstn_all in Hp2.
  pose proof (step_calls_exact true _ _ _ _ w1 _ w2 evs2 _ _
                (step2_loop_bounded server commercial_filters []) H2 Ht2 Hp2) as Hc2.
  destruct (step3_loop_requests server _ _ _ _ _ H3)
    as (k3 & evs3 & Hk3 & _ & Hc3 & _).
  pose proof H4 as H4'. apply step4_ok in H4'.
  destruct H4' as [Hc4 [[_ Hr] | (Htop & _)]]; [discriminate Hr|].
  cbn [printed w_calls] in Hc4.
  destruct (step5_loop_requests server _ _ _ _ H5) as (k5 & evs5 & _ & Ht5 & Hp5 & Hok5).
  rewrite (Hok5 eq_refl), firstn_all in Hp5.
  pose proof (step_calls_exact true _ _ _ _ w4 _ w5 evs5 _ _
                (step5_loop_bounded server sales_estimate_ranges) H5 Ht5 Hp5) as Hc5.
  assert (Hk3' : (2 <= k3)%nat).
  { apply step3_complete in H3.
    destruct H3 as (got & Hgot & Hlen & _ & Hcases). cbn [app] in Hgot.
    assert (Hg : (1 <= List.length got)%nat).
    { destruct got as [|g got]; [subst top; now elim Htop | cbn; lia]. }
    change (List.length pages) with 5%nat in Hcases.
    destruct Hcases as [[_ Hc] | (_ & Hc & _)]; lia. }
  change (List.length votecount_ranges) with 13%nat in Hc1.
  change (List.length commercial_filters) with 5%nat in Hc2.
  change (List.length sales_estimate_ranges) with 6%nat in Hc5.
  change (List.length pages) with 5%nat in Hk3.
  lia.
Qed.

Lemma successful_run_request_count_witness :
  exists s w',
    script numpy_raising demo_server w0 = (Ok s, w') /\ (26 <= w_calls w' <= 29)%nat.
Proof.
  destruct (script numpy_raising demo_server w0) as [[s|e] w'] eqn:E.
  - exists s, w'. split; [reflexivity|].
    apply (successful_run_request_count numpy_raising demo_server w0 s w' E).
  - vm_compute in E. discriminate E.
Defined.

(** ** The files written by a run *)



(** ** Order of the statistics *)

Lemma sum_bounds (l : list Z) (lo hi : Z) :
  (forall x, In x l -> lo <= x <= hi) ->
  lo * Z.of_nat (List.length l) <= fold_right Z.add 0 l <= hi * Z.of_nat (List.length l).
Proof.
  induction l as [|x l IH]; intros H; [cbn; lia|].
  cbn [fold_right List.length]. rewrite Nat2Z.inj_succ.
  specialize (IH (fun y Hy => H y (or_intror Hy))).
  pose proof (H x (or_introl eq_refl)). lia.
Qed.

Lemma sorted_nth_in (l : list Z) (i : nat) :
  (i < List.length l)%nat -> In (nth i (sort l) 0) l.
Proof.
  intros Hi. apply (Permutation_in _ (Permutation_sym (sort_perm l))).
  apply nth_In. now rewrite <- (Permutation_length (sort_perm l)).
Qed.

Lemma middle_bounds (l : list Z) (lo hi : Z) :
  l <> [] -> (forall x, In x l -> lo <= x <= hi) ->
  (inject_Z lo <= middle l)%Q /\ (middle l <= inject_Z hi)%Q.
Proof.
  intros Hl Hb.
  assert (Hpos : (0 < List.length l)%nat).
  { destruct l; [contradiction | cbn; lia]. }
  unfold middle. cbv zeta.
  rewrite <- (Permutation_length (sort_perm l)).
  assert (Hhalf : (List.length l / 2 < List.length l)%nat)
    by (apply Nat.div_lt; lia).
  pose proof (Hb _ (sorted_nth_in l (List.length l / 2) Hhalf)) as Hmid.
  destruct (Nat.even (List.length l)).
  - assert (Hprev : (List.length l / 2 - 1 < List.length l)%nat) by lia.
    pose proof (Hb _ (sorted_nth_in l (List.length l / 2 - 1) Hprev)) as Hlow.
    rewrite Qred_correct. unfold Qle, inject_Z. cbn [Qnum Qden]. lia.
  - unfold Qle, inject_Z. cbn [Qnum Qden]. lia.
Qed.

Lemma exact_mean_bounds (l : list Z) (lo hi : Z) :
  l <> [] -> (forall x, In x l -> lo <= x <= hi) ->
  (inject_Z lo <= exact_mean l)%Q /\ (exact_mean l <= inject_Z hi)%Q.
Proof.
  intros Hl Hb.
  assert (Hpos : (0 < List.length l)%nat).
  { destruct l; [contradiction | cbn; lia]. }
  unfold exact_mean. rewrite sum_list_fold_right.
  pose proof (sum_bounds l lo hi Hb) as Hs.
  assert (Hn : Z.pos (Pos.of_nat (List.length l)) = Z.of_nat (List.length l)).
  { destruct (List.length l) as [|n]; [lia|].
    now rewrite <- Pos.of_nat_succ, Zpos_P_of_succ_nat, Nat2Z.inj_succ. }
  unfold Qle, inject_Z. cbn [Qnum Qden]. rewrite Hn. lia.
Qed.

(** X9: the four statistics of a non-empty list of vote counts whose
    absolute values add up to at most [2^53] are ordered as they should be:
    the minimum is at most the maximum, and both the mean and the median, as
    numpy computes them, are finite and lie between them; rounding the mean
    to a double does not push it past the minimum or the maximum. *)
Theorem statistics_ordered (np : numpy) (l : list Z) (mx mn : Z) :
  l <> [] -> exactly_summable l = true ->
  py_max l = Ok mx -> py_min l = Ok mn ->
  mn <= mx /\
  exists mean median,
    np_mean np l = Ok (F64 mean) /\ np_median np l = Ok (F64 median) /\
    (inject_Z mn <= mean)%Q /\ (mean <= inject_Z mx)%Q /\
    (inject_Z mn <= median)%Q /\ (median <= inject_Z mx)%Q.
Proof.
  intros Hl Hs Emx Emn.
  destruct (py_max_spec l Hl) as (mx' & Emx' & Hmx).
  destruct (py_min_spec l Hl) as (mn' & Emn' & Hmn).
  rewrite Emx in Emx'. inversion Emx'; subst mx'.
  rewrite Emn in Emn'. inversion Emn'; subst mn'.
  destruct Hmx as [Hmx_in Hmx]. destruct Hmn as [Hmn_in Hmn].
  assert (Hb : forall x, In x l -> mn <= x <= mx).
  { intros x Hx. split; [now apply Hmn | now apply Hmx]. }
  split; [apply Hmx, Hmn_in|].
  exists (round53 (exact_mean l)), (middle l).
  split; [now apply np_mean_exact|]. split; [now apply np_median_exact|].
  destruct (exact_mean_bounds l mn mx Hl Hb) as [Hlo Hhi].
  destruct (middle_bounds l mn mx Hl Hb) as [Hlo' Hhi'].
  apply exactly_summable_spec in Hs. destruct Hs as [Hs _].
  destruct (sum_abs_bounds l) as [_ Hin].
  pose proof (Hin mx Hmx_in). pose proof (Hin mn Hmn_in).
  split; [apply round53_ge; [lia | exact Hlo]|].
  split; [apply round53_le; [lia | exact Hhi]|].
  split; assumption.
Qed.

Lemma statistics_ordered_witness :
  1 <= 5 /\
  exists mean median,
    np_mean numpy_raising sample_votes = Ok (F64 mean) /\
    np_median numpy_raising sample_votes = Ok (F64 median) /\
    (inject_Z 1 <= mean)%Q /\ (mean <= inject_Z 5)%Q /\
    (inject_Z 1 <= median)%Q /\ (median <= inject_Z 5)%Q.
Proof.
  apply (statistics_ordered numpy_raising sample_votes 5 1);
    [discriminate | reflexivity | reflexivity | reflexivity].
Defined.

(** ** Converted sales ranges *)

Lemma chained_converted (bound : Z) (ts : list triple) :
  chained bound ts ->
  (forall t u, In t ts -> upper t = Some u -> 75 <= u) ->
  chained (bound / 75) (map converted ts).
Proof.
  revert bound. induction ts as [|t ts IH]; intros bound Hc Hbig; [exact I|].
  destruct Hc as [(u & Eu & Hu & Hlo & Hhi) Hc]. cbn [map chained]. split.
  - exists (u / 75).
    pose proof (Hbig t u (or_introl eq_refl) Eu) as Hu75.
    unfold converted. cbn [upper lower fst snd]. rewrite Eu.
    unfold sales_max_votes, sales_min_votes, truthy_bound.
    destruct (Z.eqb_spec u 0); [contradiction|]. cbn [negb].
    split; [reflexivity|].
    pose proof (Z.div_le_mono 75 u 75 ltac:(lia) Hu75) as H1.
    rewrite Z.div_same in H1 by lia.
    pose proof (Z.div_le_mono (lower t) u 75 ltac:(lia) Hlo).
    pose proof (Z.div_le_mono u bound 75 ltac:(lia) Hhi).
    split; [lia|]. split; assumption.
  - apply (IH (lower t) Hc). intros t' u' Hin. apply Hbig. now right.
Qed.

Lemma filter_converted (r : dict) (ts : list triple) :
  List.length (filter (fun t => eval_filter r (sales_filter (lower t) (upper t))) ts) =
  List.length (filter (matches r) (map converted ts)).
Proof.
  induction ts as [|t ts IH]; [reflexivity|]. cbn [filter map].
  replace (matches r (converted t))
    with (eval_filter r (sales_filter (lower t) (upper t)))
    by (rewrite sales_filter_eq; reflexivity).
  destruct (eval_filter r (sales_filter (lower t) (upper t)));
    cbn [List.length]; rewrite IH; reflexivity.
Qed.

(** X10: dividing the bounds by 75 keeps sales ranges apart.  For any list
    of sales ranges that starts with an unbounded range and goes on as a
    descending chain (each upper bound present, nonzero, at least the lower
    bound and at most the lower bound of the range before), if every upper
    bound is at least 75 then at most one of the filters Step 5 builds
    selects a given record.  (A bound below 75 is converted to 0, which the
    filter construction reads as "no upper bound": see
    [small_sales_bound_overlaps].) *)
Theorem sales_ranges_stay_disjoint (top : triple) (rest : list triple) (r : dict) :
  upper top = None ->
  chained (lower top) rest ->
  (forall t u, In t rest -> upper t = Some u -> 75 <= u) ->
  (List.length
     (filter (fun t => eval_filter r (sales_filter (lower t) (upper t))) (top :: rest))
   <= 1)%nat.
Proof.
  intros Htop Hc Hbig. rewrite filter_converted. cbn [map filter].
  pose proof (chained_converted (lower top) rest Hc Hbig) as Hc'.
  change (lower top / 75) with (lower (converted top)) in Hc'.
  destruct (matches r (converted top)) eqn:Hm.
  - apply matches_spec in Hm. destruct Hm as (v & Ev & Hlt & _).
    rewrite (chained_above r v _ _ Hc' Ev Hlt). cbn. lia.
  - apply (chained_count r _ _ Hc').
Qed.

Lemma sales_ranges_stay_disjoint_witness :
  (List.length
     (filter (fun t => eval_filter [("votecount", JInt 666)]
                         (sales_filter (lower t) (upper t)))
        sales_estimate_ranges) <= 1)%nat.
Proof.
  apply (sales_ranges_stay_disjoint (100000, None, "100k+") (tl sales_estimate_ranges)).
  - reflexivity.
  - cbn [chained tl sales_estimate_ranges lower upper fst snd].
    repeat match goal with
           | |- _ /\ _ => split
           | |- exists _, _ => eexists
           | |- True => exact I
           end; first [reflexivity | lia].
  - cbn [tl sales_estimate_ranges In]. intros t u Hin Eu.
    repeat (destruct Hin as [<- | Hin];
            [cbn in Eu; first [discriminate Eu | inversion Eu; lia]|]).
    contradiction.
Defined.

Example small_sales_bound_overlaps :
  map label
    (filter (fun t => eval_filter [("votecount", JInt 5000)]
                        (sales_filter (lower t) (upper t)))
       small_sales_ranges)
  = ["1k+"; "0-50"].
Proof. reflexivity. Qed.

(** ** What a successful run stores *)

Lemma step1_loop_shape (server : service) (ranges : list triple) :
  forall acc w data w',
    step1_loop server ranges acc w = (Ok data, w') ->
    exists results,
      answered server (w_calls w) (map triple_filter ranges) results /\
      data = acc ++ zip_with bucket_for ranges results.
Proof.
  induction ranges as [|[[mn mx] lab] ranges IH]; intros acc w data w' H.
  - cbn in H. inversion H; subst. exists []. split; [exact I | now rewrite app_nil_r].
  - cbn [step1_loop] in H. unfold bind at 1 in H. rewrite query_vndb_run in H.
    destruct (answer server (w_calls w) "vn" (count_payload (votecount_filter mn mx)))
      as [res|e] eqn:Ha; [|discriminate H].
    destruct res as [[|kv d]|].
    + apply IH in H. destruct H as (results & Hans & ->).
      exists (Some [] :: results). cbn [map answered zip_with bucket_for app].
      repeat split; assumption.
    + destruct (format_int_cases (dict_get_default "count" (JInt 0) (kv :: d))
                  (after_query server "vn" (count_payload (votecount_filter mn mx)) w))
        as [(n & Hn & Hf) | (e & _ & _ & Hf)];
        unfold bind at 1 in H; rewrite Hf in H; [|discriminate H].
      unfold bind at 1 in H. cbn [print emit] in H.
      apply IH in H. destruct H as (results & Hans & ->).
      exists (Some (kv :: d) :: results). cbn [map answered]. split.
      * split; [exact Ha|]. split; [|exact Hans].
        cbn [printable]. unfold count_of. rewrite Hn. discriminate.
      * cbn [zip_with bucket_for label lower upper fst snd]. rewrite <- app_assoc.
        destruct mx as [u|]; [unfold truthy_bound; destruct (u =? 0)|]; reflexivity.
    + apply IH in H. destruct H as (results & Hans & ->).
      exists (None :: results). cbn [map answered zip_with bucket_for app].
      repeat split; assumption.
Qed.

Lemma step2_loop_shape (server : service) (fl : list (string * json)) :
  forall acc w data w',
    step2_loop server fl acc w = (Ok data, w') ->
    exists results,
      answered server (w_calls w) (map snd fl) results /\
      data = acc ++ zip_with commercial_for fl results.
Proof.
  induction fl as [|[lab f] fl IH]; intros acc w data w' H.
  - cbn in H. inversion H; subst. exists []. split; [exact I | now rewrite app_nil_r].
  - cbn [step2_loop] in H. unfold bind at 1 in H. rewrite query_vndb_run in H.
    destruct (answer server (w_calls w) "vn" (count_payload f))
      as [res|e] eqn:Ha; [|discriminate H].
    destruct res as [[|kv d]|].
    + apply IH in H. destruct H as (results & Hans & ->).
      exists (Some [] :: results). cbn [map answered zip_with commercial_for app snd].
      repeat split; assumption.
    + destruct (format_int_cases (dict_get_default "count" (JInt 0) (kv :: d))
                  (after_query server "vn" (count_payload f) w))
        as [(n & Hn & Hf) | (e & _ & _ & Hf)];
        unfold bind at 1 in H; rewrite Hf in H; [|discriminate H].
      unfold bind at 1 in H. cbn [print emit] in H.
      apply IH in H. destruct H as (results & Hans & ->).
      exists (Some (kv :: d) :: results). cbn [map answered snd]. split.
      * split; [exact Ha|]. split; [|exact Hans].
        cbn [printable]. unfold count_of. rewrite Hn. discriminate.
      * cbn [zip_with commercial_for fst]. rewrite <- app_assoc. reflexivity.
    + apply IH in H. destruct H as (results & Hans & ->).
      exists (None :: results). cbn [map answered zip_with commercial_for app snd].
      repeat split; assumption.
Qed.

Lemma answered_length (server : service) (fs : list json) :
  forall n results, answered server n fs results -> List.length results = List.length fs.
Proof.
  induction fs as [|f fs IH]; intros n [|res results] H; cbn in H; try contradiction.
  - reflexivity.
  - destruct H as (_ & _ & H). cbn [List.length]. now rewrite (IH _ _ H).
Qed.

Lemma zip_with_length (A B C : Type) (f : A -> B -> list C) (xs : list A) (ys : list B) :
  (forall x y, (List.length (f x y) <= 1)%nat) ->
  (List.length (zip_with f xs ys) <= List.length xs)%nat.
Proof.
  intros Hf. revert ys. induction xs as [|x xs IH]; intros [|y ys]; cbn; try lia.
  rewrite length_app. specialize (Hf x y). specialize (IH ys). lia.
Qed.

(** X11: what a successful run stores.  In any run of the script that
    succeeds, the summary carries the constant total 58868; its bucket list
    is, in declared order, one record for each of the 13 declared buckets
    whose query returned a non-empty object, with the returned count (an
    integer) kept as it is; its commercial list is built the same way from
    the 5 declared predicates.  The counts of Step 5 are never stored. *)
Theorem summary_contents (np : numpy) (server : service) (w : world) (s : summary)
  (w' : world) :
  script np server w = (Ok s, w') ->
  total_vns_field s = 58868 /\
  exists results1 results2,
    answered server (w_calls w) (map triple_filter votecount_ranges) results1 /\
    answered server (w_calls w + 13) (map snd commercial_filters) results2 /\
    votecount_distribution s = zip_with bucket_for votecount_ranges results1 /\
    commercial_counts s = zip_with commercial_for commercial_filters results2 /\
    (List.length (votecount_distribution s) <= 13)%nat /\
    (List.length (commercial_counts s) <= 5)%nat.
Proof.
  intros H. apply script_ok in H.
  destruct H as (vd & w1 & cd & w2 & top & w3 & l & w4 & w5 &
                 H1 & H2 & H3 & H4 & H5 & Hs & ->).
  unfold build_summary in Hs.
  destruct (top_stats np (Some l)) as [st|e]; [|discriminate Hs].
  inversion Hs; subst s. cbn [total_vns_field votecount_distribution commercial_counts].
  split; [reflexivity|].
  destruct (step1_loop_requests server _ _ _ _ _ H1) as (k1 & evs1 & _ & Ht1 & Hp1 & Hok1).
  destruct (Hok1 vd eq_refl) as (-> & _). rewrite firstn_all in Hp1.
  pose proof (step_calls_exact true _ _ _ _ w _ w1 evs1 _ _
                (step1_loop_bounded server votecount_ranges []) H1 Ht1 Hp1) as Hc1.
  change (List.length votecount_ranges) with 13%nat in Hc1.
  apply step1_loop_shape in H1. destruct H1 as (results1 & Ha1 & ->).
  apply step2_loop_shape in H2. destruct H2 as (results2 & Ha2 & ->).
  rewrite Hc1 in Ha2. cbn [app].
  exists results1, results2. repeat split; try assumption.
  - apply (zip_with_length _ _ _ bucket_for votecount_ranges results1).
    intros t [[|kv d]|]; cbn; lia.
  - apply (zip_with_length _ _ _ commercial_for commercial_filters results2).
    intros t [[|kv d]|]; cbn; lia.
Qed.

Lemma summary_contents_witness :
  exists s w',
    script numpy_raising demo_server w0 = (Ok s, w') /\
    total_vns_field s = 58868 /\
    (List.length (votecount_distribution s) <= 13)%nat /\
    (List.length (commercial_counts s) <= 5)%nat.
Proof.
  destruct (script numpy_raising demo_server w0) as [[s|e] w'] eqn:E.
  - destruct (summary_contents numpy_raising demo_server w0 s w' E)
      as (Ht & r1 & r2 & _ & _ & _ & _ & H1 & H2).
    exists s, w'. repeat split; assumption.
  - vm_compute in E. discriminate E.
Defined.

(** ** Malformed results *)

Lemma step3_prefix (server : service) (pre : list Z) :
  forall (got : list (list json)) (rest : list Z) (acc : list json) (w : world),
    served server (w_calls w) pre got ->
    exists w1,
      step3_loop server (pre ++ rest) acc w =
        step3_loop server rest (acc ++ List.concat got) w1 /\
      w_calls w1 = (w_calls w + List.length pre)%nat.
Proof.
  induction pre as [|page pre IH]; intros [|items got] rest acc w H;
    cbn in H; try contradiction.
  - exists w. cbn [app List.concat]. rewrite app_nil_r. split; [reflexivity | cbn; lia].
  - destruct H as ((res & Ha & kv & d & v & -> & Hv & Hi) & Hrest).
    cbn [app]. rewrite step3_loop_cons. cbv zeta. rewrite Ha, Hv, Hi.
    destruct (IH got rest (acc ++ items)
                (printed (LPage page (List.length items))
                   (after_query server "vn" (page_payload page) w)) Hrest)
      as (w1 & E & Hc).
    exists w1. split.
    + rewrite E. cbn [List.concat]. rewrite app_assoc. reflexivity.
    + cbn in Hc |- *. lia.
Qed.

(** X12: a ['results'] key is not enough.  The fetcher tests that the key
    is present, not what it holds: when the first pages are accepted and the
    next result carries under ['results'] a value that cannot be iterated
    ([null], a number, a boolean), [extend] raises [TypeError] right after
    that request.  Unlike a missing key, which ends the loop quietly with the
    partial results, this ends the run: no further page is requested and
    nothing is returned. *)
Theorem fetcher_rejects_non_iterable_results (server : service)
  (pre : list Z) (got : list (list json)) (p : Z) (post : list Z)
  (w : world) (d : dict) (v : json) :
  served server (w_calls w) pre got ->
  answer server (w_calls w + List.length pre) "vn" (page_payload p) = Ok (Some d) ->
  dict_get "results" d = Some v ->
  (v = JNull \/ (exists b, v = JBool b) \/ (exists n, v = JInt n)) ->
  exists w',
    step3_loop server (pre ++ p :: post) [] w = (Raise TypeError, w') /\
    w_calls w' = (w_calls w + List.length pre + 1)%nat.
Proof.
  intros Hpre Ha Hv Hkind.
  destruct (step3_prefix server pre got (p :: post) [] w Hpre) as (w1 & E & Hw1).
  rewrite E, step3_loop_cons. cbv zeta. rewrite Hw1, Ha.
  destruct d as [|kv d]; [discriminate Hv|]. rewrite Hv.
  assert (Hi : py_iter v = Raise TypeError).
  { destruct Hkind as [-> | [[b ->] | [n ->]]]; reflexivity. }
  rewrite Hi. eexists. split; [reflexivity|]. cbn. lia.
Qed.

Lemma fetcher_rejects_non_iterable_results_witness :
  exists w',
    step3_loop (const_server (ok_response [("results", JNull)])) pages [] w0 =
      (Raise TypeError, w') /\
    w_calls w' = 1%nat.
Proof.
  apply (fetcher_rejects_non_iterable_results
           (const_server (ok_response [("results", JNull)]))
           [] [] 1 [2; 3; 4; 5] w0 [("results", JNull)] JNull).
  - exact I.
  - reflexivity.
  - reflexivity.
  - left. reflexivity.
Defined.

(** X13: the statistics step only accepts objects.  If any entry of the
    fetched list is not an object (it has no [.get]), Step 4 raises
    [AttributeError] while it extracts the vote counts, before anything is
    printed; this is what happens to the keys taken from a ['results'] value
    that is an object instead of an array. *)
Theorem statistics_reject_non_objects (np : numpy) (top_vns : list json) (w : world) :
  Exists (fun vn => forall d, vn <> JObj d) top_vns ->
  extract_votecounts top_vns = Raise AttributeError /\
  step4 np top_vns w = (Raise AttributeError, w).
Proof.
  intros Hex.
  assert (E : extract_votecounts top_vns = Raise AttributeError).
  { induction Hex as [vn l Hvn | vn l _ IH].
    - destruct vn as [| | | | |d]; try reflexivity. now elim (Hvn d).
    - destruct vn as [| | | | |d]; try reflexivity.
      cbn [extract_votecounts]. rewrite IH. reflexivity. }
  split; [exact E|].
  destruct top_vns as [|vn l]; [inversion Hex|].
  unfold step4. unfold bind at 1, lift. rewrite E. reflexivity.
Qed.

Lemma statistics_reject_non_objects_witness :
  step4 numpy_raising [vn_sample; JStr "results"] w0 = (Raise AttributeError, w0).
Proof.
  apply (statistics_reject_non_objects numpy_raising [vn_sample; JStr "results"] w0).
  apply Exists_cons_tl. apply Exists_cons_hd. intros d. discriminate.
Defined.

Lemma aggregators_one_request_each_witness :
  exists data w',
    step1_loop (const_server (ok_response [("count", JInt 42)])) votecount_ranges [] w0
      = (Ok data, w') /\
    (List.length data <= 13)%nat.
Proof.
  pose proof (proj1 (aggregators_one_request_each
                       (const_server (ok_response [("count", JInt 42)])) w0)
                votecount_ranges []) as H.
  destruct (step1_loop (const_server (ok_response [("count", JInt 42)]))
              votecount_ranges [] w0) as [[data|e] w'] eqn:E.
  - destruct H as (k & evs & _ & _ & _ & Hok).
    destruct (Hok data eq_refl) as (_ & new & Hd & Hl).
    exists data, w'. split; [reflexivity|]. rewrite Hd. exact Hl.
  - vm_compute in E. discriminate E.
Defined.

(** ** Independence of the fetch order *)

Lemma sorted_head_least (x : Z) (l : list Z) :
  Sorted Z.le (x :: l) -> forall y, In y l -> x <= y.
Proof.
  intros Hs. apply Sorted_StronglySorted in Hs; [|exact Z.le_trans].
  inversion Hs as [|? ? _ Hall]; subst.
  intros y Hy. rewrite Forall_forall in Hall. now apply Hall.
Qed.

Lemma sorted_perm_unique (a : list Z) :
  forall b, Sorted Z.le a -> Sorted Z.le b -> Permutation a b -> a = b.
Proof.
  induction a as [|x a IH]; intros b Ha Hb Hp.
  - apply Permutation_nil in Hp. now subst.
  - destruct b as [|y b]; [apply Permutation_sym, Permutation_nil in Hp; discriminate|].
    assert (Exy : x = y).
    { assert (Hx : In x (y :: b)) by (apply (Permutation_in _ Hp); now left).
      assert (Hy : In y (x :: a))
        by (apply (Permutation_in _ (Permutation_sym Hp)); now left).
      destruct Hx as [Hx | Hx]; [now symmetry|].
      destruct Hy as [Hy | Hy]; [assumption|].
      pose proof (sorted_head_least y b Hb x Hx).
      pose proof (sorted_head_least x a Ha y Hy). lia. }
    subst y. f_equal. apply IH.
    + now inversion Ha.
    + now inversion Hb.
    + now apply Permutation_cons_inv in Hp.
Qed.

Lemma sort_permutation (l l' : list Z) : Permutation l l' -> sort l = sort l'.
Proof.
  intros Hp. apply sorted_perm_unique; try apply sort_sorted.
  apply perm_trans with l; [apply Permutation_sym, sort_perm|].
  apply perm_trans with l'; [exact Hp | apply sort_perm].
Qed.

Lemma sum_list_permutation (l l' : list Z) :
  Permutation l l' -> sum_list l = sum_list l'.
Proof.
  intros Hp. rewrite !sum_list_fold_right.
  induction Hp; cbn [fold_right]; lia.
Qed.

Lemma exactly_summable_permutation (l l' : list Z) :
  Permutation l l' -> exactly_summable l = exactly_summable l'.
Proof.
  intros Hp. unfold exactly_summable.
  now rewrite (sum_abs_permutation l l' Hp), (Permutation_length Hp).
Qed.

(** X14: within the exact range the statistics do not depend on the order
    in which the records were fetched: two lists of vote counts that are
    permutations of each other, with absolute values adding up to at most
    [2^53], give the same maximum, median, mean and minimum, hence the same
    [top_500_stats].  (Beyond that range the float sum that numpy computes
    may depend on the order.) *)
Theorem statistics_order_independent (np : numpy) (l l' : list Z) :
  Permutation l l' -> exactly_summable l = true ->
  py_max l = py_max l' /\ py_min l = py_min l' /\
  np_mean np l = np_mean np l' /\ np_median np l = np_median np l' /\
  top_stats np (Some l) = top_stats np (Some l').
Proof.
  intros Hp Hs.
  pose proof Hs as Hs'. rewrite (exactly_summable_permutation l l' Hp) in Hs'.
  assert (Hmax : py_max l = py_max l').
  { destruct l as [|x xs].
    - apply Permutation_nil in Hp. now subst.
    - destruct l' as [|y ys];
        [apply Permutation_sym, Permutation_nil in Hp; discriminate|].
      destruct (py_max_spec (x :: xs) ltac:(discriminate)) as (m & Em & Hin & Hle).
      destruct (py_max_spec (y :: ys) ltac:(discriminate)) as (m' & Em' & Hin' & Hle').
      rewrite Em, Em'. f_equal.
      pose proof (Hle' m (Permutation_in _ Hp Hin)).
      pose proof (Hle m' (Permutation_in _ (Permutation_sym Hp) Hin')). lia. }
  assert (Hmin : py_min l = py_min l').
  { destruct l as [|x xs].
    - apply Permutation_nil in Hp. now subst.
    - destruct l' as [|y ys];
        [apply Permutation_sym, Permutation_nil in Hp; discriminate|].
      destruct (py_min_spec (x :: xs) ltac:(discriminate)) as (m & Em & Hin & Hle).
      destruct (py_min_spec (y :: ys) ltac:(discriminate)) as (m' & Em' & Hin' & Hle').
      rewrite Em, Em'. f_equal.
      pose proof (Hle' m (Permutation_in _ Hp Hin)).
      pose proof (Hle m' (Permutation_in _ (Permutation_sym Hp) Hin')). lia. }
  assert (Hmean : np_mean np l = np_mean np l').
  { destruct l as [|x xs].
    - apply Permutation_nil in Hp. now subst.
    - destruct l' as [|y ys];
        [apply Permutation_sym, Permutation_nil in Hp; discriminate|].
      rewrite (np_mean_exact np (x :: xs) ltac:(discriminate) Hs).
      rewrite (np_mean_exact np (y :: ys) ltac:(discriminate) Hs').
      unfold exact_mean.
      now rewrite (sum_list_permutation _ _ Hp), (Permutation_length Hp). }
  assert (Hmed : np_median np l = np_median np l').
  { destruct l as [|x xs].
    - apply Permutation_nil in Hp. now subst.
    - destruct l' as [|y ys];
        [apply Permutation_sym, Permutation_nil in Hp; discriminate|].
      rewrite (np_median_exact np (x :: xs) ltac:(discriminate) Hs).
      rewrite (np_median_exact np (y :: ys) ltac:(discriminate) Hs').
      unfold middle. now rewrite (sort_permutation _ _ Hp). }
  repeat split; try assumption.
  unfold top_stats.
  destruct l as [|x xs].
  - apply Permutation_nil in Hp. now subst.
  - destruct l' as [|y ys];
      [apply Permutation_sym, Permutation_nil in Hp; discriminate|].
    rewrite Hmax, Hmin, Hmean, Hmed. reflexivity.
Qed.

Lemma statistics_order_independent_witness :
  top_stats numpy_raising (Some sample_votes) =
  top_stats numpy_raising (Some (rev sample_votes)).
Proof.
  apply (statistics_order_independent numpy_raising sample_votes (rev sample_votes)).
  - apply Permutation_rev.
  - reflexivity.
Defined.

(** ** The filters of the declared buckets *)

(** C1: for every bucket triple [(L, U, label)] that the Range Aggregator
    processes, that is every triple of [votecount_ranges]: when [U] is
    present the filter built ([if max_votes:]) is the AND of
    [votecount > L] and [votecount <= U], and the records it selects are
    exactly those whose vote count [v] satisfies [L < v <= U]; when [U] is
    absent the filter is the single comparison [votecount > L], selecting
    exactly the records with [L < v].  The Model-Comparison step builds its
    filters in the same way from the bounds of [sales_estimate_ranges]
    divided by 75.  These filters are the ones sent: the requests of a run
    of either loop carry, in order, the filters of the first triples. *)
Theorem filter_construction :
  (forall L U lab,
     In (L, U, lab) votecount_ranges ->
     match U with
     | Some u =>
         votecount_filter L U =
           and2 (cmp "votecount" ">" L) (cmp "votecount" "<=" u) /\
         forall r, eval_filter r (votecount_filter L U) = true <-> selects_between r L u
     | None =>
         votecount_filter L U = cmp "votecount" ">" L /\
         forall r, eval_filter r (votecount_filter L U) = true <-> selects_above r L
     end) /\
  (forall min_sales max_sales lab,
     In (min_sales, max_sales, lab) sales_estimate_ranges ->
     match max_sales with
     | Some s =>
         sales_filter min_sales max_sales =
           and2 (cmp "votecount" ">" (min_sales / 75)) (cmp "votecount" "<=" (s / 75)) /\
         forall r,
           eval_filter r (sales_filter min_sales max_sales) = true <->
           selects_between r (min_sales / 75) (s / 75)
     | None =>
         sales_filter min_sales max_sales = cmp "votecount" ">" (min_sales / 75) /\
         forall r,
           eval_filter r (sales_filter min_sales max_sales) = true <->
           selects_above r (min_sales / 75)
     end) /\
  (forall server w,
     let (out, w') := step1_loop server votecount_ranges [] w in
     exists k evs,
       w_trace w' = w_trace w ++ evs /\
       posts evs =
         map (fun t => count_request (votecount_filter (lower t) (upper t)))
             (firstn k votecount_ranges)) /\
  (forall server w,
     let (out, w') := step5_loop server sales_estimate_ranges w in
     exists k evs,
       w_trace w' = w_trace w ++ evs /\
       posts evs =
         map (fun t => count_request (sales_filter (lower t) (upper t)))
             (firstn k sales_estimate_ranges)).
Proof.
  split; [|split; [|split]].
  - intros L U lab Hin. cbn in Hin.
    repeat (destruct Hin as [Hin | Hin];
            [ inversion Hin; subst; split;
              [ reflexivity
              | intros r;
                first [ apply selects_bounded; discriminate
                      | apply selects_unbounded; left; reflexivity ] ]
            | ]).
    contradiction.
  - intros min_sales max_sales lab Hin. cbn in Hin.
    repeat (destruct Hin as [Hin | Hin];
            [ inversion Hin; subst; split;
              [ reflexivity
              | intros r; rewrite sales_filter_eq;
                first [ apply (selects_unbounded r _ None); left; reflexivity
                      | match goal with
                        | |- context [sales_max_votes (Some ?s)] =>
                            change (sales_max_votes (Some s)) with (Some (s / 75))
                        end;
                        unfold sales_min_votes; apply selects_bounded;
                        vm_compute; discriminate ] ]
            | ]).
    contradiction.
  - intros server w.
    destruct (step1_loop server votecount_ranges [] w) as [out w'] eqn:E.
    destruct (step1_loop_requests server _ _ _ _ _ E) as (k & evs & _ & Ht & Hp & _).
    exists k, evs. split; [exact Ht | exact Hp].
  - intros server w.
    destruct (step5_loop server sales_estimate_ranges w) as [out w'] eqn:E.
    destruct (step5_loop_requests server _ _ _ _ E) as (k & evs & _ & Ht & Hp & _).
    exists k, evs. split; [exact Ht | exact Hp].
Qed.

Lemma filter_construction_witness :
  (votecount_filter 5000 (Some 10000) =
     and2 (cmp "votecount" ">" 5000) (cmp "votecount" "<=" 10000) /\
   forall r,
     eval_filter r (votecount_filter 5000 (Some 10000)) = true <->
     selects_between r 5000 10000) /\
  (sales_filter 100000 None = cmp "votecount" ">" (100000 / 75) /\
   forall r,
     eval_filter r (sales_filter 100000 None) = true <->
     selects_above r (100000 / 75)).
Proof.
  split.
  - apply (proj1 filter_construction 5000 (Some 10000) "5,000-10,000").
    cbn. right. left. reflexivity.
  - apply (proj1 (proj2 filter_construction) 100000 None "100k+").
    cbn. left. reflexivity.
Defined.

(** * The documents written to disk *)

(** ** Whitespace and strings *)







(** ** Numbers *)















(** ** Dictionaries *)





(** ** Values *)



















(** ** The summary document *)













(** The text of a small summary, as [json.dump] lays it out. *)
Example summary_text :
  string_of_list_ascii
    (file_text exact_repr
       (SummaryDoc
          {| total_vns_field := 58868;
             votecount_distribution :=
               [ {| bk_range := "10,000+"; bk_min := 10000; bk_max := 999999;
                    bk_count := JInt 12 |} ];
             commercial_counts := [];
             top_500_stats :=
               {| max_votes := 3; median_votes := Float (F64 (5 # 2));
                  mean_votes := Float (F64 (5 # 2)); min_votes := 2 |} |})) =
  double_quoted
    (String.concat (String "010" EmptyString)
       [ "{";
         "  'total_vns': 58868,";
         "  'votecount_distribution': [";
         "    {";
         "      'range': '10,000+',";
         "      'min': 10000,";
         "      'max': 999999,";
         "      'count': 12";
         "    }";
         "  ],";
         "  'commercial_counts': [],";
         "  'top_500_stats': {";
         "    'max_votes': 3,";
         "    'median_votes': 2.5,";
         "    'mean_votes': 2.5,";
         "    'min_votes': 2";
         "  }";
         "}" ]).
Proof. vm_compute. reflexivity. Qed.
